(** * Agent orchestration core: query guards, result shaping, pruning, retry

    A shallow embedding of the Python sources

      - [mindsdb_tool.py]            ([MindsDBTool.query], [execute_mindsdb_tool])
      - [postgres_direct_tool.py]    ([PostgresDirectTool.query],
                                      [execute_postgres_direct_tool];
                                      [PostgresPool] for [connect] and
                                      the pool)
      - [city_insights_analyzer.py]  ([CityInsightsAnalyzer._execute_tool],
                                      [CityInsightsAnalyzer.analyze_city])
      - [mindsdb_agent.py]           ([MindsDBAgent.run],
                                      [InteractiveMode.interactive_turn])

    [city_insights_analyzer_gemini.py] repeats the limit check, the result
    shaping and the response parsing of [city_insights_analyzer.py] (it
    also turns UUID cells into strings before shaping); what is proved of
    these three for the analyzer holds for it as well.

    Text is modelled by [string]; the SQL texts and model outputs considered
    are ASCII, so [lower], [upper] and [strip] act on the ASCII letters and
    the ASCII white space only.  The outside world (the completion provider,
    the MindsDB HTTP gateway, the PostgreSQL pool, [time.sleep]) is reached
    through a small log-passing monad: every external call appends one
    [event] to the log, and the answer of the world may depend on the whole
    log so far. *)

From Stdlib Require Import String Ascii List Bool Arith ZArith NArith Lia.
From Stdlib Require Import QArith DecimalString.
Import ListNotations.

Local Close Scope Q_scope.

(* ------------------------------------------------------------------ *)
(** ** Python string operations                                        *)
(* ------------------------------------------------------------------ *)

Module Py.

Local Open Scope string_scope.

Definition code (c : ascii) : nat := nat_of_ascii c.

(** [c.isspace()] on ASCII: TAB, LF, VT, FF, CR, FS, GS, RS, US, SPACE. *)
Definition is_space (c : ascii) : bool :=
  let n := code c in
  (((9 <=? n) && (n <=? 13)) || ((28 <=? n) && (n <=? 32)))%nat.

Definition is_digit (c : ascii) : bool :=
  let n := code c in ((48 <=? n) && (n <=? 57))%nat.

Definition lower_char (c : ascii) : ascii :=
  let n := code c in
  if ((65 <=? n) && (n <=? 90))%nat then ascii_of_nat (n + 32) else c.

Definition upper_char (c : ascii) : ascii :=
  let n := code c in
  if ((97 <=? n) && (n <=? 122))%nat then ascii_of_nat (n - 32) else c.

Fixpoint map_chars (f : ascii -> ascii) (s : string) : string :=
  match s with
  | EmptyString => EmptyString
  | String c t => String (f c) (map_chars f t)
  end.

(** [s.lower()] and [s.upper()]. *)
Definition lower : string -> string := map_chars lower_char.
Definition upper : string -> string := map_chars upper_char.

(** [s.startswith(p)]. *)
Definition startswith (s p : string) : bool := String.prefix p s.

(** [sub in s]. *)
Fixpoint contains (sub s : string) : bool :=
  String.prefix sub s ||
  match s with
  | EmptyString => false
  | String _ t => contains sub t
  end.

Fixpoint lstrip (s : string) : string :=
  match s with
  | EmptyString => EmptyString
  | String c t => if is_space c then lstrip t else s
  end.

Fixpoint rstrip (s : string) : string :=
  match s with
  | EmptyString => EmptyString
  | String c t =>
      match rstrip t with
      | EmptyString => if is_space c then EmptyString else String c EmptyString
      | t' => String c t'
      end
  end.

(** [s.strip()]. *)
Definition strip (s : string) : string := rstrip (lstrip s).

Fixpoint drop (n : nat) (s : string) : string :=
  match n, s with
  | O, _ => s
  | S _, EmptyString => EmptyString
  | S k, String _ t => drop k t
  end.

Fixpoint take (n : nat) (s : string) : string :=
  match n, s with
  | O, _ => EmptyString
  | S _, EmptyString => EmptyString
  | S k, String c t => String c (take k t)
  end.

(** [s.find(sub, start)] for [0 <= start]: the index, or [-1]. *)
Definition find (s sub : string) (start : nat) : Z :=
  match String.index start sub s with
  | Some i => Z.of_nat i
  | None => (-1)%Z
  end.

(** [s.rfind(c)] for a one-character [c]: the last index, or [-1]. *)
Fixpoint rfind_char (s : string) (c : ascii) : Z :=
  match s with
  | EmptyString => (-1)%Z
  | String a t =>
      let r := rfind_char t c in
      if (0 <=? r)%Z then (r + 1)%Z
      else if Ascii.eqb a c then 0%Z else (-1)%Z
  end.

(** A slice bound as Python normalises it: a negative bound counts from
    the end, and the result is clamped to [0 .. len]. *)
Definition bound (len : nat) (i : Z) : nat :=
  let j := if (i <? 0)%Z then (i + Z.of_nat len)%Z else i in
  Nat.min len (Z.to_nat j).

(** [s[start:stop]]. *)
Definition slice (s : string) (start stop : Z) : string :=
  let len := String.length s in
  let a := bound len start in
  let b := bound len stop in
  take (b - a) (drop a s).

(** [len(s)]. *)
Definition len (s : string) : N := N.of_nat (String.length s).

(** [str(n)] for an integer. *)
Definition str_of_N (n : N) : string := NilZero.string_of_uint (N.to_uint n).
Definition str_of_nat (n : nat) : string := NilZero.string_of_uint (Nat.to_uint n).
Definition str_of_Z (z : Z) : string := NilZero.string_of_int (Z.to_int z).

(** [int(s)] for a string of decimal digits. *)
Definition digit_value (c : ascii) : N := N.of_nat (code c - 48).

Fixpoint int_of_digits_from (acc : N) (s : string) : N :=
  match s with
  | EmptyString => acc
  | String c t => int_of_digits_from (acc * 10 + digit_value c) t
  end.

Definition int_of_digits : string -> N := int_of_digits_from 0.

(** The longest prefix of digits: what [\d+] consumes. *)
Fixpoint span_digits (s : string) : string :=
  match s with
  | EmptyString => EmptyString
  | String c t => if is_digit c then String c (span_digits t) else EmptyString
  end.

(** [re.match(r'limit\s+(\d+)', s)]: group 1 when the pattern matches at
    the start of [s].  White space and digits are disjoint, so the greedy
    [\s+] never has to give characters back. *)
Definition match_limit_here (s : string) : option string :=
  if String.prefix "limit" s then
    match drop 5 s with
    | String c t =>
        if is_space c then
          match span_digits (lstrip t) with
          | EmptyString => None
          | ds => Some ds
          end
        else None
    | EmptyString => None
    end
  else None.

(** [re.search(r'limit\s+(\d+)', s)]: the leftmost match. *)
Fixpoint search_limit (s : string) : option string :=
  match match_limit_here s with
  | Some ds => Some ds
  | None =>
      match s with
      | EmptyString => None
      | String _ t => search_limit t
      end
  end.

Definition single_quote : ascii := "'"%char.
Definition double_quote : ascii := ascii_of_nat 34.
Definition backslash : ascii := ascii_of_nat 92.

Fixpoint has_char (c : ascii) (s : string) : bool :=
  match s with
  | EmptyString => false
  | String a t => Ascii.eqb a c || has_char c t
  end.

(** A hexadecimal digit, in lower case. *)
Definition hex_digit (n : nat) : ascii :=
  if (n <? 10)%nat then ascii_of_nat (48 + n) else ascii_of_nat (87 + n).

(** What [repr] writes for one character, inside the quote [quote]. *)
Definition repr_char (quote c : ascii) : string :=
  let n := code c in
  if Ascii.eqb c quote || Ascii.eqb c backslash then
    String backslash (String c EmptyString)
  else if (n =? 9)%nat then String backslash "t"
  else if (n =? 10)%nat then String backslash "n"
  else if (n =? 13)%nat then String backslash "r"
  else if ((n <? 32) || (n =? 127))%nat then
    String backslash
      (String "x" (String (hex_digit (n / 16))
                     (String (hex_digit (n mod 16)) EmptyString)))
  else String c EmptyString.

Fixpoint repr_chars (quote : ascii) (s : string) : string :=
  match s with
  | EmptyString => EmptyString
  | String c t => repr_char quote c ++ repr_chars quote t
  end.

(** [repr(s)], which is how [str] prints a string inside a dictionary:
    in single quotes, or in double quotes when [s] holds a single quote
    and no double quote; the quote in use, the backslash and the control
    characters are escaped. *)
Definition repr (s : string) : string :=
  let quote :=
    if has_char single_quote s && negb (has_char double_quote s)
    then double_quote else single_quote in
  String quote (repr_chars quote s ++ String quote EmptyString).

End Py.

(* ------------------------------------------------------------------ *)
(** ** The outside world                                               *)
(* ------------------------------------------------------------------ *)

(** One entry per external call, in the order the calls are made. *)
Inductive event : Type :=
| EMindsDBPost (sql : string)   (* POST /api/sql/query on the MindsDB gateway *)
| EPgFetch (sql : string)       (* [PostgresDirectTool.query(sql)] is invoked *)
| EExport                       (* [execute_export_tool] *)
| ECompletion                   (* one call of the completion provider *)
| ESleep (seconds : nat).       (* [time.sleep] / [asyncio.sleep] *)

Definition log := list event.

(** Computations that read and extend the log. *)
Definition M (A : Type) : Type := log -> A * log.

Definition ret {A} (a : A) : M A := fun l => (a, l).

Definition bind {A B} (m : M A) (k : A -> M B) : M B :=
  fun l => let (a, l') := m l in k a l'.

Definition emit (e : event) : M unit := fun l => (tt, l ++ [e]).

Declare Scope m_scope.
Delimit Scope m_scope with M.
Notation "x <- m ;; k" := (bind m (fun x => k))
  (at level 61, m at next level, right associativity) : m_scope.
Notation "m ;;; k" := (bind m (fun _ => k))
  (at level 61, right associativity) : m_scope.

Definition is_completion (e : event) : bool :=
  match e with ECompletion => true | _ => false end.

Definition is_executor_call (e : event) : bool :=
  match e with EMindsDBPost _ | EPgFetch _ => true | _ => false end.

Definition sleep_of (e : event) : option nat :=
  match e with ESleep n => Some n | _ => None end.

(** What a run did, read off its log. *)
Definition completion_calls (l : log) : nat := length (filter is_completion l).
Definition executor_calls (l : log) : list event := filter is_executor_call l.

Fixpoint sleeps (l : log) : list nat :=
  match l with
  | [] => []
  | e :: t => match sleep_of e with Some n => n :: sleeps t | None => sleeps t end
  end.

(* ------------------------------------------------------------------ *)
(** ** Values and tool results                                         *)
(* ------------------------------------------------------------------ *)

(** JSON-compatible Python values: rows, cells, decoded model output. *)
#[warnings="-register-all"]
Inductive value : Type :=
| VNone
| VBool (b : bool)
| VInt (z : Z)
| VFloat (q : Q)
| VStr (s : string)
| VList (items : list value)
| VDict (entries : list (string * value)).

(** The dictionaries the tools return.

    - [Failure e] is [{"success": False, "error": e}];
    - [Rows data columns row_count note] is
      [{"success": True, "data": .., "columns": .., "row_count": ..}],
      with a ["note"] key when [note] is [Some _];
    - [TotalRecords t] is [{"success": True, "total_records": t}];
    - [Statistics st] is [{"success": True, "statistics": st}]. *)
Inductive result : Type :=
| Failure (error : string)
| Rows (data : list value) (columns : list string) (row_count : nat)
       (note : option string)
| TotalRecords (total_records : value)
| Statistics (statistics : list (string * value)).

(** [result.get("success")] as a truth value. *)
Definition success (r : result) : bool :=
  match r with Failure _ => false | _ => true end.

(** [l[:n]] for [0 <= n]. *)
Definition first_rows (n : nat) (data : list value) : list value := firstn n data.

(** [l[-n:]] for [0 < n]: the last [n] items, or all of [l] when it is shorter. *)
Definition last_items {A} (n : nat) (l : list A) : list A :=
  skipn (length l - n) l.

(* ------------------------------------------------------------------ *)
(** ** mindsdb_tool.py                                                  *)
(* ------------------------------------------------------------------ *)

Module MindsDBTool.

Import Py.
Local Open Scope string_scope.
Local Open Scope m_scope.

(** What the HTTP round trip of [MindsDBTool.query] can produce. *)
Inductive http_outcome : Type :=
| HttpTimeout                                  (* httpx.TimeoutException *)
| HttpException (message : string)             (* any other exception, [str(e)] *)
| HttpError (error_message : option string)    (* body with type == "error" *)
| HttpData (data : list value) (column_names : list string).

Definition write_keywords : list string :=
  ["INSERT"; "UPDATE"; "DELETE"; "ALTER"; "CREATE"; "DROP"; "TRUNCATE"].

Definition write_not_allowed : string :=
  "Write operations not allowed. Use allow_write=True to enable.".

Definition missing_limit_on_large_column : string :=
  "Query must include LIMIT clause when selecting raw_data or error_details (max LIMIT 5 recommended). These columns contain large JSON. With 1M context window enabled, small queries are allowed.".

Definition limit_too_high (limit_value : N) : string :=
  "LIMIT " ++ str_of_N limit_value ++
  " too high for raw_data queries. Maximum LIMIT 10 recommended to avoid context overflow even with 1M window.".

Definition wildcard_projection : string :=
  "SELECT * not allowed. Always specify explicit column names to control response size.".

(** [any(sql_upper.startswith(keyword) for keyword in write_keywords)]
    with [sql_upper = sql.strip().upper()]. *)
Definition is_write_operation (sql : string) : bool :=
  let sql_upper := upper (strip sql) in
  existsb (fun keyword => startswith sql_upper keyword) write_keywords.

(** The checks at the head of [MindsDBTool.query], in the order of the
    source: the error of the first check that fires, or [None] when the
    statement goes on to the HTTP call. *)
Definition guard (sql : string) (allow_write : bool) : option string :=
  if is_write_operation sql && negb allow_write then Some write_not_allowed
  else
    let sql_lower := lower sql in
    let large_column_error :=
      if contains "raw_data" sql_lower || contains "error_details" sql_lower then
        if negb (contains "limit" sql_lower) then
          Some missing_limit_on_large_column
        else
          match search_limit sql_lower with
          | Some digits =>
              let limit_value := int_of_digits digits in
              if (10 <? limit_value)%N then Some (limit_too_high limit_value)
              else None
          | None => None
          end
      else None in
    match large_column_error with
    | Some e => Some e
    | None =>
        if contains "select *" sql_lower then Some wildcard_projection
        else None
    end.

Section Tool.

(** The MindsDB gateway: its answer to a query, given the history. *)
Variable gateway : log -> string -> http_outcome.

Definition post (sql : string) : M http_outcome :=
  fun l => (gateway l sql, (l ++ [EMindsDBPost sql])%list).

(** [MindsDBTool.query(sql, allow_write)]. *)
Definition query (sql : string) (allow_write : bool) : M result :=
  match guard sql allow_write with
  | Some e => ret (Failure e)
  | None =>
      r <- post sql ;;
      ret match r with
          | HttpError (Some m) => Failure m
          | HttpError None => Failure "Unknown error"
          | HttpData data column_names =>
              Rows data column_names (length data) None
          | HttpTimeout =>
              Failure "Query timeout - try a simpler query or add LIMIT clause"
          | HttpException m => Failure ("Query failed: " ++ m)
          end
  end.

Definition datasource : string := "datasource_postgres".
Definition table : string := "service19_onboarding_data".

Definition get_sample_data (limit : Z) : M result :=
  query ("
            SELECT data_id, source_id, download_url, download_timestamp,
                   download_success, http_status_code, data_format,
                   file_size_bytes, record_count, error_message
            FROM " ++ datasource ++ "." ++ table ++ "
            LIMIT " ++ str_of_Z limit ++ ";
        ") false.

Definition count_records_sql : string :=
  "SELECT COUNT(*) as total FROM " ++ datasource ++ "." ++ table ++ ";".

(** [row[0]] on a row value: the cell, or the message of the exception. *)
Definition index0 (row : value) : value + string :=
  match row with
  | VList (x :: _) => inl x
  | VList [] => inr "list index out of range"
  | VStr (String c _) => inl (VStr (String c EmptyString))
  | VStr EmptyString => inr "string index out of range"
  | VDict _ => inr "0"
  | VNone => inr "'NoneType' object is not subscriptable"
  | VBool _ => inr "'bool' object is not subscriptable"
  | VInt _ => inr "'int' object is not subscriptable"
  | VFloat _ => inr "'float' object is not subscriptable"
  end.

(** [result["data"][0][0] if result["data"] else 0]. *)
Definition first_cell (data : list value) : value + string :=
  match data with
  | [] => inl (VInt 0)
  | row :: _ => index0 row
  end.

(** [count_records()]: [inr m] is an exception with message [m]. *)
Definition count_records : M (result + string) :=
  r <- query count_records_sql false ;;
  ret match r with
      | Rows (row :: rows) _ _ _ =>
          match first_cell (row :: rows) with
          | inl total => inl (TotalRecords total)
          | inr m => inr m
          end
      | _ => inl r
      end.

Definition search_by_url (url_pattern : string) (limit : Z) : M result :=
  query ("
            SELECT id, onboarding_id, url, fetched_at, success, http_status
            FROM " ++ datasource ++ "." ++ table ++ "
            WHERE url LIKE '%" ++ url_pattern ++ "%'
            LIMIT " ++ str_of_Z limit ++ ";
        ") false.

Definition get_successful_fetches (limit : Z) : M result :=
  query ("
            SELECT id, onboarding_id, url, fetched_at, http_status, file_type
            FROM " ++ datasource ++ "." ++ table ++ "
            WHERE success = true
            LIMIT " ++ str_of_Z limit ++ ";
        ") false.

Definition get_failed_fetches (limit : Z) : M result :=
  query ("
            SELECT id, onboarding_id, url, error_message, http_status
            FROM " ++ datasource ++ "." ++ table ++ "
            WHERE success = false
            LIMIT " ++ str_of_Z limit ++ ";
        ") false.

Definition get_by_file_type (file_type : string) (limit : Z) : M result :=
  query ("
            SELECT id, url, file_type, content_size, http_status
            FROM " ++ datasource ++ "." ++ table ++ "
            WHERE file_type = '" ++ file_type ++ "'
            LIMIT " ++ str_of_Z limit ++ ";
        ") false.

Definition statistics_queries : list (string * string) :=
  [ ("total", "SELECT COUNT(*) FROM " ++ datasource ++ "." ++ table);
    ("successful", "SELECT COUNT(*) FROM " ++ datasource ++ "." ++ table
                   ++ " WHERE success = true");
    ("failed", "SELECT COUNT(*) FROM " ++ datasource ++ "." ++ table
               ++ " WHERE success = false");
    ("file_types", "SELECT file_type, COUNT(*) as count FROM " ++ datasource
                   ++ "." ++ table ++ " GROUP BY file_type") ].

(** The loop of [get_statistics] over the remaining queries; [inr m] is
    an exception raised by [result["data"][0][0]]. *)
Fixpoint statistics_loop (queries : list (string * string))
         (results : list (string * value))
  : M (list (string * value) + string) :=
  match queries with
  | [] => ret (inl results)
  | (key, sql) :: rest =>
      r <- query (sql ++ ";") false ;;
      match r with
      | Rows data _ _ _ =>
          if String.eqb key "file_types" then
            statistics_loop rest (results ++ [(key, VList data)])
          else
            match first_cell data with
            | inl v => statistics_loop rest (results ++ [(key, v)])
            | inr m => ret (inr m)
            end
      | _ => statistics_loop rest (results ++ [(key, VNone)])
      end
  end.

Definition get_statistics : M (result + string) :=
  r <- statistics_loop statistics_queries [] ;;
  ret match r with
      | inl results => inl (Statistics results)
      | inr m => inr m
      end.

(** [if not s] for an optional string argument. *)
Definition missing (s : option string) : bool :=
  match s with
  | None | Some EmptyString => true
  | Some _ => false
  end.

Definition text (s : option string) : string :=
  match s with Some t => t | None => EmptyString end.

(** The [try] of [execute_mindsdb_tool]: an exception becomes
    [{"success": False, "error": str(e)}]. *)
Definition catch (m : M (result + string)) : M result :=
  r <- m ;;
  ret match r with inl x => x | inr e => Failure e end.

(** [execute_mindsdb_tool(operation, limit, url_pattern, file_type,
    custom_sql, allow_write)]. *)
Definition execute_mindsdb_tool (operation : string) (limit : Z)
           (url_pattern file_type custom_sql : option string)
           (allow_write : bool) : M result :=
  if String.eqb operation "sample" then get_sample_data limit
  else if String.eqb operation "count" then catch count_records
  else if String.eqb operation "search_url" then
    if missing url_pattern then
      ret (Failure "url_pattern required for search_url operation")
    else search_by_url (text url_pattern) limit
  else if String.eqb operation "successful" then get_successful_fetches limit
  else if String.eqb operation "failed" then get_failed_fetches limit
  else if String.eqb operation "by_file_type" then
    if missing file_type then
      ret (Failure "file_type required for by_file_type operation")
    else get_by_file_type (text file_type) limit
  else if String.eqb operation "statistics" then catch get_statistics
  else if String.eqb operation "custom_query" then
    if missing custom_sql then
      ret (Failure "custom_sql required for custom_query operation")
    else query (text custom_sql) allow_write
  else if String.eqb operation "alter_table" then
    if missing custom_sql then
      ret (Failure "custom_sql required for alter_table operation")
    else query (text custom_sql) true
  else ret (Failure ("Unknown operation: " ++ operation)).

End Tool.

End MindsDBTool.

(* ------------------------------------------------------------------ *)
(** ** postgres_direct_tool.py                                          *)
(* ------------------------------------------------------------------ *)

Module PostgresDirectTool.

Import Py.
Local Open Scope string_scope.
Local Open Scope m_scope.

(** What [PostgresDirectTool.query] can meet: a failed [connect()], an
    exception of [conn.fetch], or the fetched records (each one a mapping
    from column name to cell, in column order). *)
Inductive pg_outcome : Type :=
| PgConnectFailed (connect_result_error : string)
| PgPostgresError (sqlstate message : string)
| PgException (message : string)
| PgRecords (records : list (list (string * value))).

Definition zebra_crossings_sql : string := "
            SELECT 
                data_id,
                source_id,
                download_url,
                jsonb_extract_path_text(raw_data, 'type') as feature_type,
                jsonb_extract_path_text(raw_data, 'properties', 'crossing') as crossing_type,
                jsonb_extract_path_text(raw_data, 'properties', 'name') as name,
                jsonb_extract_path(raw_data, 'geometry', 'coordinates') as coordinates
            FROM service19_onboarding_data
            WHERE raw_data::text LIKE '%zebra%'
            LIMIT $1
        ".

Definition limit_required : string :=
  "LIMIT clause required for direct PostgreSQL queries to avoid context overflow".

Section Tool.

(** The database behind the pool: its answer to a statement and its
    parameters, given the history. *)
Variable database : log -> string -> list value -> pg_outcome.

(** [PostgresDirectTool.query(sql, params)]: the SQL executor of the
    analyzers and of [query_postgres_direct].  [connect], the fetch and
    their failures are one answer of the database here, and the event
    records that the executor was invoked with the statement, also when
    [connect] fails and nothing is fetched; [PostgresPool] takes them
    apart. *)
Definition query (sql : string) (params : list value) : M result :=
  fun l =>
    (match database l sql params with
     | PgConnectFailed e => Failure e
     | PgPostgresError sqlstate m =>
         Failure ("PostgreSQL error: " ++ sqlstate ++ " - " ++ m)
     | PgException m => Failure ("Query failed: " ++ m)
     | PgRecords records =>
         let data := map VDict records in
         let columns :=
           match records with
           | first :: _ => map fst first
           | [] => []
           end in
         Rows data columns (length data) None
     end, (l ++ [EPgFetch sql])%list).

Definition query_zebra_crossings (limit : Z) : M result :=
  query zebra_crossings_sql [VInt limit].

(** [execute_postgres_direct_tool(operation, custom_sql, limit)]. *)
Definition execute_postgres_direct_tool (operation : string)
           (custom_sql : option string) (limit : Z) : M result :=
  if String.eqb operation "zebra_crossings" then query_zebra_crossings limit
  else if String.eqb operation "custom_query" then
    match custom_sql with
    | None | Some EmptyString =>
        ret (Failure "custom_sql required for custom_query operation")
    | Some sql =>
        let sql_lower := lower sql in
        if negb (contains "limit" sql_lower) then ret (Failure limit_required)
        else query sql []
    end
  else ret (Failure ("Unknown operation: " ++ operation)).

End Tool.

End PostgresDirectTool.

(* ------------------------------------------------------------------ *)
(** ** [postgres_direct_tool.py]: the pool behind [query]              *)
(* ------------------------------------------------------------------ *)

Module PostgresPool.

Import Py.
Local Open Scope string_scope.

(** The calls that a [PostgresDirectTool] object makes on [asyncpg], in
    the order it makes them. *)
Inductive pool_event : Type :=
| CreatePool                                  (* [asyncpg.create_pool(...)] *)
| Acquire                                     (* entering [self.pool.acquire()] *)
| Fetch (sql : string) (params : list value)  (* [conn.fetch(sql, *params)] *)
| Release.                                    (* leaving the [async with] block *)

Definition pool_log := list pool_event.

(** An exception raised inside the [try] block of [query]: a
    [PostgresError] with its [sqlstate], or any other exception; both
    with their [str(e)]. *)
Inductive failure : Type :=
| PostgresError (sqlstate message : string)
| OtherException (message : string).

(** What is outside the tool: whether [asyncpg] could be imported, and
    the answers of the library, given the calls made so far.
    [create_pool] answers with the [str(e)] of its exception, if any;
    [acquire] and [release] with their exception, if any; [fetch] with
    its exception or with the records. *)
Record world : Type := World {
  asyncpg_installed : bool;
  create_pool : pool_log -> option string;
  acquire : pool_log -> option failure;
  fetch : pool_log -> string -> list value
          -> failure + list (list (string * value));
  release : pool_log -> option failure
}.

(** The dictionaries of the two [except] branches of [query]. *)
Definition failure_result (f : failure) : result :=
  match f with
  | PostgresError sqlstate m =>
      Failure ("PostgreSQL error: " ++ sqlstate ++ " - " ++ m)
  | OtherException m => Failure ("Query failed: " ++ m)
  end.

(** [connect()], on a tool whose [self.pool] is set ([pool = true]) or
    is [None]: the error of the dictionary it returns, if any, the new
    state of [self.pool] and the log. *)
Definition connect (w : world) (pool : bool) (l : pool_log)
  : option string * bool * pool_log :=
  if negb (asyncpg_installed w) then (Some "asyncpg not installed", pool, l)
  else if pool then (None, pool, l)
  else
    match create_pool w l with
    | Some m => (Some ("Connection failed: " ++ m), false, (l ++ [CreatePool])%list)
    | None => (None, true, (l ++ [CreatePool])%list)
    end.

(** [query(sql, params)]; an absent or empty [params] is [[]]. *)
Definition query (w : world) (sql : string) (params : list value)
           (pool : bool) (l : pool_log) : result * bool * pool_log :=
  match connect w pool l with
  | (Some e, pool, l) => (Failure e, pool, l)
  | (None, pool, l) =>
      match acquire w l with
      | Some f => (failure_result f, pool, (l ++ [Acquire])%list)
      | None =>
          let l := (l ++ [Acquire])%list in
          let fetched := fetch w l sql params in
          let l := (l ++ [Fetch sql params])%list in
          match release w l with
          | Some f => (failure_result f, pool, (l ++ [Release])%list)
          | None =>
              (match fetched with
               | inl f => failure_result f
               | inr records =>
                   let data := map VDict records in
                   let columns :=
                     match records with
                     | first :: _ => map fst first
                     | [] => []
                     end in
                   Rows data columns (length data) None
               end, pool, (l ++ [Release])%list)
          end
      end
  end.

(** A series of queries on one tool object, as the analyzers make them:
    the results, in order, and the final state. *)
Fixpoint queries (w : world) (statements : list string)
         (pool : bool) (l : pool_log) : list result * bool * pool_log :=
  match statements with
  | [] => ([], pool, l)
  | sql :: rest =>
      match query w sql [] pool l with
      | (r, pool, l) =>
          match queries w rest pool l with
          | (rs, pool, l) => (r :: rs, pool, l)
          end
      end
  end.

Definition is_create (e : pool_event) : bool :=
  match e with CreatePool => true | _ => false end.

Definition fetched_of (e : pool_event) : list (string * list value) :=
  match e with Fetch sql params => [(sql, params)] | _ => [] end.

(** What a log holds: the number of pools created or attempted, and the
    statements fetched. *)
Definition creations (l : pool_log) : nat := length (filter is_create l).
Definition fetches (l : pool_log) : list (string * list value) :=
  flat_map fetched_of l.

End PostgresPool.

(* ------------------------------------------------------------------ *)
(** ** city_insights_analyzer.py                                        *)
(* ------------------------------------------------------------------ *)

Module CityInsightsAnalyzer.

Import Py.
Local Open Scope string_scope.
Local Open Scope m_scope.

(** A [ToolUseBlock]: its id, the tool's name and the two keys of its
    input ([None] when the key is absent). *)
Record tool_use : Type := ToolUse {
  id : string;
  name : string;
  input_sql : option string;
  input_description : option string
}.

Inductive block : Type :=
| TextBlock (text : string)
| ToolUseBlock (tu : tool_use).

(** One item of the [tool_results] list. *)
Record tool_result : Type := ToolResult {
  tool_use_id : string;
  content : string
}.

Inductive message : Type :=
| UserText (text : string)                    (* role user, content a string *)
| AssistantContent (blocks : list block)      (* role assistant *)
| UserToolResults (results : list tool_result). (* role user, content tool results *)

(** What [client.messages.create] can produce. *)
Inductive completion_outcome : Type :=
| RateLimitError (message : string)
| OtherError (message : string)               (* any other exception, [str(e)] *)
| Response (stop_reason : string) (blocks : list block).

(** What [analyze_city] ends with: the success dictionary with its
    ["insight"], the failure dictionary of the exhausted loop, or an
    exception that leaves the function. *)
Inductive outcome : Type :=
| Completed (insight : value)
| MaxIterationsReached
| Raised (message : string).

Definition max_iterations : nat := 12.

Definition limit_required : string := "LIMIT clause required in all queries".

Definition note_first_5 (row_count : nat) : string :=
  "Result truncated to first 5 rows (of " ++ str_of_nat row_count
  ++ " total) to save context".

Definition note_showing_2 (row_count : nat) : string :=
  "Result heavily truncated (showing 2 of " ++ str_of_nat row_count
  ++ " rows) due to size".

Definition newline : string := String (ascii_of_nat 10) EmptyString.

Definition tool_uses_of (blocks : list block) : list tool_use :=
  flat_map (fun b => match b with ToolUseBlock tu => [tu] | _ => [] end) blocks.

Definition texts_of (blocks : list block) : list string :=
  flat_map (fun b => match b with TextBlock t => [t] | _ => [] end) blocks.

(** The [json_str] that is handed to [json.loads]. *)
Definition extract_json (final_response : string) : string :=
  if contains "```json" final_response then
    let json_start := (find final_response "```json" 0 + 7)%Z in
    let json_end := find final_response "```" (Z.to_nat json_start) in
    strip (slice final_response json_start json_end)
  else if contains "{" final_response && contains "}" final_response then
    let json_start := find final_response "{" 0 in
    let json_end := (rfind_char final_response "}" + 1)%Z in
    slice final_response json_start json_end
  else final_response.

(** The dictionary built in the [except json.JSONDecodeError] branch. *)
Definition fallback (final_response : string) : value :=
  VDict [ ("insight_summary", VStr (slice final_response 0 200));
          ("detailed_analysis", VStr final_response);
          ("data_sources_used", VList [VStr "unknown"]);
          ("confidence_score", VFloat (1 # 2)%Q);
          ("recommendations", VList []) ].

(** [d.get(key)] on a dictionary value. *)
Fixpoint lookup (key : string) (entries : list (string * value)) : option value :=
  match entries with
  | [] => None
  | (k, v) :: rest => if String.eqb k key then Some v else lookup key rest
  end.

Definition get (key : string) (d : value) : option value :=
  match d with VDict entries => lookup key entries | _ => None end.

Section Analyzer.

(** The world: the completion provider, the database, and the two
    library functions [str] (on a result dictionary) and [json.loads]
    ([None] for [JSONDecodeError]). *)
Variable provider : log -> list message -> completion_outcome.
Variable database : log -> string -> list value -> PostgresDirectTool.pg_outcome.
Variable str : result -> string.
Variable json_loads : string -> option value.

(** The result shaping inside [_execute_tool]. *)
Definition shape (r : result) : result :=
  match r with
  | Rows data columns row_count _ =>
      if (0 <? row_count)%nat then
        let truncated_data := first_rows 5 data in
        let r5 := Rows truncated_data columns row_count
                       (Some (note_first_5 row_count)) in
        if (3000 <? len (str r5))%N then
          Rows (first_rows 2 truncated_data) columns row_count
               (Some (note_showing_2 row_count))
        else r5
      else r
  | _ => r
  end.

(** [_execute_tool(tool_name, tool_input)]. *)
Definition _execute_tool (tool_name : string) (sql : option string) : M result :=
  if String.eqb tool_name "query_database" then
    let sql := match sql with Some s => s | None => EmptyString end in
    if negb (contains "limit" (lower sql)) then ret (Failure limit_required)
    else
      r <- PostgresDirectTool.query database sql [] ;;
      ret (shape r)
  else ret (Failure ("Unknown tool: " ++ tool_name)).

(** The [for tool_use in tool_uses] loop. *)
Fixpoint execute_tools (tool_uses : list tool_use) : M (list tool_result) :=
  match tool_uses with
  | [] => ret []
  | tu :: rest =>
      r <- _execute_tool (name tu) (input_sql tu) ;;
      rs <- execute_tools rest ;;
      ret (ToolResult (id tu) (str r) :: rs)
  end.

(** The parsing of the final response. *)
Definition parse (final_response : string) : value :=
  match json_loads (extract_json final_response) with
  | Some insight_data => insight_data
  | None => fallback final_response
  end.

(** The pruning at the head of each iteration. *)
Definition prune (messages : list message) : list message :=
  if (6 <? length messages)%nat then last_items 6 messages else messages.

(** The pruning after a context overflow. *)
Definition prune_aggressively (messages : list message) : list message :=
  last_items 2 messages.

Definition is_context_overflow (e : string) : bool :=
  contains "too long" (lower e) || contains "204675" e.

Definition complete (messages : list message) : M completion_outcome :=
  fun l => (provider l messages, (l ++ [ECompletion])%list).

(** The [while iteration < max_iterations] loop, by the number of
    iterations that remain. *)
Fixpoint loop (remaining : nat) (messages : list message) : M outcome :=
  match remaining with
  | O => ret MaxIterationsReached
  | S remaining' =>
      let messages := prune messages in
      response <- complete messages ;;
      match response with
      | RateLimitError _ =>
          emit (ESleep 5) ;;; loop remaining' messages
      | OtherError e =>
          if is_context_overflow e then
            loop remaining' (prune_aggressively messages)
          else ret (Raised e)
      | Response stop_reason blocks =>
          if String.eqb stop_reason "tool_use" then
            tool_results <- execute_tools (tool_uses_of blocks) ;;
            loop remaining'
                 (messages ++ [AssistantContent blocks;
                               UserToolResults tool_results])%list
          else
            ret (Completed (parse (String.concat newline (texts_of blocks))))
      end
  end.

(** [analyze_city]: [user_message] is the prompt built from the city,
    the country code and the success criteria. *)
Definition analyze_city_with (iterations : nat) (user_message : string)
  : M outcome :=
  loop iterations [UserText user_message].

Definition analyze_city : string -> M outcome :=
  analyze_city_with max_iterations.

End Analyzer.

End CityInsightsAnalyzer.

(* ------------------------------------------------------------------ *)
(** ** mindsdb_agent.py                                                 *)
(* ------------------------------------------------------------------ *)

Module MindsDBAgent.

Import Py.
Local Open Scope string_scope.
Local Open Scope m_scope.

(** The decoded [tool_call.function.arguments].  [BadArguments m] stands
    for arguments on which [json.loads] raises with message [m]. *)
Inductive arguments : Type :=
| BadArguments (message : string)
| QueryArguments (operation : string) (limit : option Z)
                 (url_pattern file_type custom_sql : option string)
                 (allow_write : option bool)
| ExportArguments (data : list value) (columns : list string)
                  (format filename : option string).

Record tool_call : Type := ToolCall {
  id : string;
  name : string;
  args : arguments
}.

Inductive message : Type :=
| UserMessage (content : string)                              (* role user *)
| AssistantMessage (content : string) (tool_calls : list tool_call)
                                                              (* role assistant *)
| ToolMessage (tool_call_id name content : string).           (* role tool *)

Definition role (m : message) : string :=
  match m with
  | UserMessage _ => "user"
  | AssistantMessage _ _ => "assistant"
  | ToolMessage _ _ _ => "tool"
  end.

(** What [completion(...)] can produce. *)
Record response : Type := Response {
  finish_reason : string;
  content : option string;
  tool_calls : list tool_call
}.

Inductive completion_outcome : Type :=
| Error (message : string)                    (* an exception, [str(e)] *)
| Success (r : response).

(** The [result_summary] dictionary of the [query_postgres_direct] branch. *)
Record result_summary : Type := ResultSummary {
  summary_success : bool;
  summary_row_count : option nat;
  summary_columns : option (list string);
  data_sample : list value;
  summary_note : string
}.

(** What [run] ends with: the final response, or an exception. *)
Inductive outcome : Type :=
| Final (final_response : string)
| Raised (message : string).

Definition max_retries : nat := 5.

(** [(2 ** retry) * 3]. *)
Definition wait_time (retry : nat) : nat := 2 ^ retry * 3.

Definition is_rate_limit (e : string) : bool :=
  contains "rate" (lower e) || contains "limit" (lower e).

Definition row_count_of (r : result) : option nat :=
  match r with Rows _ _ n _ => Some n | _ => None end.

Definition columns_of (r : result) : option (list string) :=
  match r with Rows _ c _ _ => Some c | _ => None end.

(** [result.get("data", [])]. *)
Definition data_of (r : result) : list value :=
  match r with Rows d _ _ _ => d | _ => [] end.

Definition note_truncated (r : result) : string :=
  "Result truncated (showed 3/"
  ++ str_of_nat (match row_count_of r with Some n => n | None => 0%nat end)
  ++ " rows). Use export_query_results tool to save full dataset.".

(** The pruning at the end of a tool iteration. *)
Definition prune (messages : list message) : list message :=
  if (12 <? length messages)%nat then
    let remaining := last_items 10 messages in
    let remaining :=
      match remaining with
      | m :: _ => if String.eqb (role m) "user" then last_items 9 messages
                  else remaining
      | [] => remaining
      end in
    match messages with
    | first :: _ => first :: remaining
    | [] => remaining
    end
  else messages.

Section Agent.

(** The world: the completion provider, the two SQL executors, the
    export tool (through the [str] of its result), and [str] on the
    dictionaries that are handed back to the model. *)
Variable provider : log -> list message -> completion_outcome.
Variable gateway : log -> string -> MindsDBTool.http_outcome.
Variable database : log -> string -> list value -> PostgresDirectTool.pg_outcome.
Variable exporter : log -> arguments -> string.
Variable str : result -> string.
Variable str_summary : result_summary -> string.

Definition complete (messages : list message) : M completion_outcome :=
  fun l => (provider l messages, (l ++ [ECompletion])%list).

(** The [for retry in range(max_retries)] loop around [completion],
    by the number of attempts that remain.  [inr m] is an exception
    that leaves [run]. *)
Fixpoint call_with_retry (remaining retry : nat) (messages : list message)
  : M (response + string) :=
  match remaining with
  | O => ret (inr "cannot access local variable 'response' where it is not associated with a value")
  | S remaining' =>
      r <- complete messages ;;
      match r with
      | Success response => ret (inl response)
      | Error e =>
          if is_rate_limit e then
            if (retry <? max_retries - 1)%nat then
              emit (ESleep (wait_time retry)) ;;;
              call_with_retry remaining' (S retry) messages
            else ret (inr e)
          else ret (inr e)
      end
  end.

(** The size limit on the result of [query_postgres_direct]: the
    dictionary whose [str] becomes the content of the tool message.
    The first summary (5 rows) is overwritten by the second
    computation of [result_str] and never used. *)
Definition limit_result_size (r : result) : result + result_summary :=
  let result_str := str r in
  let first_choice : result + result_summary :=
    if (10000 <? len result_str)%N then
      inr (ResultSummary (success r) (row_count_of r) (columns_of r)
             (first_rows 5 (data_of r))
             "Result truncated. Use LIMIT in query to control size.")
    else inl r in
  let result_str := str r in
  if (10000 <? len result_str)%N then
    inr (ResultSummary (success r) (row_count_of r) (columns_of r)
           (first_rows 3 (data_of r)) (note_truncated r))
  else inl r.

Definition str_shown (x : result + result_summary) : string :=
  match x with
  | inl r => str r
  | inr summary => str_summary summary
  end.

Definition or_default {A} (d : A) (o : option A) : A :=
  match o with Some a => a | None => d end.

(** One tool call: the [content] of its tool message, or [inr m] for an
    exception that leaves [run]. *)
Definition execute_tool_call (tc : tool_call) : M (string + string) :=
  match args tc with
  | BadArguments m => ret (inr m)
  | a =>
      if String.eqb (name tc) "query_mindsdb" then
        match a with
        | QueryArguments operation limit url_pattern file_type custom_sql
                         allow_write =>
            r <- MindsDBTool.execute_mindsdb_tool gateway operation
                   (or_default 10%Z limit) url_pattern file_type custom_sql
                   (or_default false allow_write) ;;
            ret (inl (str r))
        | _ => ret (inr "execute_mindsdb_tool() got an unexpected keyword argument 'data'")
        end
      else if String.eqb (name tc) "query_postgres_direct" then
        match a with
        | QueryArguments operation limit _ _ custom_sql _ =>
            r <- PostgresDirectTool.execute_postgres_direct_tool database
                   operation custom_sql (or_default 5%Z limit) ;;
            ret (inl (str_shown (limit_result_size r)))
        | _ => ret (inr "execute_postgres_direct_tool() missing 1 required positional argument: 'operation'")
        end
      else if String.eqb (name tc) "export_query_results" then
        match a with
        | ExportArguments _ _ _ _ =>
            fun l => (inl (exporter l a), (l ++ [EExport])%list)
        | _ => ret (inr "execute_export_tool() got an unexpected keyword argument 'operation'")
        end
      else
        (* [str({"error": f"Unknown tool: {name}"})] *)
        ret (inl ("{'error': " ++ repr ("Unknown tool: " ++ name tc) ++ "}"))
  end.

(** The [for tool_call in tool_calls] loop. *)
Fixpoint execute_tool_calls (calls : list tool_call)
  : M (list message + string) :=
  match calls with
  | [] => ret (inl [])
  | tc :: rest =>
      r <- execute_tool_call tc ;;
      match r with
      | inr e => ret (inr e)
      | inl result_str =>
          rs <- execute_tool_calls rest ;;
          ret match rs with
              | inr e => inr e
              | inl tool_results =>
                  inl (ToolMessage (id tc) (name tc) result_str :: tool_results)
              end
      end
  end.

(** The [while True] loop of [run]: [fuel] bounds the number of
    iterations, [None] means that the bound was reached. *)
Fixpoint loop (fuel : nat) (messages : list message) : M (option outcome) :=
  match fuel with
  | O => ret None
  | S fuel' =>
      r <- call_with_retry max_retries 0 messages ;;
      match r with
      | inr e => ret (Some (Raised e))
      | inl response =>
          match String.eqb (finish_reason response) "tool_calls",
                tool_calls response with
          | true, _ :: _ =>
              let assistant_text := or_default EmptyString (content response) in
              rs <- execute_tool_calls (tool_calls response) ;;
              match rs with
              | inr e => ret (Some (Raised e))
              | inl tool_results =>
                  loop fuel'
                       (prune ((messages
                                  ++ [AssistantMessage assistant_text
                                        (tool_calls response)])
                                 ++ tool_results)%list)
              end
          | _, _ =>
              ret (Some (Final (or_default EmptyString (content response))))
          end
      end
  end.

(** [run(user_message, conversation_history)]. *)
Definition run (fuel : nat) (user_message : string)
           (conversation_history : list message) : M (option outcome) :=
  loop fuel (conversation_history ++ [UserMessage user_message])%list.

End Agent.

End MindsDBAgent.

(* ------------------------------------------------------------------ *)
(** ** [mindsdb_agent.py]: [run] as its caller sees it                 *)
(* ------------------------------------------------------------------ *)

Module InteractiveMode.

Import Py MindsDBAgent.
Local Open Scope string_scope.
Local Open Scope m_scope.

(** What one pass through the body of the [while True] loop of
    [interactive_mode] does: it leaves the loop, or goes on with the
    conversation history as it then is.  [OutOfFuel] is the bound of the
    model on the iterations of [run]. *)
Inductive turn : Type :=
| Quit
| Continue (conversation_history : list message)
| OutOfFuel.

Section Session.

Variable provider : log -> list message -> completion_outcome.
Variable gateway : log -> string -> MindsDBTool.http_outcome.
Variable database : log -> string -> list value -> PostgresDirectTool.pg_outcome.
Variable exporter : log -> arguments -> string.
Variable str : result -> string.
Variable str_summary : result_summary -> string.

(** The [while True] loop of [run], with the list of the caller.
    [messages.append] and [messages.extend] change the list object in
    place; [messages = [messages[0]] + remaining] binds [messages] to a
    new list.  [shared] tells whether [messages] is still the list object
    that the caller passed, and [history] is the content of that object.
    The assistant message and the tool results are appended after the
    loop over the tool calls: an exception in that loop leaves the list
    as it was. *)
Fixpoint loop_shared (fuel : nat) (messages : list message) (shared : bool)
         (history : list message) : M (option outcome * list message) :=
  match fuel with
  | O => ret (None, history)
  | S fuel' =>
      r <- call_with_retry provider max_retries 0 messages ;;
      match r with
      | inr e => ret (Some (Raised e), history)
      | inl response =>
          match String.eqb (finish_reason response) "tool_calls",
                tool_calls response with
          | true, _ :: _ =>
              let assistant_text := or_default EmptyString (content response) in
              rs <- execute_tool_calls gateway database exporter str str_summary
                      (tool_calls response) ;;
              match rs with
              | inr e => ret (Some (Raised e), history)
              | inl tool_results =>
                  let messages :=
                    ((messages
                        ++ [AssistantMessage assistant_text (tool_calls response)])
                       ++ tool_results)%list in
                  let history := if shared then messages else history in
                  loop_shared fuel' (prune messages)
                    (shared && negb (12 <? length messages)%nat) history
              end
          | _, _ =>
              ret (Some (Final (or_default EmptyString (content response))),
                   history)
          end
      end
  end.

(** [run(user_message, conversation_history)] and the content of the
    caller's list when it ends.  [conversation_history or []] is the
    caller's list when that list is not empty, and a new list when it is
    empty. *)
Definition run_shared (fuel : nat) (user_message : string)
           (conversation_history : list message)
  : M (option outcome * list message) :=
  let shared := match conversation_history with [] => false | _ => true end in
  let messages := (conversation_history ++ [UserMessage user_message])%list in
  loop_shared fuel messages shared
    (if shared then messages else conversation_history).

(** [user_input.lower() in ['quit', 'exit', 'q']]. *)
Definition is_quit (user_input : string) : bool :=
  existsb (String.eqb (lower user_input)) ["quit"; "exit"; "q"].

(** The body of the loop of [interactive_mode] on one line of input.  An
    exception of [run] is caught and printed, and the loop goes on. *)
Definition interactive_turn (fuel : nat) (line : string)
           (conversation_history : list message) : M turn :=
  let user_input := strip line in
  if is_quit user_input then ret Quit
  else if String.eqb user_input EmptyString then ret (Continue conversation_history)
  else
    r <- run_shared fuel user_input conversation_history ;;
    match r with
    | (Some (Final response), conversation_history) =>
        ret (Continue (conversation_history
                         ++ [UserMessage user_input;
                             AssistantMessage response []])%list)
    | (Some (Raised _), conversation_history) =>
        ret (Continue conversation_history)
    | (None, _) => ret OutOfFuel
    end.

End Session.

End InteractiveMode.

(* ------------------------------------------------------------------ *)
(** ** Notions used to state the properties                            *)
(* ------------------------------------------------------------------ *)

Module Props.

Import Py.
Local Open Scope string_scope.

Definition is_letter (c : ascii) : bool :=
  let n := code c in
  (((65 <=? n) && (n <=? 90)) || ((97 <=? n) && (n <=? 122)))%nat.

Fixpoint span_letters (s : string) : string :=
  match s with
  | EmptyString => EmptyString
  | String c t => if is_letter c then String c (span_letters t) else EmptyString
  end.

(** The leading keyword of a statement: the first word of the text, white
    space stripped, in upper case. *)
Definition leading_keyword (sql : string) : string :=
  span_letters (upper (strip sql)).

(** The text references one of the guarded large columns. *)
Definition references_large_column (sql : string) : bool :=
  contains "raw_data" (lower sql) || contains "error_details" (lower sql).

(** The text mentions [limit], in any case, anywhere. *)
Definition mentions_limit (sql : string) : bool := contains "limit" (lower sql).

(** The text contains [select *], in any case. *)
Definition has_wildcard (sql : string) : bool := contains "select *" (lower sql).

(** Pairing in the analyzer's transcript: an assistant message whose
    content carries tool uses is immediately followed by the user message
    that holds the results of exactly those tool uses, in order. *)
Definition answers (tool_uses : list CityInsightsAnalyzer.tool_use)
           (rest : list CityInsightsAnalyzer.message) : bool :=
  match tool_uses, rest with
  | [], _ => true
  | _ :: _, CityInsightsAnalyzer.UserToolResults results :: _ =>
      if list_eq_dec string_dec
           (map CityInsightsAnalyzer.id tool_uses)
           (map CityInsightsAnalyzer.tool_use_id results)
      then true else false
  | _ :: _, _ => false
  end.

Fixpoint analyzer_paired (messages : list CityInsightsAnalyzer.message) : bool :=
  match messages with
  | [] => true
  | CityInsightsAnalyzer.AssistantContent blocks :: rest =>
      answers (CityInsightsAnalyzer.tool_uses_of blocks) rest
      && analyzer_paired rest
  | _ :: rest => analyzer_paired rest
  end.

(** Pairing in the agent's transcript: an assistant message with tool
    calls is immediately followed by one tool message per call, with the
    ids of the calls, in order. *)
Fixpoint answered (calls : list MindsDBAgent.tool_call)
         (rest : list MindsDBAgent.message) : bool :=
  match calls with
  | [] => true
  | c :: calls' =>
      match rest with
      | MindsDBAgent.ToolMessage tool_call_id _ _ :: rest' =>
          String.eqb tool_call_id (MindsDBAgent.id c) && answered calls' rest'
      | _ => false
      end
  end.

Definition requests (m : MindsDBAgent.message) : list MindsDBAgent.tool_call :=
  match m with
  | MindsDBAgent.AssistantMessage _ calls => calls
  | _ => []
  end.

Fixpoint agent_paired (messages : list MindsDBAgent.message) : bool :=
  match messages with
  | [] => true
  | m :: rest => answered (requests m) rest && agent_paired rest
  end.

(** The answers of the provider after which [analyze_city] enters its
    next iteration: a rate-limit error, an error that is read as a
    context overflow, and a response that stops for tool use.  Every
    other answer ends the run, with an insight or with an exception. *)
Definition goes_on (o : CityInsightsAnalyzer.completion_outcome) : bool :=
  match o with
  | CityInsightsAnalyzer.RateLimitError _ => true
  | CityInsightsAnalyzer.OtherError e => CityInsightsAnalyzer.is_context_overflow e
  | CityInsightsAnalyzer.Response stop_reason _ => String.eqb stop_reason "tool_use"
  end.

(** Pairing in both directions in the agent's transcript: every
    assistant message with tool calls is immediately followed by the
    answers to those calls, id by id, and every tool message is one of
    these answers.  [pending] holds the calls of the last assistant
    message that are still to be answered. *)
Fixpoint well_paired_from (pending : list MindsDBAgent.tool_call)
         (messages : list MindsDBAgent.message) : bool :=
  match messages with
  | [] => match pending with [] => true | _ => false end
  | MindsDBAgent.ToolMessage tool_call_id _ _ :: rest =>
      match pending with
      | c :: pending' =>
          String.eqb tool_call_id (MindsDBAgent.id c)
          && well_paired_from pending' rest
      | [] => false
      end
  | m :: rest =>
      match pending with
      | [] => well_paired_from (requests m) rest
      | _ => false
      end
  end.

Definition well_paired : list MindsDBAgent.message -> bool :=
  well_paired_from [].

(** The first message of the transcript carries no tool request. *)
Definition opens_without_requests (messages : list MindsDBAgent.message) : bool :=
  match messages with
  | m :: _ => match requests m with [] => true | _ => false end
  | [] => true
  end.

End Props.

(* ------------------------------------------------------------------ *)
(** ** Concrete inputs and worlds                                      *)
(* ------------------------------------------------------------------ *)

Module Examples.

Local Open Scope string_scope.


Definition drop_table : string := "  drop table service19_onboarding_data;".

(** A gateway that answers every statement with one row. *)
Definition gateway_one_row : log -> string -> MindsDBTool.http_outcome :=
  fun _ _ => MindsDBTool.HttpData [VList [VInt 42]] ["total"].

(** The statement of the spec's scenario B. *)
Definition count_without_limit : string := "SELECT COUNT(*) FROM t".

Definition alter_add_column : string :=
  "ALTER TABLE service19_onboarding_data ADD COLUMN raw_data_backup jsonb".

(** No LIMIT clause; [limit] occurs inside an identifier only. *)
Definition limit_in_identifier : string :=
  "SELECT rate_limit FROM accounts".

(** A database that answers every statement with no record. *)
Definition database_empty
  : log -> string -> list value -> PostgresDirectTool.pg_outcome :=
  fun _ _ _ => PostgresDirectTool.PgRecords [].

(** A [str] whose output is short. *)
Definition str_short : result -> string := fun _ => "{}".

(** A final response without structured output. *)
Definition plain_answer : string :=
  "Bristol has 42 sources; no structured output was produced.".

(** A decoder that accepts only texts that open with a brace. *)
Definition decoder_braces_only : string -> option value :=
  fun s => if String.prefix "{" s then Some (VDict []) else None.



Definition select_with_limit : string :=
  "SELECT data_id FROM service19_onboarding_data LIMIT 6".


Definition str_summary_short : MindsDBAgent.result_summary -> string :=
  fun _ => "{}".

(** A provider that fails with a rate-limit error on every attempt. *)
Definition rate_limit_message : string := "RateLimitError: 429 Too Many Requests".

Definition provider_always_rate_limited
  : log -> list MindsDBAgent.message -> MindsDBAgent.completion_outcome :=
  fun _ _ => MindsDBAgent.Error rate_limit_message.

(** The events of five failed attempts. *)
Definition five_failed_attempts : log :=
  [ECompletion; ESleep 3; ECompletion; ESleep 6; ECompletion; ESleep 12;
   ECompletion; ESleep 24; ECompletion].

Definition call (i : string) : MindsDBAgent.tool_call :=
  MindsDBAgent.ToolCall i "query_mindsdb"
    (MindsDBAgent.QueryArguments "count" None None None None None).

Definition answer (i : string) : MindsDBAgent.message :=
  MindsDBAgent.ToolMessage i "query_mindsdb" "{}".

Definition first_assistant : MindsDBAgent.message :=
  MindsDBAgent.AssistantMessage "" [call "c1"; call "c2"].

(** Thirteen messages of one run: the first and the last assistant
    message carry two tool calls each, so the last ten messages open
    with the second tool message of the first assistant message. *)
Definition transcript_two_calls : list MindsDBAgent.message :=
  [ MindsDBAgent.UserMessage "question";
    first_assistant; answer "c1"; answer "c2";
    MindsDBAgent.AssistantMessage "" [call "c3"]; answer "c3";
    MindsDBAgent.AssistantMessage "" [call "c4"]; answer "c4";
    MindsDBAgent.AssistantMessage "" [call "c5"]; answer "c5";
    MindsDBAgent.AssistantMessage "" [call "c6"; call "c7"];
    answer "c6"; answer "c7" ].

(** Thirteen messages that open with three messages of the conversation
    history: the last ten messages open with the user message of the
    current run. *)
Definition transcript_with_history : list MindsDBAgent.message :=
  [ MindsDBAgent.UserMessage "earlier question";
    MindsDBAgent.AssistantMessage "earlier answer" [];
    MindsDBAgent.AssistantMessage "more" [];
    MindsDBAgent.UserMessage "question";
    MindsDBAgent.AssistantMessage "" [call "c1"]; answer "c1";
    MindsDBAgent.AssistantMessage "" [call "c2"]; answer "c2";
    MindsDBAgent.AssistantMessage "" [call "c3"]; answer "c3";
    MindsDBAgent.AssistantMessage "" [call "c4"; call "c5"];
    answer "c4"; answer "c5" ].

Definition tool_use_block (i : string) : CityInsightsAnalyzer.block :=
  CityInsightsAnalyzer.ToolUseBlock
    (CityInsightsAnalyzer.ToolUse i "query_database"
       (Some "SELECT data_id FROM service19_onboarding_data LIMIT 1")
       (Some "one row")).

Definition exchange (i : string) : list CityInsightsAnalyzer.message :=
  [ CityInsightsAnalyzer.AssistantContent [tool_use_block i];
    CityInsightsAnalyzer.UserToolResults [CityInsightsAnalyzer.ToolResult i "{}"] ].

(** The analyzer's transcript after three tool iterations. *)
Definition analyzer_transcript : list CityInsightsAnalyzer.message :=
  CityInsightsAnalyzer.UserText "Analyze Bristol, GB"
  :: exchange "t1" ++ exchange "t2" ++ exchange "t3".

Definition one_row_sql : string :=
  "SELECT data_id FROM service19_onboarding_data LIMIT 1".

Definition query_tool_use : CityInsightsAnalyzer.tool_use :=
  CityInsightsAnalyzer.ToolUse "toolu_1" "query_database"
    (Some one_row_sql) (Some "one row").

(** Scenario C of the spec: the model asks for one query in each of its
    first nine turns and answers in the tenth. *)
Definition provider_nine_queries
  : log -> list CityInsightsAnalyzer.message
    -> CityInsightsAnalyzer.completion_outcome :=
  fun l _ =>
    if (completion_calls l <? 9)%nat then
      CityInsightsAnalyzer.Response "tool_use"
        [CityInsightsAnalyzer.ToolUseBlock query_tool_use]
    else
      CityInsightsAnalyzer.Response "end_turn"
        [CityInsightsAnalyzer.TextBlock plain_answer].

(** A model that asks for one query in every turn and never answers. *)
Definition provider_always_queries
  : log -> list CityInsightsAnalyzer.message
    -> CityInsightsAnalyzer.completion_outcome :=
  fun _ _ =>
    CityInsightsAnalyzer.Response "tool_use"
      [CityInsightsAnalyzer.ToolUseBlock query_tool_use].

(** A model that asks for [n] queries in its first turn and answers in
    the second. *)
Definition provider_many_queries (n : nat)
  : log -> list CityInsightsAnalyzer.message
    -> CityInsightsAnalyzer.completion_outcome :=
  fun l _ =>
    if (completion_calls l =? 0)%nat then
      CityInsightsAnalyzer.Response "tool_use"
        (repeat (CityInsightsAnalyzer.ToolUseBlock query_tool_use) n)
    else
      CityInsightsAnalyzer.Response "end_turn"
        [CityInsightsAnalyzer.TextBlock plain_answer].

(** A model that asks for a tool in each of its first [n] turns and
    answers in the next one. *)
Definition provider_tool_turns (n : nat)
  : log -> list MindsDBAgent.message -> MindsDBAgent.completion_outcome :=
  fun l _ =>
    if (completion_calls l <? n)%nat then
      MindsDBAgent.Success
        (MindsDBAgent.Response "tool_calls" None
           [MindsDBAgent.ToolCall "call_1" "lookup"
              (MindsDBAgent.QueryArguments "count" None None None None None)])
    else
      MindsDBAgent.Success (MindsDBAgent.Response "stop" (Some "done") []).

(** A provider that answers every call with a rate-limit error. *)
Definition provider_rate_limited
  : log -> list CityInsightsAnalyzer.message
    -> CityInsightsAnalyzer.completion_outcome :=
  fun _ _ => CityInsightsAnalyzer.RateLimitError rate_limit_message.

Definition exporter_none : log -> MindsDBAgent.arguments -> string :=
  fun _ _ => "{}".

End Examples.

(* ------------------------------------------------------------------ *)
(** ** Further notions and inputs                                      *)
(* ------------------------------------------------------------------ *)

Module Notions.

Import Py.
Local Open Scope string_scope.

(** The gateway calls of [get_statistics], in the order of its dictionary
    of queries. *)
Definition statistics_posts : log :=
  map (fun q => EMindsDBPost (snd q ++ ";")) MindsDBTool.statistics_queries.

(** The operations that [execute_mindsdb_tool] knows. *)
Definition mindsdb_operations : list string :=
  ["sample"; "count"; "search_url"; "successful"; "failed"; "by_file_type";
   "statistics"; "custom_query"; "alter_table"].

Definition posts_of (queries : list (string * string)) : log :=
  map (fun q => EMindsDBPost (snd q ++ ";")) queries.

(** The characters of a printed integer: digits and the minus sign. *)
Definition is_number_char (c : ascii) : bool :=
  is_digit c || Ascii.eqb c "-".

Fixpoint all_chars (p : ascii -> bool) (s : string) : bool :=
  match s with
  | EmptyString => true
  | String c t => p c && all_chars p t
  end.

(** The statements of the listings of [MindsDBTool], as functions of the
    spliced text. *)
Definition sample_sql (limit : Z) : string := "
            SELECT data_id, source_id, download_url, download_timestamp,
                   download_success, http_status_code, data_format,
                   file_size_bytes, record_count, error_message
            FROM datasource_postgres.service19_onboarding_data
            LIMIT " ++ str_of_Z limit ++ ";
        ".

Definition successful_sql (limit : Z) : string := "
            SELECT id, onboarding_id, url, fetched_at, http_status, file_type
            FROM datasource_postgres.service19_onboarding_data
            WHERE success = true
            LIMIT " ++ str_of_Z limit ++ ";
        ".

Definition failed_sql (limit : Z) : string := "
            SELECT id, onboarding_id, url, error_message, http_status
            FROM datasource_postgres.service19_onboarding_data
            WHERE success = false
            LIMIT " ++ str_of_Z limit ++ ";
        ".

Definition search_url_sql (url_pattern : string) (limit : Z) : string := "
            SELECT id, onboarding_id, url, fetched_at, success, http_status
            FROM datasource_postgres.service19_onboarding_data
            WHERE url LIKE '%" ++ url_pattern ++ "%'
            LIMIT " ++ str_of_Z limit ++ ";
        ".

Definition by_file_type_sql (file_type : string) (limit : Z) : string := "
            SELECT id, url, file_type, content_size, http_status
            FROM datasource_postgres.service19_onboarding_data
            WHERE file_type = '" ++ file_type ++ "'
            LIMIT " ++ str_of_Z limit ++ ";
        ".

(** The statements of the tool uses of one turn that
    [CityInsightsAnalyzer._execute_tool] passes to the executor. *)
Definition dispatched (tool_uses : list CityInsightsAnalyzer.tool_use) : list string :=
  flat_map
    (fun tu =>
       let sql := match CityInsightsAnalyzer.input_sql tu with
                  | Some s => s
                  | None => EmptyString
                  end in
       if String.eqb (CityInsightsAnalyzer.name tu) "query_database"
          && contains "limit" (lower sql)
       then [sql] else [])
    tool_uses.

(** A list of complete exchanges: each assistant message is followed by
    the user message that holds the results of its tool uses, id by id. *)
Fixpoint exchanges (messages : list CityInsightsAnalyzer.message) : bool :=
  match messages with
  | [] => true
  | CityInsightsAnalyzer.AssistantContent blocks
    :: CityInsightsAnalyzer.UserToolResults results :: rest =>
      (if list_eq_dec string_dec
            (map CityInsightsAnalyzer.id (CityInsightsAnalyzer.tool_uses_of blocks))
            (map CityInsightsAnalyzer.tool_use_id results)
       then true else false)
      && exchanges rest
  | _ => false
  end.

(** A transcript of the analyzer in good order: complete exchanges,
    possibly after the initial user message. *)
Definition in_good_order (messages : list CityInsightsAnalyzer.message) : bool :=
  match messages with
  | CityInsightsAnalyzer.UserText _ :: rest => exchanges rest
  | _ => exchanges messages
  end.

(** The events of [k] rate-limited iterations of [analyze_city]. *)
Fixpoint rate_limited_iterations (k : nat) : log :=
  match k with
  | O => []
  | S k' => ECompletion :: ESleep 5 :: rate_limited_iterations k'
  end.

(** The character [c] does not occur in [s]. *)
Definition free_of (c : ascii) (s : string) : bool :=
  all_chars (fun x => negb (Ascii.eqb x c)) s.

(** The events of [k] failed attempts of the retry loop of [run], the
    first of them being attempt number [retry]. *)
Fixpoint failed_attempts_from (retry k : nat) : log :=
  match k with
  | O => []
  | S k' =>
      ECompletion :: ESleep (MindsDBAgent.wait_time retry)
      :: failed_attempts_from (S retry) k'
  end.

Definition failed_attempts : nat -> log := failed_attempts_from 0.

Fixpoint total (l : list nat) : nat :=
  match l with
  | [] => 0
  | n :: t => n + total t
  end.

(** The id and the name that a tool message answers, and those of a
    requested call. *)
Definition answer_of (m : MindsDBAgent.message) : option (string * string) :=
  match m with
  | MindsDBAgent.ToolMessage tool_call_id name _ => Some (tool_call_id, name)
  | _ => None
  end.

Definition call_of (tc : MindsDBAgent.tool_call) : option (string * string) :=
  Some (MindsDBAgent.id tc, MindsDBAgent.name tc).

(** The printable ASCII characters other than the single quote and the
    backslash: [repr] writes them as they are, in single quotes. *)
Definition plain_char (c : ascii) : bool :=
  let n := Py.code c in
  ((32 <=? n) && (n <? 127))%nat
  && negb (Ascii.eqb c Py.single_quote) && negb (Ascii.eqb c Py.backslash).

Definition known_tools : list string :=
  ["query_mindsdb"; "query_postgres_direct"; "export_query_results"]%string.

Definition is_known_tool (name : string) : bool :=
  existsb (String.eqb name) known_tools.

Section Appended.

Variable provider
  : log -> list MindsDBAgent.message -> MindsDBAgent.completion_outcome.
Variable gateway : log -> string -> MindsDBTool.http_outcome.
Variable database : log -> string -> list value -> PostgresDirectTool.pg_outcome.
Variable exporter : log -> MindsDBAgent.arguments -> string.
Variable str : result -> string.
Variable str_summary : MindsDBAgent.result_summary -> string.

(** The messages that the iterations of [run] add to the transcript
    [messages] before the first pruning: iteration by iteration, the
    assistant message with its tool calls and the answers to them, up to
    and including the first iteration that leaves more than 12 messages,
    or up to the iteration that ends the run (which adds nothing). *)
Fixpoint appended_in_place (fuel : nat) (messages : list MindsDBAgent.message)
         (l : log) : list MindsDBAgent.message :=
  match fuel with
  | O => []
  | S fuel' =>
      match MindsDBAgent.call_with_retry provider MindsDBAgent.max_retries 0
              messages l with
      | (inr _, _) => []
      | (inl response, l1) =>
          match String.eqb (MindsDBAgent.finish_reason response) "tool_calls",
                MindsDBAgent.tool_calls response with
          | true, _ :: _ =>
              match MindsDBAgent.execute_tool_calls gateway database exporter
                      str str_summary (MindsDBAgent.tool_calls response) l1 with
              | (inr _, _) => []
              | (inl tool_results, l2) =>
                  let exchange :=
                    MindsDBAgent.AssistantMessage
                      (MindsDBAgent.or_default EmptyString
                         (MindsDBAgent.content response))
                      (MindsDBAgent.tool_calls response)
                    :: tool_results in
                  (exchange
                     ++ (if (12 <? length (messages ++ exchange))%nat then []
                         else appended_in_place fuel' (messages ++ exchange) l2))%list
              end
          | _, _ => []
          end
      end
  end.

End Appended.

End Notions.

Module Inputs.

Import Examples.
Local Open Scope string_scope.

Definition select_upper : string :=
  "SELECT RAW_DATA FROM service19_onboarding_data LIMIT 50".

Definition select_lower : string :=
  "select raw_data from service19_onboarding_data limit 50".

(** A gateway that fails on every statement. *)
Definition gateway_down : log -> string -> MindsDBTool.http_outcome :=
  fun _ _ => MindsDBTool.HttpTimeout.

(** A gateway that answers every statement with one row that has no cell. *)
Definition gateway_empty_row : log -> string -> MindsDBTool.http_outcome :=
  fun _ _ => MindsDBTool.HttpData [VList []] ["total"].

Definition wildcard_pattern : string := "x' UNION SELECT * FROM secrets --".

Definition three_records : list (list (string * value)) :=
  map (fun i => [("data_id", VInt i)]) [1; 2; 3]%Z.

Definition database_three_records
  : log -> string -> list value -> PostgresDirectTool.pg_outcome :=
  fun _ _ _ => PostgresDirectTool.PgRecords three_records.

(** A provider that answers as [provider_nine_queries] on transcripts of
    at most six messages and fails on longer ones. *)
Definition provider_short_only
  : log -> list CityInsightsAnalyzer.message
    -> CityInsightsAnalyzer.completion_outcome :=
  fun l messages =>
    if (length messages <=? 6)%nat then provider_nine_queries l messages
    else CityInsightsAnalyzer.OtherError "prompt is too long".

(** A provider that is rate limited twice and then answers. *)
Definition provider_limited_twice
  : log -> list CityInsightsAnalyzer.message
    -> CityInsightsAnalyzer.completion_outcome :=
  fun l _ =>
    if (completion_calls l <? 2)%nat
    then CityInsightsAnalyzer.RateLimitError rate_limit_message
    else CityInsightsAnalyzer.Response "end_turn"
           [CityInsightsAnalyzer.TextBlock plain_answer].

Definition provider_too_long
  : log -> list CityInsightsAnalyzer.message
    -> CityInsightsAnalyzer.completion_outcome :=
  fun _ _ => CityInsightsAnalyzer.OtherError "prompt is too long: 204675 tokens".

Definition fenced_body : string := "
{ insight }
".

(** A provider that is rate limited twice and then answers (scenario D of
    the spec). *)
Definition final_response : MindsDBAgent.response :=
  MindsDBAgent.Response "stop" (Some "42 records") [].

Definition provider_recovers
  : log -> list MindsDBAgent.message -> MindsDBAgent.completion_outcome :=
  fun l _ =>
    if (completion_calls l <? 2)%nat then MindsDBAgent.Error rate_limit_message
    else MindsDBAgent.Success final_response.

(** Three states of the outside of [PostgresDirectTool]: no [asyncpg];
    a server that refuses connections; a server that answers every
    statement with [three_records]. *)
Definition pool_without_asyncpg : PostgresPool.world :=
  PostgresPool.World false (fun _ => None) (fun _ => None)
    (fun _ _ _ => inr []) (fun _ => None).

Definition pool_unreachable : PostgresPool.world :=
  PostgresPool.World true (fun _ => Some "connection refused") (fun _ => None)
    (fun _ _ _ => inr []) (fun _ => None).

Definition pool_three_records : PostgresPool.world :=
  PostgresPool.World true (fun _ => None) (fun _ => None)
    (fun _ _ _ => inr three_records) (fun _ => None).

Definition lookup_call : MindsDBAgent.tool_call :=
  MindsDBAgent.ToolCall "call_1" "lookup"
    (MindsDBAgent.QueryArguments "count" None None None None None).

(** A call of a tool whose name holds a single quote. *)
Definition quoted_name_call : MindsDBAgent.tool_call :=
  MindsDBAgent.ToolCall "call_2" "it's"
    (MindsDBAgent.QueryArguments "count" None None None None None).

Definition bad_call : MindsDBAgent.tool_call :=
  MindsDBAgent.ToolCall "call_0" "query_mindsdb"
    (MindsDBAgent.BadArguments "Expecting value: line 1 column 1 (char 0)").

(** A provider that asks for a tool in each of its first 20 turns, and
    fails on every transcript of more than 12 messages. *)
Definition provider_fails_on_long
  : log -> list MindsDBAgent.message -> MindsDBAgent.completion_outcome :=
  fun l messages =>
    if (length messages <=? 12)%nat then provider_tool_turns 20 l messages
    else MindsDBAgent.Error "context length exceeded".

(** A model that asks for three calls at once, the second of them with
    arguments that do not decode. *)
Definition bad_batch : MindsDBAgent.response :=
  MindsDBAgent.Response "tool_calls" None [call "c1"; bad_call; call "c3"].

Definition provider_bad_batch
  : log -> list MindsDBAgent.message -> MindsDBAgent.completion_outcome :=
  fun _ _ => MindsDBAgent.Success bad_batch.

(** A response that names tool calls but does not finish with
    [tool_calls]. *)
Definition stop_with_calls : MindsDBAgent.response :=
  MindsDBAgent.Response "stop" None [call "c1"].

Definition provider_stop_with_calls
  : log -> list MindsDBAgent.message -> MindsDBAgent.completion_outcome :=
  fun _ _ => MindsDBAgent.Success stop_with_calls.

Definition provider_unauthorized
  : log -> list MindsDBAgent.message -> MindsDBAgent.completion_outcome :=
  fun _ _ => MindsDBAgent.Error "AuthenticationError: 401".

(** The history after one turn of an interactive session. *)
Definition history_one_turn : list MindsDBAgent.message :=
  [ MindsDBAgent.UserMessage "How many records?";
    MindsDBAgent.AssistantMessage "42 records" [] ].

End Inputs.

(* ------------------------------------------------------------------ *)
(** ** Basic facts                                                     *)
(* ------------------------------------------------------------------ *)

Import Props Examples Notions Inputs.

Lemma prefix_empty (s : string) : String.prefix EmptyString s = true.
Proof. destruct s; reflexivity. Qed.

Lemma span_letters_prefix (s : string) : String.prefix (span_letters s) s = true.
Proof.
  induction s as [|c t IH]; simpl.
  - reflexivity.
  - destruct (is_letter c); simpl.
    + destruct (ascii_dec c c); [exact IH | congruence].
    + reflexivity.
Qed.

Lemma leading_keyword_starts (sql : string) :
  Py.startswith (Py.upper (Py.strip sql)) (leading_keyword sql) = true.
Proof. apply span_letters_prefix. Qed.

Lemma write_keyword_is_write_operation (sql : string) :
  In (leading_keyword sql) MindsDBTool.write_keywords ->
  MindsDBTool.is_write_operation sql = true.
Proof.
  intro Hin. unfold MindsDBTool.is_write_operation.
  apply existsb_exists. exists (leading_keyword sql).
  split; [exact Hin | apply leading_keyword_starts].
Qed.

Lemma write_keyword_nonempty (sql : string) :
  In (leading_keyword sql) MindsDBTool.write_keywords -> sql <> EmptyString.
Proof.
  intros Hin ->. vm_compute in Hin.
  repeat (destruct Hin as [Hin | Hin]; [discriminate Hin|]). exact Hin.
Qed.

Lemma missing_some (sql : string) :
  sql <> EmptyString -> MindsDBTool.missing (Some sql) = false.
Proof. destruct sql; [congruence | reflexivity]. Qed.

Lemma log_grows_ne (l : log) (e : event) : l ++ [e] <> l.
Proof.
  intro H. apply (f_equal (@length event)) in H.
  rewrite length_app in H. simpl in H. lia.
Qed.

(** The guard without the write check, as it applies when writes are
    allowed or the statement is not a write. *)
Lemma guard_rejects_write (sql : string) :
  MindsDBTool.is_write_operation sql = true ->
  MindsDBTool.guard sql false = Some MindsDBTool.write_not_allowed.
Proof. intro H. unfold MindsDBTool.guard. rewrite H. reflexivity. Qed.

Lemma guard_large_column_without_limit (sql : string) (allow_write : bool) :
  MindsDBTool.is_write_operation sql && negb allow_write = false ->
  references_large_column sql = true ->
  mentions_limit sql = false ->
  MindsDBTool.guard sql allow_write = Some MindsDBTool.missing_limit_on_large_column.
Proof.
  unfold references_large_column, mentions_limit, MindsDBTool.guard.
  intros -> -> ->. reflexivity.
Qed.

Lemma guard_passes_small_columns (sql : string) (allow_write : bool) :
  MindsDBTool.is_write_operation sql && negb allow_write = false ->
  references_large_column sql = false ->
  has_wildcard sql = false ->
  MindsDBTool.guard sql allow_write = None.
Proof.
  unfold references_large_column, has_wildcard, MindsDBTool.guard.
  intros -> -> ->. reflexivity.
Qed.

Lemma guard_never_write_error_when_allowed (sql : string) :
  MindsDBTool.guard sql true <> Some MindsDBTool.write_not_allowed.
Proof.
  unfold MindsDBTool.guard. rewrite andb_false_r.
  destruct (Py.contains "raw_data" (Py.lower sql)
            || Py.contains "error_details" (Py.lower sql)).
  - destruct (negb (Py.contains "limit" (Py.lower sql))); [discriminate|].
    destruct (Py.search_limit (Py.lower sql)) as [digits|].
    + destruct (10 <? Py.int_of_digits digits)%N; [discriminate|].
      destruct (Py.contains "select *" (Py.lower sql)); discriminate.
    + destruct (Py.contains "select *" (Py.lower sql)); discriminate.
  - destruct (Py.contains "select *" (Py.lower sql)); discriminate.
Qed.

(** The statement of [count_records] has no LIMIT clause and passes the
    guard. *)
Lemma count_records_passes_guard :
  Props.mentions_limit MindsDBTool.count_records_sql = false
  /\ MindsDBTool.guard MindsDBTool.count_records_sql false = None.
Proof. split; vm_compute; reflexivity. Qed.

Lemma query_rejected gateway (sql : string) (allow_write : bool) (e : string) (l : log) :
  MindsDBTool.guard sql allow_write = Some e ->
  MindsDBTool.query gateway sql allow_write l = (Failure e, l).
Proof. intro H. unfold MindsDBTool.query. rewrite H. reflexivity. Qed.

Lemma query_executed gateway (sql : string) (allow_write : bool) (l : log) :
  MindsDBTool.guard sql allow_write = None ->
  snd (MindsDBTool.query gateway sql allow_write l) = l ++ [EMindsDBPost sql].
Proof.
  intro H. unfold MindsDBTool.query. rewrite H.
  unfold bind, MindsDBTool.post, ret. reflexivity.
Qed.

Lemma analyzer_tool_rejects database str (sql : string) (l : log) :
  mentions_limit sql = false ->
  CityInsightsAnalyzer._execute_tool database str "query_database" (Some sql) l
  = (Failure CityInsightsAnalyzer.limit_required, l).
Proof.
  unfold mentions_limit, CityInsightsAnalyzer._execute_tool. intros ->.
  reflexivity.
Qed.

Lemma analyzer_tool_executes database str (sql : string) (l : log) :
  mentions_limit sql = true ->
  CityInsightsAnalyzer._execute_tool database str "query_database" (Some sql) l
  = (CityInsightsAnalyzer.shape str
       (fst (PostgresDirectTool.query database sql [] l)),
     l ++ [EPgFetch sql]).
Proof.
  unfold mentions_limit, CityInsightsAnalyzer._execute_tool. intros ->.
  reflexivity.
Qed.

Lemma direct_tool_rejects database (sql : string) (limit : Z) (l : log) :
  sql <> EmptyString ->
  mentions_limit sql = false ->
  PostgresDirectTool.execute_postgres_direct_tool database "custom_query"
    (Some sql) limit l
  = (Failure PostgresDirectTool.limit_required, l).
Proof.
  unfold mentions_limit, PostgresDirectTool.execute_postgres_direct_tool.
  intros Hne Hl. destruct sql as [|c t]; [congruence|].
  cbn [String.eqb Ascii.eqb Bool.eqb andb]. rewrite Hl. reflexivity.
Qed.

Lemma direct_tool_executes database (sql : string) (limit : Z) (l : log) :
  mentions_limit sql = true ->
  snd (PostgresDirectTool.execute_postgres_direct_tool database "custom_query"
         (Some sql) limit l)
  = l ++ [EPgFetch sql].
Proof.
  unfold mentions_limit, PostgresDirectTool.execute_postgres_direct_tool.
  intros Hl. destruct sql as [|c t]; [discriminate Hl|].
  cbn [String.eqb Ascii.eqb Bool.eqb andb]. rewrite Hl. reflexivity.
Qed.

(* ------------------------------------------------------------------ *)
(** ** The query guards                                                *)
(* ------------------------------------------------------------------ *)

(** C7.  A statement whose leading keyword is one of INSERT, UPDATE,
    DELETE, ALTER, CREATE, DROP, TRUNCATE, submitted without
    [allow_write], is answered by [MindsDBTool.query] with the failure
    dictionary that carries the write-not-allowed error, and the log is
    left as it was: the gateway is not called.  The same holds when the
    statement arrives through the [custom_query] operation of
    [execute_mindsdb_tool], and when the model requests it through the
    [query_mindsdb] tool of the agent without [allow_write]: the content of
    the tool message is the [str] of that failure dictionary. *)
Theorem write_statement_rejected_without_allow_write
        gateway database exporter str str_summary
        (sql : string) (limit : Z) (url_pattern file_type : option string)
        (call_id : string) (requested_limit : option Z) (l : log) :
  In (leading_keyword sql) MindsDBTool.write_keywords ->
  MindsDBTool.query gateway sql false l
  = (Failure MindsDBTool.write_not_allowed, l)
  /\ MindsDBTool.execute_mindsdb_tool gateway "custom_query" limit url_pattern
       file_type (Some sql) false l
     = (Failure MindsDBTool.write_not_allowed, l)
  /\ MindsDBAgent.execute_tool_call gateway database exporter str str_summary
       (MindsDBAgent.ToolCall call_id "query_mindsdb"
          (MindsDBAgent.QueryArguments "custom_query" requested_limit
             url_pattern file_type (Some sql) None)) l
     = (inl (str (Failure MindsDBTool.write_not_allowed)), l).
Proof.
  intro Hin.
  assert (Hq : MindsDBTool.query gateway sql false l
               = (Failure MindsDBTool.write_not_allowed, l)).
  { apply query_rejected, guard_rejects_write,
      write_keyword_is_write_operation, Hin. }
  assert (Hd : forall limit',
             MindsDBTool.execute_mindsdb_tool gateway "custom_query" limit'
               url_pattern file_type (Some sql) false l
             = (Failure MindsDBTool.write_not_allowed, l)).
  { intro limit'. unfold MindsDBTool.execute_mindsdb_tool.
    cbn [String.eqb Ascii.eqb Bool.eqb andb].
    rewrite (missing_some sql (write_keyword_nonempty sql Hin)). exact Hq. }
  split; [exact Hq|]. split; [apply Hd|].
  unfold MindsDBAgent.execute_tool_call.
  cbn [MindsDBAgent.args MindsDBAgent.name String.eqb Ascii.eqb Bool.eqb andb
       MindsDBAgent.or_default].
  unfold bind. rewrite Hd. reflexivity.
Qed.

Lemma write_statement_rejected_witness :
  In (leading_keyword drop_table) MindsDBTool.write_keywords
  /\ MindsDBTool.query gateway_one_row drop_table false []
     = (Failure MindsDBTool.write_not_allowed, []).
Proof.
  assert (H : In (leading_keyword drop_table) MindsDBTool.write_keywords).
  { vm_compute. do 5 right. left. reflexivity. }
  split; [exact H|].
  exact (proj1 (write_statement_rejected_without_allow_write
                  gateway_one_row database_empty exporter_none str_short
                  str_summary_short drop_table 10%Z None None "call_1" None
                  [] H)).
Defined.




(** C2, as the code has it.  For a text that does not mention [limit]:
    the analyzers' [query_database] tool and the [custom_query] operation
    of [execute_postgres_direct_tool] answer with their limit-required
    failure and do not call the executor; [MindsDBTool.query] answers with
    the large-column failure, without calling the gateway, when the text
    references [raw_data] or [error_details]; and when the text references
    neither and holds no [select *], [MindsDBTool.query] sends the
    statement to the gateway (in both cases provided it is not a write
    statement submitted without [allow_write]). *)
Theorem missing_limit_rejection
        gateway database str (sql : string) (allow_write : bool) (limit : Z)
        (l : log) :
  mentions_limit sql = false ->
  CityInsightsAnalyzer._execute_tool database str "query_database" (Some sql) l
  = (Failure CityInsightsAnalyzer.limit_required, l)
  /\ (sql <> EmptyString ->
      PostgresDirectTool.execute_postgres_direct_tool database "custom_query"
        (Some sql) limit l
      = (Failure PostgresDirectTool.limit_required, l))
  /\ (MindsDBTool.is_write_operation sql && negb allow_write = false ->
      references_large_column sql = true ->
      MindsDBTool.query gateway sql allow_write l
      = (Failure MindsDBTool.missing_limit_on_large_column, l))
  /\ (MindsDBTool.is_write_operation sql && negb allow_write = false ->
      references_large_column sql = false ->
      has_wildcard sql = false ->
      snd (MindsDBTool.query gateway sql allow_write l) = l ++ [EMindsDBPost sql]).
Proof.
  intro Hlimit. repeat split.
  - apply analyzer_tool_rejects, Hlimit.
  - intro Hne. apply direct_tool_rejects; assumption.
  - intros Hw Hlarge. apply query_rejected.
    apply guard_large_column_without_limit; assumption.
  - intros Hw Hlarge Hwild. apply query_executed.
    apply guard_passes_small_columns; assumption.
Qed.

Lemma missing_limit_rejection_witness :
  mentions_limit count_without_limit = false
  /\ CityInsightsAnalyzer._execute_tool database_empty str_short "query_database"
       (Some count_without_limit) []
     = (Failure CityInsightsAnalyzer.limit_required, []).
Proof.
  split; [reflexivity|].
  exact (proj1 (missing_limit_rejection Examples.gateway_one_row database_empty
                  str_short count_without_limit false 10%Z [] eq_refl)).
Defined.

(** C2 as stated fails on [MindsDBTool.query]: the statement of scenario B
    has no row-limiting clause and touches no large column, and it is
    sent to the gateway and answered with the rows. *)
Lemma small_column_query_without_limit_counterexample :
  mentions_limit count_without_limit = false
  /\ references_large_column count_without_limit = false
  /\ MindsDBTool.query gateway_one_row count_without_limit false []
     = (Rows [VList [VInt 42]] ["total"%string] 1 None,
        [EMindsDBPost count_without_limit]).
Proof. repeat split; vm_compute; reflexivity. Qed.

(** C9, as the code has it.  With [operation = "alter_table"] the
    dispatcher calls [query] with [allow_write=True] whatever the caller
    passed: a statement with a leading write keyword is never rejected by
    the write check, although the same statement is rejected by it under
    [custom_query] without [allow_write].  The large-column and wildcard
    checks still apply: the statement reaches the gateway exactly when
    they pass, and is answered with their error otherwise. *)
Theorem alter_table_forces_allow_write
        gateway (sql : string) (limit : Z) (url_pattern file_type : option string)
        (allow_write : bool) (l : log) :
  In (leading_keyword sql) MindsDBTool.write_keywords ->
  MindsDBTool.execute_mindsdb_tool gateway "alter_table" limit url_pattern
    file_type (Some sql) allow_write l
  = MindsDBTool.query gateway sql true l
  /\ MindsDBTool.guard sql true <> Some MindsDBTool.write_not_allowed
  /\ MindsDBTool.guard sql false = Some MindsDBTool.write_not_allowed
  /\ (snd (MindsDBTool.execute_mindsdb_tool gateway "alter_table" limit
             url_pattern file_type (Some sql) allow_write l)
      = l ++ [EMindsDBPost sql]
      <-> MindsDBTool.guard sql true = None)
  /\ (forall e, MindsDBTool.guard sql true = Some e ->
       MindsDBTool.execute_mindsdb_tool gateway "alter_table" limit url_pattern
         file_type (Some sql) allow_write l
       = (Failure e, l)).
Proof.
  intro Hin.
  assert (Heq : MindsDBTool.execute_mindsdb_tool gateway "alter_table" limit
                  url_pattern file_type (Some sql) allow_write l
                = MindsDBTool.query gateway sql true l).
  { unfold MindsDBTool.execute_mindsdb_tool.
    cbn [String.eqb Ascii.eqb Bool.eqb andb].
    rewrite (missing_some sql (write_keyword_nonempty sql Hin)). reflexivity. }
  split; [exact Heq|].
  split; [apply guard_never_write_error_when_allowed|].
  split; [apply guard_rejects_write, write_keyword_is_write_operation, Hin|].
  rewrite Heq. split.
  - split.
    + intro Hlog. destruct (MindsDBTool.guard sql true) as [e|] eqn:Hg;
        [|reflexivity].
      rewrite (query_rejected gateway sql true e l Hg) in Hlog. simpl in Hlog.
      symmetry in Hlog. exfalso. exact (log_grows_ne l _ Hlog).
    + apply query_executed.
  - intros e Hg. apply query_rejected, Hg.
Qed.

Lemma alter_table_forces_allow_write_witness :
  In (leading_keyword drop_table) MindsDBTool.write_keywords
  /\ MindsDBTool.execute_mindsdb_tool gateway_one_row "alter_table" 10%Z None
       None (Some drop_table) false []
     = MindsDBTool.query gateway_one_row drop_table true [].
Proof.
  assert (H : In (leading_keyword drop_table) MindsDBTool.write_keywords).
  { vm_compute. do 5 right. left. reflexivity. }
  split; [exact H|].
  exact (proj1 (alter_table_forces_allow_write gateway_one_row drop_table 10%Z
                  None None false [] H)).
Defined.

(** C9 as stated fails: an ALTER TABLE statement that names a column whose
    name contains [raw_data] is submitted with [operation = "alter_table"];
    it is stopped by the large-column check and never reaches the gateway. *)
Lemma alter_table_not_always_executed_counterexample :
  In (leading_keyword alter_add_column) MindsDBTool.write_keywords
  /\ MindsDBTool.execute_mindsdb_tool gateway_one_row "alter_table" 10%Z None
       None (Some alter_add_column) false []
     = (Failure MindsDBTool.missing_limit_on_large_column, []).
Proof.
  split.
  - vm_compute. do 3 right. left. reflexivity.
  - vm_compute. reflexivity.
Qed.

(** C10.  The row-limit guard of the analyzers' [query_database] tool is a
    substring test on the lowercased text: the statement is passed to the
    executor if and only if the lowercased text contains [limit]; the
    same holds for the [custom_query] operation of
    [execute_postgres_direct_tool].  So a statement without a LIMIT clause
    whose only [limit] sits inside an identifier is executed. *)
Theorem limit_guard_is_substring_test
        database str (sql : string) (limit : Z) (l : log) :
  (snd (CityInsightsAnalyzer._execute_tool database str "query_database"
          (Some sql) l) = l ++ [EPgFetch sql]
   <-> Py.contains "limit" (Py.lower sql) = true)
  /\ (snd (CityInsightsAnalyzer._execute_tool database str "query_database"
             (Some sql) l) = l
      <-> Py.contains "limit" (Py.lower sql) = false)
  /\ (snd (PostgresDirectTool.execute_postgres_direct_tool database
             "custom_query" (Some sql) limit l) = l ++ [EPgFetch sql]
      <-> Py.contains "limit" (Py.lower sql) = true)
  /\ snd (CityInsightsAnalyzer._execute_tool database str "query_database"
            (Some limit_in_identifier) l)
     = l ++ [EPgFetch limit_in_identifier].
Proof.
  assert (Hex : snd (CityInsightsAnalyzer._execute_tool database str
                       "query_database" (Some limit_in_identifier) l)
                = l ++ [EPgFetch limit_in_identifier]).
  { rewrite (analyzer_tool_executes database str limit_in_identifier l eq_refl).
    reflexivity. }
  fold (mentions_limit sql).
  destruct (mentions_limit sql) eqn:Hl.
  - rewrite (analyzer_tool_executes database str sql l Hl).
    rewrite (direct_tool_executes database sql limit l Hl). simpl.
    split; [split; reflexivity|].
    split; [split; [intro H; exfalso; exact (log_grows_ne l _ H) | discriminate]|].
    split; [split; reflexivity | exact Hex].
  - rewrite (analyzer_tool_rejects database str sql l Hl). simpl.
    split; [split; [intro H; symmetry in H; exfalso; exact (log_grows_ne l _ H)
                   | discriminate]|].
    split; [split; reflexivity|].
    split; [|exact Hex].
    split; [|discriminate].
    intro H. exfalso. destruct sql as [|c t].
    + vm_compute in H. symmetry in H. exact (log_grows_ne l _ H).
    + rewrite (direct_tool_rejects database (String c t) limit l) in H;
        [|discriminate|exact Hl].
      simpl in H. symmetry in H. exact (log_grows_ne l _ H).
Qed.

(* ------------------------------------------------------------------ *)
(** ** The response parser                                             *)
(* ------------------------------------------------------------------ *)

Lemma take_min_length (s : string) (n : nat) :
  Py.take (Nat.min (String.length s) n) s = Py.take n s.
Proof.
  revert n. induction s as [|c t IH]; intros [|n]; simpl; try reflexivity.
  f_equal. apply IH.
Qed.

Lemma slice_first (s : string) (n : nat) :
  Py.slice s 0 (Z.of_nat n) = Py.take n s.
Proof.
  unfold Py.slice, Py.bound.
  replace (Z.of_nat n <? 0)%Z with false by (symmetry; apply Z.ltb_ge; lia).
  simpl (0 <? 0)%Z. cbv iota. rewrite Nat2Z.id. simpl (Z.to_nat 0).
  rewrite Nat.min_0_r, Nat.sub_0_r. simpl Py.drop. apply take_min_length.
Qed.

(** C6, as the code has it.  When [json.loads] fails on the extracted
    text, the parsed insight is the fallback dictionary: the summary is
    the first 200 characters of the raw text, the detail is the raw text,
    the confidence is 0.5, the recommendations are empty, and the list of
    data sources holds the single entry ["unknown"]. *)
Theorem fallback_on_decode_failure
        (json_loads : string -> option value) (final_response : string) :
  json_loads (CityInsightsAnalyzer.extract_json final_response) = None ->
  let insight := CityInsightsAnalyzer.parse json_loads final_response in
  insight = CityInsightsAnalyzer.fallback final_response
  /\ CityInsightsAnalyzer.get "insight_summary" insight
     = Some (VStr (Py.take 200 final_response))
  /\ CityInsightsAnalyzer.get "detailed_analysis" insight
     = Some (VStr final_response)
  /\ CityInsightsAnalyzer.get "data_sources_used" insight
     = Some (VList [VStr "unknown"])
  /\ CityInsightsAnalyzer.get "confidence_score" insight
     = Some (VFloat (1 # 2)%Q)
  /\ CityInsightsAnalyzer.get "recommendations" insight = Some (VList []).
Proof.
  intro Hfail. unfold CityInsightsAnalyzer.parse. rewrite Hfail.
  cbv zeta. split; [reflexivity|].
  split; [|repeat split].
  unfold CityInsightsAnalyzer.fallback, CityInsightsAnalyzer.get.
  cbn [CityInsightsAnalyzer.lookup String.eqb Ascii.eqb Bool.eqb andb].
  change 200%Z with (Z.of_nat 200). rewrite slice_first. reflexivity.
Qed.

Lemma fallback_on_decode_failure_witness :
  decoder_braces_only (CityInsightsAnalyzer.extract_json plain_answer) = None
  /\ CityInsightsAnalyzer.parse decoder_braces_only plain_answer
     = CityInsightsAnalyzer.fallback plain_answer.
Proof.
  split; [reflexivity|].
  exact (proj1 (fallback_on_decode_failure decoder_braces_only plain_answer
                  eq_refl)).
Defined.

(** C6 as stated fails: the fallback's list of data sources is not empty. *)
Lemma fallback_sources_not_empty_counterexample :
  decoder_braces_only (CityInsightsAnalyzer.extract_json plain_answer) = None
  /\ CityInsightsAnalyzer.get "data_sources_used"
       (CityInsightsAnalyzer.parse decoder_braces_only plain_answer)
     <> Some (VList []).
Proof.
  split; [reflexivity|].
  vm_compute. discriminate.
Qed.

(* ------------------------------------------------------------------ *)
(** ** Result shaping                                                  *)
(* ------------------------------------------------------------------ *)


Lemma shape_rows str (data : list value) (columns : list string)
      (row_count : nat) (note : option string) :
  0 < row_count ->
  let r5 := Rows (firstn 5 data) columns row_count
                 (Some (CityInsightsAnalyzer.note_first_5 row_count)) in
  CityInsightsAnalyzer.shape str (Rows data columns row_count note)
  = if (3000 <? Py.len (str r5))%N
    then Rows (firstn 2 data) columns row_count
              (Some (CityInsightsAnalyzer.note_showing_2 row_count))
    else r5.
Proof.
  intro Hpos. unfold CityInsightsAnalyzer.shape, first_rows.
  destruct (Nat.ltb_spec 0 row_count) as [_|Hle]; [|lia].
  cbv zeta. rewrite firstn_firstn. reflexivity.
Qed.





(* ------------------------------------------------------------------ *)
(** ** The retry loop                                                  *)
(* ------------------------------------------------------------------ *)

Section Retry.

Variable provider : log -> list MindsDBAgent.message -> MindsDBAgent.completion_outcome.

Lemma retry_success (remaining retry : nat) messages (l : log) response :
  provider l messages = MindsDBAgent.Success response ->
  MindsDBAgent.call_with_retry provider (S remaining) retry messages l
  = (inl response, l ++ [ECompletion]).
Proof.
  intro H. simpl. unfold bind, MindsDBAgent.complete. rewrite H. reflexivity.
Qed.

Lemma retry_sleeps (remaining retry : nat) messages (l : log) (e : string) :
  provider l messages = MindsDBAgent.Error e ->
  MindsDBAgent.is_rate_limit e = true ->
  retry < MindsDBAgent.max_retries - 1 ->
  MindsDBAgent.call_with_retry provider (S remaining) retry messages l
  = MindsDBAgent.call_with_retry provider remaining (S retry) messages
      ((l ++ [ECompletion]) ++ [ESleep (MindsDBAgent.wait_time retry)]).
Proof.
  intros H Hrate Hlt. simpl. unfold bind, MindsDBAgent.complete.
  rewrite H, Hrate.
  change (MindsDBAgent.max_retries - 1) with 4 in Hlt.
  destruct (Nat.ltb_spec retry 4) as [_|Hge]; [reflexivity | lia].
Qed.

Lemma retry_gives_up (remaining retry : nat) messages (l : log) (e : string) :
  provider l messages = MindsDBAgent.Error e ->
  MindsDBAgent.is_rate_limit e = true ->
  MindsDBAgent.max_retries - 1 <= retry ->
  MindsDBAgent.call_with_retry provider (S remaining) retry messages l
  = (inr e, l ++ [ECompletion]).
Proof.
  intros H Hrate Hge. simpl. unfold bind, MindsDBAgent.complete.
  rewrite H, Hrate.
  change (MindsDBAgent.max_retries - 1) with 4 in Hge.
  destruct (Nat.ltb_spec retry 4) as [Hlt|_]; [lia | reflexivity].
Qed.

Lemma retry_other_error (remaining retry : nat) messages (l : log) (e : string) :
  provider l messages = MindsDBAgent.Error e ->
  MindsDBAgent.is_rate_limit e = false ->
  MindsDBAgent.call_with_retry provider (S remaining) retry messages l
  = (inr e, l ++ [ECompletion]).
Proof.
  intros H Hrate. simpl. unfold bind, MindsDBAgent.complete.
  rewrite H, Hrate. reflexivity.
Qed.

End Retry.

(** C4, what the code does.  When every attempt fails with the same
    rate-limit-classified error, the retry loop of [run] makes five
    completion calls and sleeps four times, 3, 6, 12 and 24 seconds; the
    fifth failure is raised at once and leaves [run].  No 48-second sleep
    takes place. *)
Theorem retry_sleeps_four_times
        provider gateway database exporter str str_summary
        (e : string) (messages : list MindsDBAgent.message) (fuel : nat)
        (l : log) :
  MindsDBAgent.is_rate_limit e = true ->
  (forall l' ms, provider l' ms = MindsDBAgent.Error e) ->
  MindsDBAgent.call_with_retry provider MindsDBAgent.max_retries 0 messages l
  = (inr e, l ++ five_failed_attempts)
  /\ MindsDBAgent.loop provider gateway database exporter str str_summary
       (S fuel) messages l
     = (Some (MindsDBAgent.Raised e), l ++ five_failed_attempts)
  /\ sleeps five_failed_attempts = [3; 6; 12; 24]
  /\ completion_calls five_failed_attempts = 5.
Proof.
  intros Hrate Hfail.
  assert (Hretry : MindsDBAgent.call_with_retry provider MindsDBAgent.max_retries
                     0 messages l
                   = (inr e, l ++ five_failed_attempts));
    [|split; [exact Hretry|]; split; [|split; reflexivity];
      cbn [MindsDBAgent.loop]; unfold bind; rewrite Hretry; reflexivity].
  unfold MindsDBAgent.max_retries.
  rewrite (retry_sleeps provider 4 0 messages l e (Hfail _ _) Hrate)
    by (unfold MindsDBAgent.max_retries; lia).
  rewrite (retry_sleeps provider 3 1 messages _ e (Hfail _ _) Hrate)
    by (unfold MindsDBAgent.max_retries; lia).
  rewrite (retry_sleeps provider 2 2 messages _ e (Hfail _ _) Hrate)
    by (unfold MindsDBAgent.max_retries; lia).
  rewrite (retry_sleeps provider 1 3 messages _ e (Hfail _ _) Hrate)
    by (unfold MindsDBAgent.max_retries; lia).
  rewrite (retry_gives_up provider 0 4 messages _ e (Hfail _ _) Hrate)
    by (unfold MindsDBAgent.max_retries; lia).
  unfold five_failed_attempts. repeat rewrite <- app_assoc. reflexivity.
Qed.

Lemma retry_sleeps_four_times_witness :
  MindsDBAgent.is_rate_limit rate_limit_message = true
  /\ sleeps (snd (MindsDBAgent.call_with_retry provider_always_rate_limited
                    MindsDBAgent.max_retries 0 [MindsDBAgent.UserMessage "q"] []))
     = [3; 6; 12; 24].
Proof.
  split; [reflexivity|].
  rewrite (proj1 (retry_sleeps_four_times provider_always_rate_limited
                    gateway_one_row database_empty exporter_none str_short
                    str_summary_short rate_limit_message
                    [MindsDBAgent.UserMessage "q"] 0 []
                    eq_refl (fun _ _ => eq_refl))).
  reflexivity.
Defined.

(* ------------------------------------------------------------------ *)
(** ** Pruning                                                         *)
(* ------------------------------------------------------------------ *)

Lemma analyzer_paired_tail m (messages : list CityInsightsAnalyzer.message) :
  analyzer_paired (m :: messages) = true -> analyzer_paired messages = true.
Proof.
  destruct m; simpl; try (intro H; exact H).
  intro H. apply andb_true_iff in H. apply H.
Qed.

Lemma analyzer_paired_skipn (n : nat) (messages : list CityInsightsAnalyzer.message) :
  analyzer_paired messages = true -> analyzer_paired (skipn n messages) = true.
Proof.
  revert messages. induction n as [|n IH]; intros messages H.
  - exact H.
  - destruct messages as [|m rest]; [exact H|].
    simpl. apply IH. exact (analyzer_paired_tail m rest H).
Qed.

Lemma agent_paired_tail m (messages : list MindsDBAgent.message) :
  agent_paired (m :: messages) = true -> agent_paired messages = true.
Proof. simpl. intro H. apply andb_true_iff in H. apply H. Qed.

Lemma agent_paired_skipn (n : nat) (messages : list MindsDBAgent.message) :
  agent_paired messages = true -> agent_paired (skipn n messages) = true.
Proof.
  revert messages. induction n as [|n IH]; intros messages H.
  - exact H.
  - destruct messages as [|m rest]; [exact H|].
    simpl. apply IH. exact (agent_paired_tail m rest H).
Qed.

Lemma agent_paired_cons first (rest : list MindsDBAgent.message) :
  requests first = [] ->
  agent_paired rest = true ->
  agent_paired (first :: rest) = true.
Proof. intros Hreq H. simpl. rewrite Hreq, H. reflexivity. Qed.

(** The shape of the agent's pruned transcript: the transcript itself when
    it holds at most 12 messages; otherwise the first message followed by
    the last 10 messages, or by the last 9 when the last 10 open with a
    user message. *)
Lemma agent_prune_shape (messages : list MindsDBAgent.message) :
  (length messages <= 12 /\ MindsDBAgent.prune messages = messages)
  \/ (12 < length messages /\
      exists first,
        hd_error messages = Some first
        /\ ((MindsDBAgent.prune messages = first :: last_items 10 messages
             /\ forall m, hd_error (last_items 10 messages) = Some m ->
                          MindsDBAgent.role m <> "user"%string)
            \/ (MindsDBAgent.prune messages = first :: last_items 9 messages
                /\ exists m, hd_error (last_items 10 messages) = Some m
                             /\ MindsDBAgent.role m = "user"%string))).
Proof.
  unfold MindsDBAgent.prune.
  destruct (Nat.ltb_spec 12 (length messages)) as [Hlong|Hshort].
  - right. split; [exact Hlong|].
    destruct messages as [|first rest]; [simpl in Hlong; lia|].
    exists first. split; [reflexivity|].
    destruct (last_items 10 (first :: rest)) as [|m tail] eqn:Htail.
    + left. split; [reflexivity|]. intros m Hm. discriminate Hm.
    + destruct (String.eqb (MindsDBAgent.role m) "user") eqn:Hrole.
      * right. split; [reflexivity|]. exists m.
        split; [reflexivity | apply String.eqb_eq, Hrole].
      * left. split; [reflexivity|]. intros m' Hm'.
        injection Hm' as <-. apply String.eqb_neq, Hrole.
  - left. split; [exact Hshort | reflexivity].
Qed.

Lemma agent_prune_paired (messages : list MindsDBAgent.message) :
  agent_paired messages = true ->
  opens_without_requests messages = true ->
  agent_paired (MindsDBAgent.prune messages) = true.
Proof.
  intros Hpaired Hopen.
  destruct (agent_prune_shape messages)
    as [[_ ->] | [_ [first [Hfirst [[-> _] | [-> _]]]]]].
  - exact Hpaired.
  - destruct messages as [|m rest]; [discriminate Hfirst|].
    injection Hfirst as ->. simpl in Hopen.
    apply agent_paired_cons.
    + destruct (requests first); [reflexivity | discriminate Hopen].
    + apply agent_paired_skipn, Hpaired.
  - destruct messages as [|m rest]; [discriminate Hfirst|].
    injection Hfirst as ->. simpl in Hopen.
    apply agent_paired_cons.
    + destruct (requests first); [reflexivity | discriminate Hopen].
    + apply agent_paired_skipn, Hpaired.
Qed.

Lemma analyzer_prune_shape (transcript : list CityInsightsAnalyzer.message) :
  (length transcript <= 6 /\ CityInsightsAnalyzer.prune transcript = transcript)
  \/ (6 < length transcript
      /\ CityInsightsAnalyzer.prune transcript = last_items 6 transcript).
Proof.
  unfold CityInsightsAnalyzer.prune.
  destruct (Nat.ltb_spec 6 (length transcript)); [right | left]; split;
    (assumption || reflexivity).
Qed.

Lemma tool_role_is_tool_message (m : MindsDBAgent.message) :
  MindsDBAgent.role m = "tool"%string ->
  exists tool_call_id name content,
    m = MindsDBAgent.ToolMessage tool_call_id name content.
Proof.
  destruct m as [u|t calls|i n c]; intro H; try discriminate H.
  exists i, n, c. reflexivity.
Qed.

Lemma orphan_is_not_well_paired first m (rest : list MindsDBAgent.message) :
  requests first = [] ->
  MindsDBAgent.role m = "tool"%string ->
  well_paired (first :: m :: rest) = false.
Proof.
  intros Hfirst Hm.
  destruct (tool_role_is_tool_message m Hm) as [i [n [c ->]]].
  unfold well_paired.
  destruct first as [u|t calls|i' n' c']; cbn [well_paired_from requests];
    try reflexivity.
  cbn [requests] in Hfirst. rewrite Hfirst. reflexivity.
Qed.

(** C3, what the code does.  The pruning of [MindsDBAgent.run] means to
    keep pairs together: it looks at the first of the last 10 messages and
    drops it when it is an orphan.  The test is on the role [user], and
    the tool results of this agent have the role [tool].  So when the last
    10 messages open with a tool result, the result is kept although the
    assistant message that requested it has been cut off: the pruned
    transcript is the first message followed by these 10 messages, and a
    pair is split.  And when the last 10 messages open with a user
    message, which is a question and no orphan, that message is
    dropped. *)
Theorem prune_splits_pair
        (messages : list MindsDBAgent.message) first m :
  12 < length messages ->
  hd_error messages = Some first ->
  requests first = [] ->
  hd_error (last_items 10 messages) = Some m ->
  (MindsDBAgent.role m = "tool"%string ->
   MindsDBAgent.prune messages = first :: last_items 10 messages
   /\ well_paired (MindsDBAgent.prune messages) = false)
  /\ (MindsDBAgent.role m = "user"%string ->
      MindsDBAgent.prune messages = first :: last_items 9 messages).
Proof.
  intros Hlong Hfirst Hreq Hm.
  destruct (agent_prune_shape messages)
    as [[Hshort _] | [_ [first' [Hfirst' Hshape]]]]; [lia|].
  rewrite Hfirst in Hfirst'. injection Hfirst' as <-.
  split.
  - intro Hrole.
    destruct Hshape as [[Hp _] | [_ [m' [Hm' Hrole']]]].
    + split; [exact Hp|]. rewrite Hp.
      destruct (last_items 10 messages) as [|m0 tail]; [discriminate Hm|].
      injection Hm as ->. apply orphan_is_not_well_paired; assumption.
    + rewrite Hm in Hm'. injection Hm' as <-.
      rewrite Hrole in Hrole'. discriminate Hrole'.
  - intro Hrole.
    destruct Hshape as [[_ Hnot] | [Hp _]]; [|exact Hp].
    exfalso. exact (Hnot m Hm Hrole).
Qed.

Lemma prune_splits_pair_witness :
  (well_paired transcript_two_calls = true
   /\ MindsDBAgent.prune transcript_two_calls
      = [ MindsDBAgent.UserMessage "question"; answer "c2";
          MindsDBAgent.AssistantMessage "" [call "c3"]; answer "c3";
          MindsDBAgent.AssistantMessage "" [call "c4"]; answer "c4";
          MindsDBAgent.AssistantMessage "" [call "c5"]; answer "c5";
          MindsDBAgent.AssistantMessage "" [call "c6"; call "c7"];
          answer "c6"; answer "c7" ]
   /\ well_paired (MindsDBAgent.prune transcript_two_calls) = false)
  /\ (well_paired transcript_with_history = true
      /\ MindsDBAgent.prune transcript_with_history
         = [ MindsDBAgent.UserMessage "earlier question";
             MindsDBAgent.AssistantMessage "" [call "c1"]; answer "c1";
             MindsDBAgent.AssistantMessage "" [call "c2"]; answer "c2";
             MindsDBAgent.AssistantMessage "" [call "c3"]; answer "c3";
             MindsDBAgent.AssistantMessage "" [call "c4"; call "c5"];
             answer "c4"; answer "c5" ]).
Proof.
  split.
  - destruct (proj1 (prune_splits_pair transcript_two_calls
                       (MindsDBAgent.UserMessage "question") (answer "c2")
                       ltac:(simpl; lia) eq_refl eq_refl eq_refl)
                    eq_refl) as [Hshape Hsplit].
    split; [reflexivity|]. split; [rewrite Hshape; reflexivity | exact Hsplit].
  - split; [reflexivity|].
    rewrite (proj2 (prune_splits_pair transcript_with_history
                      (MindsDBAgent.UserMessage "earlier question")
                      (MindsDBAgent.UserMessage "question")
                      ltac:(simpl; lia) eq_refl eq_refl eq_refl)
                   eq_refl).
    reflexivity.
Defined.

(* ------------------------------------------------------------------ *)
(** ** The budgets of the loops                                        *)
(* ------------------------------------------------------------------ *)

Lemma completion_calls_app (l1 l2 : log) :
  completion_calls (l1 ++ l2) = completion_calls l1 + completion_calls l2.
Proof. unfold completion_calls. rewrite filter_app, length_app. reflexivity. Qed.

Lemma executor_calls_app (l1 l2 : log) :
  executor_calls (l1 ++ l2) = executor_calls l1 ++ executor_calls l2.
Proof. apply filter_app. Qed.

Section AnalyzerLoop.

Variable provider :
  log -> list CityInsightsAnalyzer.message -> CityInsightsAnalyzer.completion_outcome.
Variable database : log -> string -> list value -> PostgresDirectTool.pg_outcome.
Variable str : result -> string.
Variable json_loads : string -> option value.

Lemma execute_tool_log (tool_name : string) (sql : option string) (l : log) :
  exists extra,
    snd (CityInsightsAnalyzer._execute_tool database str tool_name sql l)
    = l ++ extra
    /\ completion_calls extra = 0.
Proof.
  unfold CityInsightsAnalyzer._execute_tool.
  destruct (String.eqb tool_name "query_database").
  - destruct (negb _).
    + exists []. rewrite app_nil_r. split; reflexivity.
    + eexists [_]. split; reflexivity.
  - exists []. rewrite app_nil_r. split; reflexivity.
Qed.

Lemma execute_tools_completions (tool_uses : list CityInsightsAnalyzer.tool_use)
      (l : log) :
  completion_calls
    (snd (CityInsightsAnalyzer.execute_tools database str tool_uses l))
  = completion_calls l.
Proof.
  revert l. induction tool_uses as [|tu rest IH]; intro l.
  - reflexivity.
  - cbn [CityInsightsAnalyzer.execute_tools]. unfold bind at 1.
    destruct (execute_tool_log (CityInsightsAnalyzer.name tu)
                (CityInsightsAnalyzer.input_sql tu) l) as [extra [Hlog Hnone]].
    destruct (CityInsightsAnalyzer._execute_tool database str
                (CityInsightsAnalyzer.name tu)
                (CityInsightsAnalyzer.input_sql tu) l) as [r l1].
    simpl in Hlog. subst l1. unfold bind.
    specialize (IH (l ++ extra)).
    destruct (CityInsightsAnalyzer.execute_tools database str rest (l ++ extra))
      as [rs l2].
    simpl in IH |- *. rewrite IH, completion_calls_app, Hnone. lia.
Qed.

(** One iteration of the loop, with the log written out. *)
Lemma loop_step (n : nat) (messages : list CityInsightsAnalyzer.message) (l : log) :
  CityInsightsAnalyzer.loop provider database str json_loads (S n) messages l
  = let pruned := CityInsightsAnalyzer.prune messages in
    let l1 := l ++ [ECompletion] in
    match provider l pruned with
    | CityInsightsAnalyzer.RateLimitError _ =>
        CityInsightsAnalyzer.loop provider database str json_loads n pruned
          (l1 ++ [ESleep 5])
    | CityInsightsAnalyzer.OtherError e =>
        if CityInsightsAnalyzer.is_context_overflow e then
          CityInsightsAnalyzer.loop provider database str json_loads n
            (CityInsightsAnalyzer.prune_aggressively pruned) l1
        else (CityInsightsAnalyzer.Raised e, l1)
    | CityInsightsAnalyzer.Response stop_reason blocks =>
        if String.eqb stop_reason "tool_use" then
          let (tool_results, l2) :=
            CityInsightsAnalyzer.execute_tools database str
              (CityInsightsAnalyzer.tool_uses_of blocks) l1 in
          CityInsightsAnalyzer.loop provider database str json_loads n
            (pruned ++ [CityInsightsAnalyzer.AssistantContent blocks;
                        CityInsightsAnalyzer.UserToolResults tool_results]) l2
        else
          (CityInsightsAnalyzer.Completed
             (CityInsightsAnalyzer.parse json_loads
                (String.concat CityInsightsAnalyzer.newline
                   (CityInsightsAnalyzer.texts_of blocks))), l1)
    end.
Proof.
  cbn [CityInsightsAnalyzer.loop].
  unfold bind, CityInsightsAnalyzer.complete, emit, ret. cbv beta iota zeta.
  destruct (provider l (CityInsightsAnalyzer.prune messages))
    as [m | e | stop_reason blocks]; try reflexivity.
  - destruct (CityInsightsAnalyzer.is_context_overflow e); reflexivity.
  - destruct (String.eqb stop_reason "tool_use"); reflexivity.
Qed.

(** Each iteration makes exactly one completion call; the loop stops
    when none remains. *)
Lemma loop_completion_calls (n : nat) :
  forall (messages : list CityInsightsAnalyzer.message) (l : log),
    let r := CityInsightsAnalyzer.loop provider database str json_loads n
               messages l in
    completion_calls (snd r) <= completion_calls l + n
    /\ (fst r = CityInsightsAnalyzer.MaxIterationsReached ->
        completion_calls (snd r) = completion_calls l + n).
Proof.
  induction n as [|n IH]; intros messages l; cbv zeta.
  - simpl. split; [lia | intros _; lia].
  - rewrite loop_step. cbv zeta.
    destruct (provider l (CityInsightsAnalyzer.prune messages))
      as [m | e | stop_reason blocks].
    + specialize (IH (CityInsightsAnalyzer.prune messages)
                     ((l ++ [ECompletion]) ++ [ESleep 5])).
      cbv zeta in IH. rewrite !completion_calls_app in IH.
      change (completion_calls [ECompletion]) with 1 in IH.
      change (completion_calls [ESleep 5]) with 0 in IH.
      destruct IH as [IH1 IH2]. split; [lia|].
      intro H. rewrite (IH2 H). lia.
    + destruct (CityInsightsAnalyzer.is_context_overflow e).
      * specialize (IH (CityInsightsAnalyzer.prune_aggressively
                          (CityInsightsAnalyzer.prune messages))
                       (l ++ [ECompletion])).
        cbv zeta in IH. rewrite completion_calls_app in IH.
        change (completion_calls [ECompletion]) with 1 in IH.
        destruct IH as [IH1 IH2]. split; [lia|].
        intro H. rewrite (IH2 H). lia.
      * simpl. rewrite completion_calls_app.
        change (completion_calls [ECompletion]) with 1.
        split; [lia | discriminate].
    + destruct (String.eqb stop_reason "tool_use").
      * pose proof (execute_tools_completions
                      (CityInsightsAnalyzer.tool_uses_of blocks)
                      (l ++ [ECompletion])) as Htools.
        destruct (CityInsightsAnalyzer.execute_tools database str
                    (CityInsightsAnalyzer.tool_uses_of blocks)
                    (l ++ [ECompletion])) as [tool_results l1].
        simpl in Htools. rewrite completion_calls_app in Htools.
        change (completion_calls [ECompletion]) with 1 in Htools.
        match goal with
        | |- context [CityInsightsAnalyzer.loop _ _ _ _ n ?ms l1] =>
            specialize (IH ms l1)
        end.
        cbv zeta in IH. destruct IH as [IH1 IH2]. split; [lia|].
        intro H. rewrite (IH2 H). lia.
      * simpl. rewrite completion_calls_app.
        change (completion_calls [ECompletion]) with 1.
        split; [lia | discriminate].
Qed.

(** When every answer asks for another iteration, the loop runs out of
    iterations and ends with the max-iterations failure. *)
Lemma loop_exhausted (n : nat) :
  forall (messages : list CityInsightsAnalyzer.message) (l : log),
    (forall l' ms, completion_calls l' < completion_calls l + n ->
                   goes_on (provider l' ms) = true) ->
    fst (CityInsightsAnalyzer.loop provider database str json_loads n
           messages l)
    = CityInsightsAnalyzer.MaxIterationsReached.
Proof.
  induction n as [|n IH]; intros messages l Hgo; [reflexivity|].
  rewrite loop_step. cbv zeta.
  pose proof (Hgo l (CityInsightsAnalyzer.prune messages) ltac:(lia)) as Hnow.
  destruct (provider l (CityInsightsAnalyzer.prune messages))
    as [m | e | stop_reason blocks]; cbn [goes_on] in Hnow.
  - apply IH. intros l' ms Hl'. apply Hgo.
    rewrite !completion_calls_app in Hl'.
    change (completion_calls [ECompletion]) with 1 in Hl'.
    change (completion_calls [ESleep 5]) with 0 in Hl'. lia.
  - rewrite Hnow. apply IH. intros l' ms Hl'. apply Hgo.
    rewrite completion_calls_app in Hl'.
    change (completion_calls [ECompletion]) with 1 in Hl'. lia.
  - rewrite Hnow.
    pose proof (execute_tools_completions
                  (CityInsightsAnalyzer.tool_uses_of blocks)
                  (l ++ [ECompletion])) as Htools.
    destruct (CityInsightsAnalyzer.execute_tools database str
                (CityInsightsAnalyzer.tool_uses_of blocks)
                (l ++ [ECompletion])) as [tool_results l1].
    cbn [snd] in Htools. rewrite completion_calls_app in Htools.
    change (completion_calls [ECompletion]) with 1 in Htools.
    apply IH. intros l' ms Hl'. apply Hgo. lia.
Qed.

End AnalyzerLoop.

Section NoQueryBudget.

Variable database : log -> string -> list value -> PostgresDirectTool.pg_outcome.
Variable str : result -> string.
Variable json_loads : string -> option value.

Lemma tool_uses_of_repeat (tu : CityInsightsAnalyzer.tool_use) (k : nat) :
  CityInsightsAnalyzer.tool_uses_of (repeat (CityInsightsAnalyzer.ToolUseBlock tu) k)
  = repeat tu k.
Proof.
  induction k as [|k IH]; [reflexivity|].
  simpl. f_equal. exact IH.
Qed.

(** Every one of [k] query requests of a turn is dispatched. *)
Lemma execute_tools_repeat (k : nat) (l : log) :
  let l' := snd (CityInsightsAnalyzer.execute_tools database str
                   (repeat query_tool_use k) l) in
  length (executor_calls l') = length (executor_calls l) + k
  /\ completion_calls l' = completion_calls l.
Proof.
  cbv zeta. split; [|apply execute_tools_completions].
  revert l. induction k as [|k IH]; intro l.
  - simpl. lia.
  - cbn [repeat CityInsightsAnalyzer.execute_tools]. unfold bind at 1.
    change (CityInsightsAnalyzer.name query_tool_use) with "query_database"%string.
    change (CityInsightsAnalyzer.input_sql query_tool_use) with (Some one_row_sql).
    rewrite (analyzer_tool_executes database str one_row_sql l eq_refl).
    unfold bind. specialize (IH (l ++ [EPgFetch one_row_sql])).
    destruct (CityInsightsAnalyzer.execute_tools database str
                (repeat query_tool_use k) _) as [rs l2].
    simpl in IH |- *. rewrite IH, executor_calls_app, length_app. simpl. lia.
Qed.

(** A run in which the model asks for [k] queries and then answers. *)
Lemma many_queries_run (k : nat) (user_message : string) :
  CityInsightsAnalyzer.analyze_city (provider_many_queries k)
    database str json_loads user_message []
  = (CityInsightsAnalyzer.Completed
       (CityInsightsAnalyzer.parse json_loads plain_answer),
     snd (CityInsightsAnalyzer.execute_tools database str
            (repeat query_tool_use k) [ECompletion]) ++ [ECompletion]).
Proof.
  unfold CityInsightsAnalyzer.analyze_city, CityInsightsAnalyzer.analyze_city_with,
    CityInsightsAnalyzer.max_iterations.
  rewrite loop_step. cbv zeta.
  unfold provider_many_queries at 1.
  change (completion_calls [] =? 0) with true. cbv iota.
  change (String.eqb "tool_use" "tool_use") with true. cbv iota.
  rewrite tool_uses_of_repeat.
  change ([] ++ [ECompletion]) with [ECompletion].
  destruct (execute_tools_repeat k [ECompletion]) as [_ Hcalls].
  destruct (CityInsightsAnalyzer.execute_tools database str
              (repeat query_tool_use k) [ECompletion]) as [rs l2].
  cbn [snd] in Hcalls |- *.
  rewrite loop_step. cbv zeta.
  unfold provider_many_queries at 1. rewrite Hcalls.
  change (completion_calls [ECompletion] =? 0) with false. cbv iota.
  change (String.eqb "end_turn" "tool_use") with false. cbv iota.
  reflexivity.
Qed.

(** It dispatches all [k] queries and completes after two completion
    calls. *)
Lemma many_queries_dispatched (k : nat) (user_message : string) :
  let r := CityInsightsAnalyzer.analyze_city (provider_many_queries k)
             database str json_loads user_message [] in
  length (executor_calls (snd r)) = k
  /\ completion_calls (snd r) = 2
  /\ fst r = CityInsightsAnalyzer.Completed
               (CityInsightsAnalyzer.parse json_loads plain_answer).
Proof.
  cbv zeta. rewrite many_queries_run. cbn [fst snd].
  destruct (execute_tools_repeat k [ECompletion]) as [Hexec Hcalls].
  cbv zeta in Hexec, Hcalls.
  rewrite executor_calls_app, length_app, completion_calls_app, Hexec, Hcalls.
  change (executor_calls [ECompletion]) with (@nil event).
  change (completion_calls [ECompletion]) with 1.
  cbn [length Nat.add].
  split; [lia|]. split; reflexivity.
Qed.

End NoQueryBudget.

Section AgentLoop.

Variable gateway : log -> string -> MindsDBTool.http_outcome.
Variable database : log -> string -> list value -> PostgresDirectTool.pg_outcome.
Variable exporter : log -> MindsDBAgent.arguments -> string.
Variable str : result -> string.
Variable str_summary : MindsDBAgent.result_summary -> string.

(** With a model that asks for a tool in each of its first [n] turns,
    [run] makes [n + 1] completion calls before it returns. *)
Lemma tool_turns_loop (n k : nat) :
  forall (messages : list MindsDBAgent.message) (l : log),
    completion_calls l + k = n ->
    exists l',
      MindsDBAgent.loop (provider_tool_turns n) gateway database exporter str
        str_summary (S k) messages l
      = (Some (MindsDBAgent.Final "done"), l')
      /\ completion_calls l' = S n.
Proof.
  induction k as [|k IH]; intros messages l Hn.
  - exists (l ++ [ECompletion]). split.
    + cbn [MindsDBAgent.loop]. unfold bind at 1.
      unfold MindsDBAgent.max_retries.
      rewrite (retry_success (provider_tool_turns n) 4 0 messages l
                 (MindsDBAgent.Response "stop" (Some "done"%string) [])).
      * reflexivity.
      * unfold provider_tool_turns.
        destruct (Nat.ltb_spec (completion_calls l) n); [lia | reflexivity].
    + rewrite completion_calls_app.
      change (completion_calls [ECompletion]) with 1. lia.
  - cbn [MindsDBAgent.loop]. unfold bind at 1.
    unfold MindsDBAgent.max_retries.
    rewrite (retry_success (provider_tool_turns n) 4 0 messages l
               (MindsDBAgent.Response "tool_calls" None
                  [MindsDBAgent.ToolCall "call_1" "lookup"
                     (MindsDBAgent.QueryArguments "count" None None None None None)])).
    + cbn -[MindsDBAgent.loop MindsDBAgent.prune].
      apply IH. rewrite completion_calls_app.
      change (completion_calls [ECompletion]) with 1. lia.
    + unfold provider_tool_turns.
      destruct (Nat.ltb_spec (completion_calls l) n); [reflexivity | lia].
Qed.

End AgentLoop.

(** C1, as the code has it.  [analyze_city] makes at most
    [max_iterations] (12) completion calls, and when it ends with the
    max-iterations failure it has made exactly that many: the model is not
    called again.  When the counter is exhausted, that is when each of
    the 12 calls is answered by a request for tools, a rate-limit error or
    a context overflow, the run ends with that failure and nothing else.
    There is no counter of queries: for every bound [q]
    there is a run that dispatches more than [q] queries and completes.
    [MindsDBAgent.run] has no counter at all: for every [n] there is a run
    that returns its final response after [n + 1] completion calls. *)
Theorem iteration_budget_only
        provider database str json_loads gateway exporter str_summary
        (user_message : string) (history : list MindsDBAgent.message) :
  let r := CityInsightsAnalyzer.analyze_city provider database str json_loads
             user_message [] in
  completion_calls (snd r) <= CityInsightsAnalyzer.max_iterations
  /\ (fst r = CityInsightsAnalyzer.MaxIterationsReached ->
      completion_calls (snd r) = CityInsightsAnalyzer.max_iterations)
  /\ ((forall l messages,
         completion_calls l < CityInsightsAnalyzer.max_iterations ->
         goes_on (provider l messages) = true) ->
      fst r = CityInsightsAnalyzer.MaxIterationsReached
      /\ completion_calls (snd r) = CityInsightsAnalyzer.max_iterations)
  /\ (forall q : nat,
        exists provider',
          let r' := CityInsightsAnalyzer.analyze_city provider' database str
                      json_loads user_message [] in
          q < length (executor_calls (snd r'))
          /\ exists insight, fst r' = CityInsightsAnalyzer.Completed insight)
  /\ (forall n : nat,
        exists provider' l',
          MindsDBAgent.run provider' gateway database exporter str str_summary
            (S n) user_message history []
          = (Some (MindsDBAgent.Final "done"), l')
          /\ completion_calls l' = S n).
Proof.
  cbv zeta.
  destruct (loop_completion_calls provider database str json_loads
              CityInsightsAnalyzer.max_iterations
              [CityInsightsAnalyzer.UserText user_message] []) as [Hle Hmax].
  split; [exact Hle|]. split; [exact Hmax|]. split.
  { intro Hgo.
    assert (Hend : fst (CityInsightsAnalyzer.analyze_city provider database str
                          json_loads user_message [])
                   = CityInsightsAnalyzer.MaxIterationsReached).
    { apply (loop_exhausted provider database str json_loads). exact Hgo. }
    split; [exact Hend | exact (Hmax Hend)]. }
  split.
  - intro q. exists (provider_many_queries (S q)).
    destruct (many_queries_dispatched database str json_loads (S q) user_message)
      as [Hexec [_ Hfst]].
    cbv zeta. split; [rewrite Hexec; lia | eexists; exact Hfst].
  - intro n. unfold MindsDBAgent.run.
    destruct (tool_turns_loop gateway database exporter str str_summary n n
                (history ++ [MindsDBAgent.UserMessage user_message]) [])
      as [l' [Hrun Hcalls]]; [reflexivity|].
    exists (provider_tool_turns n), l'. split; assumption.
Qed.

Lemma iteration_budget_only_witness :
  (fst (CityInsightsAnalyzer.analyze_city provider_rate_limited database_empty
          str_short decoder_braces_only "Analyze Bristol, GB" [])
   = CityInsightsAnalyzer.MaxIterationsReached
   /\ completion_calls
        (snd (CityInsightsAnalyzer.analyze_city provider_rate_limited
                database_empty str_short decoder_braces_only
                "Analyze Bristol, GB" []))
      = 12)
  /\ (fst (CityInsightsAnalyzer.analyze_city provider_always_queries
             database_empty str_short decoder_braces_only
             "Analyze Bristol, GB" [])
      = CityInsightsAnalyzer.MaxIterationsReached
      /\ completion_calls
           (snd (CityInsightsAnalyzer.analyze_city provider_always_queries
                   database_empty str_short decoder_braces_only
                   "Analyze Bristol, GB" []))
         = CityInsightsAnalyzer.max_iterations).
Proof.
  split; [|
    apply (proj1 (proj2 (proj2 (iteration_budget_only provider_always_queries
                                  database_empty str_short decoder_braces_only
                                  gateway_one_row exporter_none
                                  str_summary_short "Analyze Bristol, GB" []))));
    intros l messages _; reflexivity].
  assert (H : fst (CityInsightsAnalyzer.analyze_city provider_rate_limited
                     database_empty str_short decoder_braces_only
                     "Analyze Bristol, GB" [])
              = CityInsightsAnalyzer.MaxIterationsReached) by reflexivity.
  split; [exact H|].
  exact (proj1 (proj2 (iteration_budget_only provider_rate_limited database_empty
                         str_short decoder_braces_only gateway_one_row
                         exporter_none str_summary_short "Analyze Bristol, GB" []))
               H).
Defined.

(** C1 as stated fails.  In scenario C the model asks for one query in
    each of nine turns: [analyze_city] dispatches all nine, the ninth
    included, and the run completes with an insight instead of a budget
    failure. *)
Lemma ninth_query_dispatched_counterexample :
  length (executor_calls
            (snd (CityInsightsAnalyzer.analyze_city provider_nine_queries
                    database_empty str_short decoder_braces_only
                    "Analyze Bristol, GB" [])))
  = 9
  /\ fst (CityInsightsAnalyzer.analyze_city provider_nine_queries
            database_empty str_short decoder_braces_only
            "Analyze Bristol, GB" [])
     = CityInsightsAnalyzer.Completed (CityInsightsAnalyzer.fallback plain_answer).
Proof. split; vm_compute; reflexivity. Qed.

(* ------------------------------------------------------------------ *)
(** ** More on the guard of [MindsDBTool.query]                        *)
(* ------------------------------------------------------------------ *)

Lemma lower_char_idempotent (c : ascii) :
  Py.lower_char (Py.lower_char c) = Py.lower_char c.
Proof. destruct c as [[] [] [] [] [] [] [] []]; reflexivity. Qed.

Lemma upper_lower_char (c : ascii) :
  Py.upper_char (Py.lower_char c) = Py.upper_char c.
Proof. destruct c as [[] [] [] [] [] [] [] []]; reflexivity. Qed.

Lemma is_space_lower_char (c : ascii) :
  Py.is_space (Py.lower_char c) = Py.is_space c.
Proof. destruct c as [[] [] [] [] [] [] [] []]; reflexivity. Qed.

Lemma lower_idempotent (s : string) : Py.lower (Py.lower s) = Py.lower s.
Proof.
  induction s as [|c t IH]; [reflexivity|].
  unfold Py.lower in *. simpl. rewrite lower_char_idempotent, IH. reflexivity.
Qed.

Lemma upper_lower (s : string) : Py.upper (Py.lower s) = Py.upper s.
Proof.
  induction s as [|c t IH]; [reflexivity|].
  unfold Py.upper, Py.lower in *. simpl. rewrite upper_lower_char, IH.
  reflexivity.
Qed.

Lemma lstrip_lower (s : string) : Py.lstrip (Py.lower s) = Py.lower (Py.lstrip s).
Proof.
  induction s as [|c t IH]; [reflexivity|].
  unfold Py.lower in *. simpl. rewrite is_space_lower_char.
  destruct (Py.is_space c); [exact IH | reflexivity].
Qed.

Lemma rstrip_lower (s : string) : Py.rstrip (Py.lower s) = Py.lower (Py.rstrip s).
Proof.
  induction s as [|c t IH]; [reflexivity|].
  unfold Py.lower in *. simpl. rewrite IH, is_space_lower_char.
  destruct (Py.rstrip t); simpl.
  - destruct (Py.is_space c); reflexivity.
  - reflexivity.
Qed.

Lemma strip_lower (s : string) : Py.strip (Py.lower s) = Py.lower (Py.strip s).
Proof. unfold Py.strip. rewrite lstrip_lower, rstrip_lower. reflexivity. Qed.

Lemma guard_of_lower (sql : string) (allow_write : bool) :
  MindsDBTool.guard (Py.lower sql) allow_write = MindsDBTool.guard sql allow_write.
Proof.
  unfold MindsDBTool.guard, MindsDBTool.is_write_operation.
  rewrite strip_lower, upper_lower, lower_idempotent. reflexivity.
Qed.

(** X1.  The verdict of the guard of [MindsDBTool.query] does not depend on
    letter case: two statements with the same lowercased text are both
    sent to the gateway or both rejected, with the same error. *)
Theorem guard_ignores_case
        gateway (sql1 sql2 : string) (allow_write : bool) (l : log) :
  Py.lower sql1 = Py.lower sql2 ->
  MindsDBTool.guard sql1 allow_write = MindsDBTool.guard sql2 allow_write
  /\ (snd (MindsDBTool.query gateway sql1 allow_write l) = l
      <-> snd (MindsDBTool.query gateway sql2 allow_write l) = l).
Proof.
  intro Hsame.
  assert (Hg : MindsDBTool.guard sql1 allow_write
               = MindsDBTool.guard sql2 allow_write).
  { rewrite <- (guard_of_lower sql1), <- (guard_of_lower sql2), Hsame.
    reflexivity. }
  split; [exact Hg|].
  destruct (MindsDBTool.guard sql2 allow_write) as [e|] eqn:H2.
  - rewrite (query_rejected gateway sql1 allow_write e l Hg).
    rewrite (query_rejected gateway sql2 allow_write e l H2). tauto.
  - rewrite (query_executed gateway sql1 allow_write l Hg).
    rewrite (query_executed gateway sql2 allow_write l H2).
    split; intro H; exfalso; exact (log_grows_ne l _ H).
Qed.

Lemma guard_ignores_case_witness :
  Py.lower select_upper = Py.lower select_lower
  /\ MindsDBTool.guard select_upper false = MindsDBTool.guard select_lower false.
Proof.
  split; [reflexivity|].
  exact (proj1 (guard_ignores_case gateway_down select_upper select_lower
                  false [] eq_refl)).
Defined.

(** X2.  What reaches the gateway.  [MindsDBTool.query] calls the gateway
    (once, with the statement as given) exactly when the statement is not
    a write statement or [allow_write] is set, holds no [select *], and,
    if it references [raw_data] or [error_details], mentions [limit] and
    the first [limit <number>] of its text, if there is one, is at most
    10.  Otherwise the gateway is not called. *)
Theorem gateway_called_exactly_when
        gateway (sql : string) (allow_write : bool) (l : log) :
  let admitted :=
    (MindsDBTool.is_write_operation sql = false \/ allow_write = true)
    /\ has_wildcard sql = false
    /\ (references_large_column sql = true ->
        mentions_limit sql = true
        /\ forall digits, Py.search_limit (Py.lower sql) = Some digits ->
                          (Py.int_of_digits digits <= 10)%N) in
  (snd (MindsDBTool.query gateway sql allow_write l) = l ++ [EMindsDBPost sql]
   <-> admitted)
  /\ (snd (MindsDBTool.query gateway sql allow_write l) = l <-> ~ admitted).
Proof.
  cbv zeta.
  assert (Hiff : MindsDBTool.guard sql allow_write = None <->
                 (MindsDBTool.is_write_operation sql = false \/ allow_write = true)
                 /\ has_wildcard sql = false
                 /\ (references_large_column sql = true ->
                     mentions_limit sql = true
                     /\ forall digits,
                          Py.search_limit (Py.lower sql) = Some digits ->
                          (Py.int_of_digits digits <= 10)%N)).
  { unfold MindsDBTool.guard, has_wildcard, references_large_column,
      mentions_limit.
    destruct (MindsDBTool.is_write_operation sql) eqn:Hw;
      destruct allow_write; cbn [andb negb];
      try (split; [discriminate | intros [[H|H] _]; discriminate H]);
      (destruct (Py.contains "raw_data" (Py.lower sql)
                 || Py.contains "error_details" (Py.lower sql));
       [ destruct (Py.contains "limit" (Py.lower sql)); cbn [negb];
         [ destruct (Py.search_limit (Py.lower sql)) as [ds|];
           [ destruct (N.ltb_spec 10 (Py.int_of_digits ds)) as [Hgt|Hle];
             [ split; [discriminate|];
               intros [_ [_ Hl]]; destruct (Hl eq_refl) as [_ Hd];
               specialize (Hd ds eq_refl); lia
             | destruct (Py.contains "select *" (Py.lower sql));
               [ split; [discriminate | intros [_ [H _]]; discriminate H]
               | split; [|reflexivity]; intros _;
                 split; [auto|]; split; [reflexivity|]; intros _;
                 split; [reflexivity|];
                 intros digits Hd; inversion Hd; subst; exact Hle ] ]
           | destruct (Py.contains "select *" (Py.lower sql));
             [ split; [discriminate | intros [_ [H _]]; discriminate H]
             | split; [|reflexivity]; intros _;
               split; [auto|]; split; [reflexivity|]; intros _;
               split; [reflexivity|]; intros digits Hd; discriminate Hd ] ]
         | split; [discriminate|];
           intros [_ [_ Hl]]; destruct (Hl eq_refl) as [Hm _]; discriminate Hm ]
       | destruct (Py.contains "select *" (Py.lower sql));
         [ split; [discriminate | intros [_ [H _]]; discriminate H]
         | split; [|reflexivity]; intros _;
           split; [auto|]; split; [reflexivity|]; intro Hc; discriminate Hc ] ]). }
  destruct (MindsDBTool.guard sql allow_write) as [e|] eqn:Hg.
  - rewrite (query_rejected gateway sql allow_write e l Hg). cbn [snd].
    split; split.
    + intro H. symmetry in H. exfalso. exact (log_grows_ne l _ H).
    + intro H. apply Hiff in H. discriminate H.
    + intros _ H. apply Hiff in H. discriminate H.
    + reflexivity.
  - rewrite (query_executed gateway sql allow_write l Hg).
    split; split.
    + intros _. apply Hiff. reflexivity.
    + reflexivity.
    + intro H. exfalso. exact (log_grows_ne l _ H).
    + intro H. exfalso. apply H, Hiff. reflexivity.
Qed.

(** X3.  [allow_write] only lifts the write check.  A statement that is
    not a write statement is treated the same with and without it; a
    statement accepted without it is accepted with it; and a statement
    rejected with it is rejected without it, with the same error or with
    the write error. *)
Theorem allow_write_only_lifts_write_check gateway (sql : string) (l : log) :
  (MindsDBTool.is_write_operation sql = false ->
   MindsDBTool.query gateway sql true l = MindsDBTool.query gateway sql false l)
  /\ (MindsDBTool.guard sql false = None -> MindsDBTool.guard sql true = None)
  /\ (forall e, MindsDBTool.guard sql true = Some e ->
        MindsDBTool.guard sql false = Some e
        \/ MindsDBTool.guard sql false = Some MindsDBTool.write_not_allowed).
Proof.
  assert (Hsame : MindsDBTool.is_write_operation sql = false ->
                  MindsDBTool.guard sql true = MindsDBTool.guard sql false).
  { intro Hw. unfold MindsDBTool.guard. rewrite Hw. reflexivity. }
  split; [|split].
  - intro Hw. unfold MindsDBTool.query. rewrite (Hsame Hw). reflexivity.
  - intro Hnone. destruct (MindsDBTool.is_write_operation sql) eqn:Hw.
    + rewrite (guard_rejects_write sql Hw) in Hnone. discriminate Hnone.
    + rewrite (Hsame eq_refl). exact Hnone.
  - intros e He. destruct (MindsDBTool.is_write_operation sql) eqn:Hw.
    + right. apply guard_rejects_write, Hw.
    + left. rewrite <- (Hsame eq_refl). exact He.
Qed.

Lemma allow_write_only_lifts_witness :
  MindsDBTool.query gateway_one_row select_with_limit true []
  = MindsDBTool.query gateway_one_row select_with_limit false [].
Proof.
  exact (proj1 (allow_write_only_lifts_write_check gateway_one_row
                  select_with_limit [])
               eq_refl).
Defined.

(** X4.  A successful result of [MindsDBTool.query] is what the gateway
    returned: the statement passed the guard, the gateway was called once
    with it and answered with these rows and columns, [row_count] is the
    number of rows, and there is no note. *)
Theorem successful_query_reports_gateway_rows
        gateway (sql : string) (allow_write : bool) (l : log)
        (data : list value) (columns : list string) (row_count : nat)
        (note : option string) :
  fst (MindsDBTool.query gateway sql allow_write l)
  = Rows data columns row_count note ->
  MindsDBTool.guard sql allow_write = None
  /\ gateway l sql = MindsDBTool.HttpData data columns
  /\ row_count = length data
  /\ note = None
  /\ snd (MindsDBTool.query gateway sql allow_write l) = l ++ [EMindsDBPost sql].
Proof.
  unfold MindsDBTool.query.
  destruct (MindsDBTool.guard sql allow_write) as [e|]; [discriminate|].
  unfold bind, MindsDBTool.post, ret. cbn [fst snd].
  destruct (gateway l sql) as [ | m | [m|] | d c ]; try discriminate.
  intro H. injection H as -> -> <- <-. repeat split.
Qed.

Lemma successful_query_witness :
  fst (MindsDBTool.query gateway_one_row count_without_limit false [])
  = Rows [VList [VInt 42]] ["total"%string] 1 None
  /\ gateway_one_row [] count_without_limit
     = MindsDBTool.HttpData [VList [VInt 42]] ["total"%string].
Proof.
  assert (H : fst (MindsDBTool.query gateway_one_row count_without_limit false [])
              = Rows [VList [VInt 42]] ["total"%string] 1 None) by reflexivity.
  split; [exact H|].
  exact (proj1 (proj2 (successful_query_reports_gateway_rows gateway_one_row
                         count_without_limit false [] _ _ _ _ H))).
Defined.

Lemma eqb_other (operation name : string) :
  operation <> name -> String.eqb operation name = false.
Proof. intro H. apply String.eqb_neq, H. Qed.

(** X5.  [execute_mindsdb_tool] answers with a failure, and does not call
    the gateway, when the argument that the operation needs is absent or
    empty ([url_pattern] for [search_url], [file_type] for
    [by_file_type], [custom_sql] for [custom_query] and [alter_table]),
    and when the operation is not one of its nine operations. *)
Theorem dispatcher_rejects_without_gateway
        gateway (operation : string) (limit : Z)
        (url_pattern file_type custom_sql : option string)
        (allow_write : bool) (l : log) :
  (operation = "search_url"%string /\ MindsDBTool.missing url_pattern = true)
  \/ (operation = "by_file_type"%string /\ MindsDBTool.missing file_type = true)
  \/ ((operation = "custom_query"%string \/ operation = "alter_table"%string)
      /\ MindsDBTool.missing custom_sql = true)
  \/ ~ In operation mindsdb_operations ->
  exists e,
    MindsDBTool.execute_mindsdb_tool gateway operation limit url_pattern
      file_type custom_sql allow_write l
    = (Failure e, l)
    /\ (~ In operation mindsdb_operations ->
        e = ("Unknown operation: " ++ operation)%string).
Proof.
  unfold MindsDBTool.execute_mindsdb_tool.
  intros [[-> Hm] | [[-> Hm] | [[[-> | ->] Hm] | Hun]]].
  - cbn [String.eqb Ascii.eqb Bool.eqb andb]. rewrite Hm.
    eexists. split; [reflexivity|]. intro H. exfalso. apply H.
    unfold mindsdb_operations. simpl. tauto.
  - cbn [String.eqb Ascii.eqb Bool.eqb andb]. rewrite Hm.
    eexists. split; [reflexivity|]. intro H. exfalso. apply H.
    unfold mindsdb_operations. simpl. tauto.
  - cbn [String.eqb Ascii.eqb Bool.eqb andb]. rewrite Hm.
    eexists. split; [reflexivity|]. intro H. exfalso. apply H.
    unfold mindsdb_operations. simpl. tauto.
  - cbn [String.eqb Ascii.eqb Bool.eqb andb]. rewrite Hm.
    eexists. split; [reflexivity|]. intro H. exfalso. apply H.
    unfold mindsdb_operations. simpl. tauto.
  - unfold mindsdb_operations in Hun. simpl in Hun.
    rewrite !eqb_other by (intro Heq; apply Hun; rewrite Heq; tauto).
    eexists. split; reflexivity.
Qed.

Lemma dispatcher_rejects_witness :
  ~ In "drop_everything"%string mindsdb_operations
  /\ MindsDBTool.execute_mindsdb_tool gateway_one_row "drop_everything" 10%Z
       None None (Some drop_table) true []
     = (Failure "Unknown operation: drop_everything", []).
Proof.
  assert (H : ~ In "drop_everything"%string mindsdb_operations).
  { unfold mindsdb_operations. simpl.
    intros [H|[H|[H|[H|[H|[H|[H|[H|[H|H]]]]]]]]]; try discriminate H; exact H. }
  split; [exact H|].
  destruct (dispatcher_rejects_without_gateway gateway_one_row "drop_everything"
              10%Z None None (Some drop_table) true []
              (or_intror (or_intror (or_intror H)))) as [e [He Hmsg]].
  rewrite He, (Hmsg H). reflexivity.
Defined.

Lemma count_records_posts gateway (l : log) :
  MindsDBTool.query gateway MindsDBTool.count_records_sql false l
  = (match gateway l MindsDBTool.count_records_sql with
     | MindsDBTool.HttpError (Some m) => Failure m
     | MindsDBTool.HttpError None => Failure "Unknown error"
     | MindsDBTool.HttpData data column_names =>
         Rows data column_names (length data) None
     | MindsDBTool.HttpTimeout =>
         Failure "Query timeout - try a simpler query or add LIMIT clause"
     | MindsDBTool.HttpException m => Failure ("Query failed: " ++ m)
     end, l ++ [EMindsDBPost MindsDBTool.count_records_sql]).
Proof.
  unfold MindsDBTool.query.
  replace (MindsDBTool.guard MindsDBTool.count_records_sql false) with (@None string)
    by (symmetry; exact (proj2 count_records_passes_guard)).
  reflexivity.
Qed.

(** X6.  The [count] operation always sends its one statement to the
    gateway, whatever the other arguments.  It answers with the total
    when the first row of the answer is a list with a first cell; with
    the unchanged empty result, which carries no total, when the gateway
    returns no row; with the failure [list index out of range] when the
    first row is an empty list; and with a failure when the gateway
    fails. *)
Theorem count_operation
        gateway (limit : Z) (url_pattern file_type custom_sql : option string)
        (allow_write : bool) (l : log) :
  let r := MindsDBTool.execute_mindsdb_tool gateway "count" limit url_pattern
             file_type custom_sql allow_write l in
  snd r = l ++ [EMindsDBPost MindsDBTool.count_records_sql]
  /\ (forall total cells rows columns,
        gateway l MindsDBTool.count_records_sql
        = MindsDBTool.HttpData (VList (total :: cells) :: rows) columns ->
        fst r = TotalRecords total)
  /\ (forall columns,
        gateway l MindsDBTool.count_records_sql = MindsDBTool.HttpData [] columns ->
        fst r = Rows [] columns 0 None)
  /\ (forall rows columns,
        gateway l MindsDBTool.count_records_sql
        = MindsDBTool.HttpData (VList [] :: rows) columns ->
        fst r = Failure "list index out of range")
  /\ ((forall data columns,
         gateway l MindsDBTool.count_records_sql
         <> MindsDBTool.HttpData data columns) ->
      success (fst r) = false).
Proof.
  cbv zeta. unfold MindsDBTool.execute_mindsdb_tool.
  cbn [String.eqb Ascii.eqb Bool.eqb andb].
  unfold MindsDBTool.catch, MindsDBTool.count_records, bind, ret.
  rewrite count_records_posts. cbn [fst snd].
  split; [destruct (gateway l MindsDBTool.count_records_sql) as [ | m | [m|] | [|row rows] c ];
          try reflexivity;
          destruct (MindsDBTool.first_cell (row :: rows)); reflexivity|].
  split; [intros total cells rows columns ->; reflexivity|].
  split; [intros columns ->; reflexivity|].
  split; [intros rows columns ->; reflexivity|].
  intro Hfail.
  destruct (gateway l MindsDBTool.count_records_sql) as [ | m | [m|] | d c ] eqn:Hg;
    try reflexivity.
  exfalso. exact (Hfail d c eq_refl).
Qed.

Lemma count_operation_witness :
  fst (MindsDBTool.execute_mindsdb_tool gateway_one_row "count" 10 None None
         None false [])
  = TotalRecords (VInt 42)
  /\ fst (MindsDBTool.execute_mindsdb_tool gateway_empty_row "count" 10 None
            None None false [])
     = Failure "list index out of range".
Proof.
  split.
  - exact (proj1 (proj2 (count_operation gateway_one_row 10 None None None
                           false []))
                 (VInt 42) [] [] ["total"%string] eq_refl).
  - exact (proj1 (proj2 (proj2 (proj2 (count_operation gateway_empty_row 10
                                         None None None false []))))
                 [] ["total"%string] eq_refl).
Defined.

(* ------------------------------------------------------------------ *)
(** ** [get_statistics]                                                *)
(* ------------------------------------------------------------------ *)

Lemma statistics_queries_pass_guard :
  forall key sql, In (key, sql) MindsDBTool.statistics_queries ->
                  MindsDBTool.guard (sql ++ ";")%string false = None.
Proof.
  intros key sql Hin. unfold MindsDBTool.statistics_queries in Hin.
  simpl in Hin.
  destruct Hin as [H|[H|[H|[H|[]]]]]; injection H as <- <-;
    vm_compute; reflexivity.
Qed.

Lemma statistics_loop_spec gateway (queries : list (string * string)) :
  (forall key sql, In (key, sql) queries ->
                   MindsDBTool.guard (sql ++ ";")%string false = None) ->
  forall (results : list (string * value)) (l : log),
    exists n,
      n <= length queries
      /\ snd (MindsDBTool.statistics_loop gateway queries results l)
         = l ++ posts_of (firstn n queries)
      /\ match fst (MindsDBTool.statistics_loop gateway queries results l) with
         | inl st => n = length queries
                     /\ map fst st = map fst results ++ map fst queries
         | inr _ => 1 <= n
         end.
Proof.
  induction queries as [|[key sql] rest IH]; intros Hguard results l.
  - exists 0. simpl. rewrite !app_nil_r. repeat split; lia.
  - assert (Hrest : forall key' sql', In (key', sql') rest ->
                      MindsDBTool.guard (sql' ++ ";")%string false = None).
    { intros key' sql' Hin. apply (Hguard key' sql'). right. exact Hin. }
    specialize (IH Hrest).
    cbn [MindsDBTool.statistics_loop]. unfold bind at 1.
    unfold MindsDBTool.query.
    rewrite (Hguard key sql (or_introl eq_refl)).
    unfold bind, MindsDBTool.post, ret.
    assert (Hnext : forall results',
              exists n,
                n <= length ((key, sql) :: rest)
                /\ snd (MindsDBTool.statistics_loop gateway rest results'
                          (l ++ [EMindsDBPost (sql ++ ";")%string]))
                   = l ++ posts_of (firstn n ((key, sql) :: rest))
                /\ match fst (MindsDBTool.statistics_loop gateway rest results'
                                (l ++ [EMindsDBPost (sql ++ ";")%string])) with
                   | inl st => n = length ((key, sql) :: rest)
                               /\ map fst st = map fst results' ++ map fst rest
                   | inr _ => 1 <= n
                   end).
    { intro results'.
      destruct (IH results' (l ++ [EMindsDBPost (sql ++ ";")%string]))
        as [n [Hn [Hlog Hres]]].
      exists (S n). split; [simpl; lia|]. split.
      - rewrite Hlog. simpl. rewrite <- app_assoc. reflexivity.
      - destruct (fst (MindsDBTool.statistics_loop gateway rest results'
                         (l ++ [EMindsDBPost (sql ++ ";")%string]))).
        + destruct Hres as [-> Hkeys]. split; [reflexivity | exact Hkeys].
        + lia. }
    assert (Hkeys : forall v (st : list (string * value)),
              map fst st = map fst (results ++ [(key, v)]) ++ map fst rest ->
              map fst st = map fst results ++ map fst ((key, sql) :: rest)).
    { intros v st ->. rewrite map_app, <- app_assoc. reflexivity. }
    assert (Hlift : forall v,
              exists n,
                n <= length ((key, sql) :: rest)
                /\ snd (MindsDBTool.statistics_loop gateway rest
                          (results ++ [(key, v)])
                          (l ++ [EMindsDBPost (sql ++ ";")%string]))
                   = l ++ posts_of (firstn n ((key, sql) :: rest))
                /\ match fst (MindsDBTool.statistics_loop gateway rest
                                (results ++ [(key, v)])
                                (l ++ [EMindsDBPost (sql ++ ";")%string])) with
                   | inl st => n = length ((key, sql) :: rest)
                               /\ map fst st
                                  = map fst results ++ map fst ((key, sql) :: rest)
                   | inr _ => 1 <= n
                   end).
    { intro v. destruct (Hnext (results ++ [(key, v)])) as [n [Hn [Hlog Hres]]].
      exists n. split; [exact Hn|]. split; [exact Hlog|].
      destruct (fst (MindsDBTool.statistics_loop gateway rest
                       (results ++ [(key, v)])
                       (l ++ [EMindsDBPost (sql ++ ";")%string]))).
      - destruct Hres as [Hlen Hk]. split; [exact Hlen | exact (Hkeys v _ Hk)].
      - exact Hres. }
    destruct (gateway l (sql ++ ";")%string) as [ | m | [m|] | data columns ];
      try apply Hlift.
    destruct (String.eqb key "file_types"); [apply Hlift|].
    destruct (MindsDBTool.first_cell data) as [v|m]; [apply Hlift|].
    exists 1. split; [simpl; lia|]. split; [reflexivity | simpl; lia].
Qed.

Lemma statistics_loop_all_failed gateway (queries : list (string * string)) :
  (forall key sql, In (key, sql) queries ->
                   MindsDBTool.guard (sql ++ ";")%string false = None) ->
  (forall l' sql data columns, gateway l' sql <> MindsDBTool.HttpData data columns) ->
  forall (results : list (string * value)) (l : log),
    fst (MindsDBTool.statistics_loop gateway queries results l)
    = inl (results ++ map (fun q => (fst q, VNone)) queries).
Proof.
  intros Hguard Hdown. induction queries as [|[key sql] rest IH];
    intros results l.
  - simpl. rewrite app_nil_r. reflexivity.
  - cbn [MindsDBTool.statistics_loop]. unfold bind at 1.
    unfold MindsDBTool.query.
    rewrite (Hguard key sql (or_introl eq_refl)).
    unfold bind, MindsDBTool.post, ret.
    assert (Hrest : forall key' sql', In (key', sql') rest ->
                      MindsDBTool.guard (sql' ++ ";")%string false = None).
    { intros key' sql' Hin. apply (Hguard key' sql'). right. exact Hin. }
    destruct (gateway l (sql ++ ";")%string) as [ | m | [m|] | data columns ] eqn:Hg;
      try (rewrite (IH Hrest); simpl; rewrite <- app_assoc; reflexivity).
    exfalso. exact (Hdown _ _ _ _ Hg).
Qed.

(** X7.  The [statistics] operation sends its four statements to the
    gateway in the order total, successful, failed, file types, none of
    them stopped by the guard.  Its result is either the statistics
    dictionary with exactly these four keys in this order, after all four
    calls, or a failure raised while reading the first cell of a count,
    after one to three calls.  When no statement is answered with data the
    result is still the success dictionary, with [None] under every key. *)
Theorem statistics_operation
        gateway (limit : Z) (url_pattern file_type custom_sql : option string)
        (allow_write : bool) (l : log) :
  let r := MindsDBTool.execute_mindsdb_tool gateway "statistics" limit
             url_pattern file_type custom_sql allow_write l in
  (exists n, 1 <= n <= 4 /\ snd r = l ++ firstn n statistics_posts)
  /\ ((exists st,
         fst r = Statistics st
         /\ map fst st = ["total"; "successful"; "failed"; "file_types"]%string
         /\ snd r = l ++ statistics_posts)
      \/ (exists m n, fst r = Failure m /\ 1 <= n <= 3
                      /\ snd r = l ++ firstn n statistics_posts))
  /\ ((forall l' sql data columns,
         gateway l' sql <> MindsDBTool.HttpData data columns) ->
      fst r = Statistics [("total", VNone); ("successful", VNone);
                          ("failed", VNone); ("file_types", VNone)]%string).
Proof.
  cbv zeta. unfold MindsDBTool.execute_mindsdb_tool.
  cbn [String.eqb Ascii.eqb Bool.eqb andb].
  unfold MindsDBTool.catch, MindsDBTool.get_statistics, bind, ret.
  destruct (statistics_loop_spec gateway MindsDBTool.statistics_queries
              statistics_queries_pass_guard [] l) as [n [Hn [Hlog Hres]]].
  pose proof (statistics_loop_all_failed gateway MindsDBTool.statistics_queries
                statistics_queries_pass_guard) as Hdown.
  destruct (MindsDBTool.statistics_loop gateway MindsDBTool.statistics_queries [] l)
    as [[st|m] l'] eqn:Hloop.
  - cbn [fst snd] in *. destruct Hres as [-> Hkeys]. subst l'.
    split; [exists 4; split; [lia | reflexivity]|].
    split.
    + left. exists st. split; [reflexivity|]. split; [exact Hkeys | reflexivity].
    + intro Hd. specialize (Hdown Hd [] l). rewrite Hloop in Hdown.
      cbn [fst] in Hdown. injection Hdown as ->. reflexivity.
  - cbn [fst snd] in *. subst l'.
    assert (Hn3 : n <= 3).
    { destruct (Nat.eq_dec n 4) as [->|Hne]; [|simpl in Hn; lia].
      exfalso.
      (* the fourth statement never raises: its rows are stored as they are *)
      revert Hloop. clear.
      unfold MindsDBTool.statistics_queries.
      cbn [MindsDBTool.statistics_loop]. unfold bind, MindsDBTool.query.
      repeat match goal with
             | |- context [MindsDBTool.guard ?s false] =>
                 replace (MindsDBTool.guard s false) with (@None string)
                   by (vm_compute; reflexivity)
             end.
      unfold bind, MindsDBTool.post, ret.
      cbn [String.eqb Ascii.eqb Bool.eqb andb].
      intro Hloop.
      repeat match type of Hloop with
             | context [match gateway ?a ?b with _ => _ end] =>
                 destruct (gateway a b) as [ | ? | [?|] | ? ? ]
             | context [match MindsDBTool.first_cell ?d with _ => _ end] =>
                 destruct (MindsDBTool.first_cell d)
             end;
        try discriminate Hloop;
        injection Hloop as _ Hlen;
        apply (f_equal (@length event)) in Hlen;
        repeat rewrite length_app in Hlen; simpl in Hlen; lia. }
    assert (Hposts : posts_of (firstn n MindsDBTool.statistics_queries)
                     = firstn n statistics_posts).
    { unfold statistics_posts, posts_of. symmetry. apply firstn_map. }
    rewrite Hposts.
    split; [exists n; split; [lia | reflexivity]|].
    split.
    + right. exists m, n. split; [reflexivity|]. split; [lia | reflexivity].
    + intro Hd. specialize (Hdown Hd [] l). rewrite Hloop in Hdown.
      discriminate Hdown.
Qed.

Lemma statistics_operation_witness :
  fst (MindsDBTool.execute_mindsdb_tool gateway_down "statistics" 10 None None
         None false [])
  = Statistics [("total", VNone); ("successful", VNone);
                ("failed", VNone); ("file_types", VNone)]%string.
Proof.
  apply (proj2 (proj2 (statistics_operation gateway_down 10 None None None
                         false []))).
  intros l' sql data columns H. discriminate H.
Defined.

(* ------------------------------------------------------------------ *)
(** ** The listings of [MindsDBTool]                                   *)
(* ------------------------------------------------------------------ *)

Lemma lower_app (a b : string) :
  Py.lower (a ++ b) = (Py.lower a ++ Py.lower b)%string.
Proof.
  induction a as [|c t IH]; [reflexivity|].
  unfold Py.lower in *. simpl. rewrite IH. reflexivity.
Qed.

Lemma prefix_app (sub a b : string) :
  String.prefix sub a = true -> String.prefix sub (a ++ b) = true.
Proof.
  revert a. induction sub as [|c s IH]; intros a H.
  - apply prefix_empty.
  - destruct a as [|x a']; [discriminate H|].
    simpl in *. destruct (ascii_dec c x); [apply IH, H | discriminate H].
Qed.

Lemma contains_unfold (sub s : string) :
  Py.contains sub s
  = String.prefix sub s
    || match s with EmptyString => false | String _ t => Py.contains sub t end.
Proof. destruct s; reflexivity. Qed.

Lemma contains_app_l (sub a b : string) :
  Py.contains sub a = true -> Py.contains sub (a ++ b) = true.
Proof.
  induction a as [|x a' IH]; intro H.
  - rewrite contains_unfold in H. rewrite orb_false_r in H.
    rewrite contains_unfold. simpl String.append.
    destruct sub; [rewrite prefix_empty; reflexivity | discriminate H].
  - rewrite contains_unfold in H. apply orb_true_iff in H.
    change (String x a' ++ b)%string with (String x (a' ++ b)).
    rewrite contains_unfold. apply orb_true_iff.
    destruct H as [H|H].
    + left. exact (prefix_app sub (String x a') b H).
    + right. apply IH, H.
Qed.

Lemma contains_app_r (sub a b : string) :
  Py.contains sub b = true -> Py.contains sub (a ++ b) = true.
Proof.
  intro H. induction a as [|x a' IH]; [exact H|].
  change (String x a' ++ b)%string with (String x (a' ++ b)).
  rewrite contains_unfold, IH. apply orb_true_r.
Qed.

(** A text without number characters cannot match across a printed
    integer. *)
Lemma prefix_before_number (sub a d b : string) (x : ascii) :
  all_chars (fun c => negb (is_number_char c)) sub = true ->
  is_number_char x = true ->
  String.prefix sub (a ++ String x d ++ b) = String.prefix sub a.
Proof.
  intros Hsub Hx. revert a. induction sub as [|c s IH]; intro a.
  - rewrite !prefix_empty. reflexivity.
  - simpl in Hsub. apply andb_true_iff in Hsub. destruct Hsub as [Hc Hs].
    destruct a as [|y a'].
    + simpl. destruct (ascii_dec c x) as [->|]; [|reflexivity].
      rewrite Hx in Hc. discriminate Hc.
    + simpl. destruct (ascii_dec c y); [apply IH, Hs | reflexivity].
Qed.

Lemma contains_after_number (sub d b : string) :
  sub <> EmptyString ->
  all_chars (fun c => negb (is_number_char c)) sub = true ->
  all_chars is_number_char d = true ->
  Py.contains sub (d ++ b) = Py.contains sub b.
Proof.
  intros Hne Hsub. induction d as [|x d' IH]; intro Hd; [reflexivity|].
  simpl in Hd. apply andb_true_iff in Hd. destruct Hd as [Hx Hd'].
  change (String x d' ++ b)%string with (String x (d' ++ b)).
  rewrite contains_unfold, (IH Hd').
  destruct sub as [|c s]; [congruence|].
  simpl in Hsub. apply andb_true_iff in Hsub. destruct Hsub as [Hc _].
  simpl. destruct (ascii_dec c x) as [->|]; [|reflexivity].
  rewrite Hx in Hc. discriminate Hc.
Qed.

Lemma contains_around_number (sub a d b : string) :
  sub <> EmptyString ->
  all_chars (fun c => negb (is_number_char c)) sub = true ->
  all_chars is_number_char d = true ->
  d <> EmptyString ->
  Py.contains sub (a ++ d ++ b) = Py.contains sub a || Py.contains sub b.
Proof.
  intros Hne Hsub Hd Hdne. destruct d as [|x d']; [congruence|].
  assert (Hx : is_number_char x = true).
  { simpl in Hd. apply andb_true_iff in Hd. apply Hd. }
  induction a as [|y a' IH].
  - transitivity (Py.contains sub (String x d' ++ b)); [reflexivity|].
    rewrite (contains_after_number sub (String x d') b Hne Hsub Hd).
    rewrite (contains_unfold sub EmptyString).
    destruct sub; [congruence | reflexivity].
  - change (String y a' ++ String x d' ++ b)%string
      with (String y (a' ++ String x d' ++ b)).
    rewrite contains_unfold.
    change (String y (a' ++ String x d' ++ b))
      with (String y a' ++ String x d' ++ b)%string.
    rewrite (prefix_before_number sub (String y a') d' b x Hsub Hx).
    rewrite IH. rewrite (contains_unfold sub (String y a')).
    rewrite orb_assoc. reflexivity.
Qed.

Lemma printed_uint_chars (d : Decimal.uint) :
  all_chars is_number_char (NilEmpty.string_of_uint d) = true.
Proof. induction d; simpl; try reflexivity; exact IHd. Qed.

Lemma printed_int_chars (z : Z) :
  all_chars is_number_char (Py.str_of_Z z) = true
  /\ Py.str_of_Z z <> EmptyString.
Proof.
  unfold Py.str_of_Z. destruct (Z.to_int z) as [d|d]; simpl.
  - destruct d; simpl; (split; [first [reflexivity | apply printed_uint_chars]
                                | discriminate]).
  - split; [|discriminate].
    destruct d; simpl; first [reflexivity | apply printed_uint_chars].
Qed.

Lemma is_number_char_lower (c : ascii) :
  is_number_char (Py.lower_char c) = is_number_char c.
Proof. destruct c as [[] [] [] [] [] [] [] []]; reflexivity. Qed.

Lemma lower_number (d : string) :
  all_chars is_number_char d = true -> Py.lower d = d.
Proof.
  induction d as [|c t IH]; intro H; [reflexivity|].
  simpl in H. apply andb_true_iff in H. destruct H as [Hc Ht].
  unfold Py.lower in *. simpl. rewrite (IH Ht). f_equal.
  revert Hc. destruct c as [[] [] [] [] [] [] [] []]; (reflexivity || discriminate).
Qed.

(** In a text built around a printed integer, a word without number
    characters occurs exactly when it occurs before or after the integer. *)
Lemma contains_lower_template (sub a b : string) (z : Z) :
  sub <> EmptyString ->
  all_chars (fun c => negb (is_number_char c)) sub = true ->
  Py.contains sub (Py.lower (a ++ Py.str_of_Z z ++ b))
  = Py.contains sub (Py.lower a) || Py.contains sub (Py.lower b).
Proof.
  intros Hne Hsub. destruct (printed_int_chars z) as [Hd Hdne].
  rewrite !lower_app, (lower_number _ Hd).
  apply contains_around_number; assumption.
Qed.

Lemma rstrip_keeps_head (c : ascii) (t : string) :
  Py.is_space c = false -> exists r, Py.rstrip (String c t) = String c r.
Proof.
  intro Hc. simpl. rewrite Hc. destruct (Py.rstrip t); eexists; reflexivity.
Qed.

(** A statement whose first character after the leading white space is
    [S] or [s] is not a write statement. *)
Lemma select_is_not_write (sql t : string) (c : ascii) :
  Py.lstrip sql = String c t ->
  c = "S"%char \/ c = "s"%char ->
  MindsDBTool.is_write_operation sql = false.
Proof.
  intros Hl Hc. unfold MindsDBTool.is_write_operation, Py.strip. rewrite Hl.
  destruct (rstrip_keeps_head c t) as [r ->].
  { destruct Hc as [-> | ->]; reflexivity. }
  destruct Hc as [-> | ->]; reflexivity.
Qed.

(** The guard on a listing without caller text: a statement
    [before ++ str(limit) ++ after]. *)
Lemma listing_passes_guard (before after t : string) (limit : Z) :
  Py.lstrip before = String "S" t ->
  references_large_column before = false ->
  references_large_column after = false ->
  has_wildcard before = false ->
  has_wildcard after = false ->
  MindsDBTool.guard (before ++ Py.str_of_Z limit ++ after) false = None.
Proof.
  unfold references_large_column, has_wildcard.
  intros Hhead Hb Ha Hwb Hwa.
  apply orb_false_iff in Hb. destruct Hb as [Hb1 Hb2].
  apply orb_false_iff in Ha. destruct Ha as [Ha1 Ha2].
  assert (Hw : MindsDBTool.is_write_operation
                 (before ++ Py.str_of_Z limit ++ after) = false).
  { destruct before as [|c0 b0]; [discriminate Hhead|].
    assert (Hl : exists t', Py.lstrip (String c0 b0 ++ Py.str_of_Z limit ++ after)
                            = String "S" t').
    { clear - Hhead. revert Hhead.
      generalize (String c0 b0). intro s.
      induction s as [|c s IH]; intro H; [discriminate H|].
      simpl in H |- *. destruct (Py.is_space c).
      - apply IH, H.
      - injection H as -> _. eexists. reflexivity. }
    destruct Hl as [t' Hl].
    exact (select_is_not_write _ t' "S" Hl (or_introl eq_refl)). }
  unfold MindsDBTool.guard. rewrite Hw. cbn [andb].
  rewrite !contains_lower_template by (discriminate || reflexivity).
  rewrite Hb1, Hb2, Ha1, Ha2, Hwb, Hwa. reflexivity.
Qed.

(** X8.  The listings [sample], [successful] and [failed] splice the
    [limit] argument into their statement as it is and always send it to
    the gateway, once: for every integer [limit], zero and negative
    values included, the guard lets the statement through, and the
    statement mentions [limit]. *)
Theorem listings_always_reach_gateway
        gateway (limit : Z) (url_pattern file_type custom_sql : option string)
        (allow_write : bool) (l : log) :
  snd (MindsDBTool.execute_mindsdb_tool gateway "sample" limit url_pattern
         file_type custom_sql allow_write l)
  = l ++ [EMindsDBPost (sample_sql limit)]
  /\ snd (MindsDBTool.execute_mindsdb_tool gateway "successful" limit
            url_pattern file_type custom_sql allow_write l)
     = l ++ [EMindsDBPost (successful_sql limit)]
  /\ snd (MindsDBTool.execute_mindsdb_tool gateway "failed" limit url_pattern
            file_type custom_sql allow_write l)
     = l ++ [EMindsDBPost (failed_sql limit)]
  /\ mentions_limit (sample_sql limit) = true
  /\ mentions_limit (successful_sql limit) = true
  /\ mentions_limit (failed_sql limit) = true.
Proof.
  unfold MindsDBTool.execute_mindsdb_tool.
  cbn [String.eqb Ascii.eqb Bool.eqb andb].
  unfold MindsDBTool.get_sample_data, MindsDBTool.get_successful_fetches,
    MindsDBTool.get_failed_fetches.
  repeat split.
  - apply (query_executed gateway (sample_sql limit) false l).
    eapply listing_passes_guard; vm_compute; reflexivity.
  - apply (query_executed gateway (successful_sql limit) false l).
    eapply listing_passes_guard; vm_compute; reflexivity.
  - apply (query_executed gateway (failed_sql limit) false l).
    eapply listing_passes_guard; vm_compute; reflexivity.
Qed.

Lemma guard_rejects_wildcard (sql : string) (allow_write : bool) :
  has_wildcard sql = true -> MindsDBTool.guard sql allow_write <> None.
Proof.
  unfold has_wildcard, MindsDBTool.guard. intros ->.
  destruct (MindsDBTool.is_write_operation sql && negb allow_write);
    [discriminate|].
  destruct (Py.contains "raw_data" (Py.lower sql)
            || Py.contains "error_details" (Py.lower sql)); [|discriminate].
  destruct (negb (Py.contains "limit" (Py.lower sql))); [discriminate|].
  destruct (Py.search_limit (Py.lower sql)) as [ds|]; [|discriminate].
  destruct (10 <? Py.int_of_digits ds)%N; discriminate.
Qed.

Lemma wildcard_inside (before text after : string) :
  has_wildcard text = true -> has_wildcard (before ++ text ++ after) = true.
Proof.
  unfold has_wildcard. intro H. rewrite !lower_app.
  apply contains_app_r, contains_app_l, H.
Qed.

(** X9.  [search_url] and [by_file_type] splice the caller's text into
    their statement without escaping it, and the guard reads the whole
    statement: when the text contains [select *], in any letter case, the
    request is answered with a failure and the gateway is not called. *)
Theorem spliced_wildcard_is_rejected
        gateway (text : string) (limit : Z)
        (url_pattern file_type custom_sql : option string)
        (allow_write : bool) (l : log) :
  has_wildcard text = true ->
  (exists e,
     MindsDBTool.execute_mindsdb_tool gateway "search_url" limit (Some text)
       file_type custom_sql allow_write l
     = (Failure e, l)
     /\ MindsDBTool.guard (search_url_sql text limit) false = Some e)
  /\ (exists e,
        MindsDBTool.execute_mindsdb_tool gateway "by_file_type" limit
          url_pattern (Some text) custom_sql allow_write l
        = (Failure e, l)
        /\ MindsDBTool.guard (by_file_type_sql text limit) false = Some e).
Proof.
  intro Hw.
  assert (Hne : MindsDBTool.missing (Some text) = false).
  { destruct text; [discriminate Hw | reflexivity]. }
  unfold MindsDBTool.execute_mindsdb_tool.
  cbn [String.eqb Ascii.eqb Bool.eqb andb]. rewrite Hne.
  unfold MindsDBTool.search_by_url, MindsDBTool.get_by_file_type.
  cbn [MindsDBTool.text].
  split.
  - destruct (MindsDBTool.guard (search_url_sql text limit) false) as [e|] eqn:Hg.
    + exists e. split; [|reflexivity].
      exact (query_rejected gateway (search_url_sql text limit) false e l Hg).
    + exfalso. revert Hg. apply guard_rejects_wildcard.
      unfold search_url_sql. apply wildcard_inside, Hw.
  - destruct (MindsDBTool.guard (by_file_type_sql text limit) false) as [e|] eqn:Hg.
    + exists e. split; [|reflexivity].
      exact (query_rejected gateway (by_file_type_sql text limit) false e l Hg).
    + exfalso. revert Hg. apply guard_rejects_wildcard.
      unfold by_file_type_sql. apply wildcard_inside, Hw.
Qed.

Lemma spliced_wildcard_witness :
  has_wildcard wildcard_pattern = true
  /\ snd (MindsDBTool.execute_mindsdb_tool gateway_one_row "search_url" 10%Z
            (Some wildcard_pattern) None None false [])
     = [].
Proof.
  split; [reflexivity|].
  destruct (proj1 (spliced_wildcard_is_rejected gateway_one_row wildcard_pattern
                     10%Z None None None false [] eq_refl)) as [e [He _]].
  rewrite He. reflexivity.
Defined.

(* ------------------------------------------------------------------ *)
(** ** The direct PostgreSQL tool                                      *)
(* ------------------------------------------------------------------ *)

(* ------------------------------------------------------------------ *)
(** ** The pool of [PostgresDirectTool]                                *)
(* ------------------------------------------------------------------ *)

Lemma creations_app (a b : PostgresPool.pool_log) :
  PostgresPool.creations (a ++ b)
  = PostgresPool.creations a + PostgresPool.creations b.
Proof.
  unfold PostgresPool.creations. rewrite filter_app, length_app. reflexivity.
Qed.

Lemma fetches_app (a b : PostgresPool.pool_log) :
  PostgresPool.fetches (a ++ b)
  = PostgresPool.fetches a ++ PostgresPool.fetches b.
Proof. unfold PostgresPool.fetches. apply flat_map_app. Qed.

(** A query on a tool that has its pool creates no pool, fetches at most
    one statement and leaves the pool in place. *)
Lemma query_with_pool (w : PostgresPool.world) (sql : string)
      (params : list value) (l : PostgresPool.pool_log) :
  exists used,
    snd (PostgresPool.query w sql params true l) = l ++ used
    /\ PostgresPool.creations used = 0
    /\ length (PostgresPool.fetches used) <= 1
    /\ snd (fst (PostgresPool.query w sql params true l)) = true.
Proof.
  unfold PostgresPool.query, PostgresPool.connect.
  destruct (PostgresPool.asyncpg_installed w); cbn [negb].
  - destruct (PostgresPool.acquire w l) as [f|].
    + exists [PostgresPool.Acquire]. cbn. repeat split; lia.
    + destruct (PostgresPool.release w _) as [f|];
        exists [PostgresPool.Acquire; PostgresPool.Fetch sql params;
                PostgresPool.Release];
        cbn [fst snd]; rewrite <- !app_assoc; cbn; repeat split; lia.
  - exists []. cbn. rewrite app_nil_r. repeat split; lia.
Qed.

Lemma queries_reuse_pool (w : PostgresPool.world) (statements : list string) :
  forall l : PostgresPool.pool_log,
    exists more,
      snd (PostgresPool.queries w statements true l) = l ++ more
      /\ PostgresPool.creations more = 0
      /\ length (PostgresPool.fetches more) <= length statements.
Proof.
  induction statements as [|sql rest IH]; intro l.
  - exists []. cbn. rewrite app_nil_r. repeat split; lia.
  - cbn [PostgresPool.queries].
    destruct (query_with_pool w sql [] l) as [used [Hlog [Hc [Hf Hpool]]]].
    destruct (PostgresPool.query w sql [] true l) as [[r pool'] l1].
    cbn [fst snd] in Hlog, Hpool. subst pool' l1.
    destruct (IH (l ++ used)) as [more [Hm [Hcm Hfm]]].
    destruct (PostgresPool.queries w rest true (l ++ used))
      as [[rs pool''] l2].
    cbn [fst snd] in Hm |- *. subst l2.
    exists (used ++ more).
    split; [rewrite <- app_assoc; reflexivity|].
    rewrite creations_app, fetches_app, length_app. cbn [length].
    split; lia.
Qed.

(** X10.  [PostgresDirectTool.query] connects before it fetches.  To the
    calls made so far a query adds at most one creation of the pool, and
    that only on a tool without a pool, and then nothing, or one
    acquisition, or one acquisition, the fetch of its statement with its
    parameters and the release.  When [asyncpg] is missing, or the tool
    has no pool and the pool cannot be created, the query returns the
    failure of [connect], fetches nothing and leaves the tool without a
    pool.  A tool that has its pool keeps it.  A result with rows means
    that the statement was fetched, on a tool that then has its pool;
    [row_count] is the number of rows and there is no note.  In a series
    of queries on a tool that has its pool no pool is created, and at
    most one statement is fetched per query. *)
Theorem direct_query_connects_before_fetching
        (w : PostgresPool.world) (sql : string) (params : list value)
        (pool : bool) (l : PostgresPool.pool_log) :
  let r := fst (fst (PostgresPool.query w sql params pool l)) in
  let pool' := snd (fst (PostgresPool.query w sql params pool l)) in
  exists created used,
    snd (PostgresPool.query w sql params pool l) = l ++ created ++ used
    /\ (created = []
        \/ (created = [PostgresPool.CreatePool] /\ pool = false
            /\ PostgresPool.asyncpg_installed w = true))
    /\ (used = []
        \/ used = [PostgresPool.Acquire]
        \/ used = [PostgresPool.Acquire; PostgresPool.Fetch sql params;
                   PostgresPool.Release])
    /\ (PostgresPool.asyncpg_installed w = false ->
        r = Failure "asyncpg not installed"
        /\ created = [] /\ used = [] /\ pool' = pool)
    /\ (forall m,
          PostgresPool.asyncpg_installed w = true -> pool = false ->
          PostgresPool.create_pool w l = Some m ->
          r = Failure ("Connection failed: " ++ m)
          /\ created = [PostgresPool.CreatePool] /\ used = []
          /\ pool' = false)
    /\ (pool = true -> pool' = true)
    /\ (forall data columns row_count note,
          r = Rows data columns row_count note ->
          pool' = true
          /\ used = [PostgresPool.Acquire; PostgresPool.Fetch sql params;
                     PostgresPool.Release]
          /\ row_count = length data
          /\ note = None)
    /\ (forall statements,
          pool = true ->
          exists more,
            snd (PostgresPool.queries w statements pool l) = l ++ more
            /\ PostgresPool.creations more = 0
            /\ length (PostgresPool.fetches more) <= length statements).
Proof.
  cbv zeta.
  assert (Hseries : forall statements,
             pool = true ->
             exists more,
               snd (PostgresPool.queries w statements pool l) = l ++ more
               /\ PostgresPool.creations more = 0
               /\ length (PostgresPool.fetches more) <= length statements).
  { intros statements ->. apply queries_reuse_pool. }
  unfold PostgresPool.query, PostgresPool.connect.
  destruct (PostgresPool.asyncpg_installed w) eqn:Hinst; cbn [negb].
  2: { exists [], []. cbn [fst snd app]. rewrite app_nil_r.
       repeat split; try exact Hseries; intros; try discriminate; auto. }
  destruct pool.
  - destruct (PostgresPool.acquire w l) as [[st m|m]|].
    1, 2: exists [], [PostgresPool.Acquire]; cbn [fst snd app];
      repeat split; try exact Hseries; intros; try discriminate; auto.
    destruct (PostgresPool.release w _) as [[st m|m]|].
    1, 2: exists [], [PostgresPool.Acquire; PostgresPool.Fetch sql params;
                      PostgresPool.Release];
      cbn [fst snd PostgresPool.failure_result]; rewrite <- !app_assoc;
      cbn [app];
      repeat split; try exact Hseries; intros; try discriminate; auto 6.
    destruct (PostgresPool.fetch w _ sql params) as [[st m|m]|records];
      exists [], [PostgresPool.Acquire; PostgresPool.Fetch sql params;
                  PostgresPool.Release];
      cbn [fst snd PostgresPool.failure_result]; rewrite <- !app_assoc;
      cbn [app];
      repeat split; try exact Hseries; intros; try discriminate; auto 6;
      congruence.
  - destruct (PostgresPool.create_pool w l) as [m0|] eqn:Hcreate.
    + exists [PostgresPool.CreatePool], []. cbn [fst snd app].
      repeat split; try exact Hseries; intros; try discriminate; auto;
        congruence.
    + destruct (PostgresPool.acquire w _) as [[st m|m]|].
      1, 2: exists [PostgresPool.CreatePool], [PostgresPool.Acquire];
        cbn [fst snd PostgresPool.failure_result]; rewrite <- !app_assoc;
        cbn [app];
        repeat split; try exact Hseries; intros; try discriminate; auto 6.
      destruct (PostgresPool.release w _) as [[st m|m]|].
      1, 2: exists [PostgresPool.CreatePool],
                   [PostgresPool.Acquire; PostgresPool.Fetch sql params;
                    PostgresPool.Release];
        cbn [fst snd PostgresPool.failure_result]; rewrite <- !app_assoc;
        cbn [app];
        repeat split; try exact Hseries; intros; try discriminate; auto 6.
      destruct (PostgresPool.fetch w _ sql params) as [[st m|m]|records];
        exists [PostgresPool.CreatePool],
               [PostgresPool.Acquire; PostgresPool.Fetch sql params;
                PostgresPool.Release];
        cbn [fst snd PostgresPool.failure_result]; rewrite <- !app_assoc;
        cbn [app];
        repeat split; try exact Hseries; intros; try discriminate; auto 6;
        congruence.
Qed.

Lemma direct_query_witness :
  PostgresPool.query pool_unreachable select_with_limit [] false []
  = (Failure "Connection failed: connection refused", false,
     [PostgresPool.CreatePool])
  /\ PostgresPool.query pool_without_asyncpg select_with_limit [] false []
     = (Failure "asyncpg not installed", false, [])
  /\ snd (fst (PostgresPool.query pool_three_records select_with_limit []
                 false []))
     = true.
Proof.
  destruct (direct_query_connects_before_fetching pool_unreachable
              select_with_limit [] false [])
    as [c1 [u1 [Hlog1 [_ [_ [_ [Hdown _]]]]]]].
  destruct (Hdown "connection refused"%string eq_refl eq_refl eq_refl)
    as [Hr1 [-> [-> Hp1]]].
  destruct (direct_query_connects_before_fetching pool_without_asyncpg
              select_with_limit [] false [])
    as [c2 [u2 [Hlog2 [_ [_ [Hmissing _]]]]]].
  destruct (Hmissing eq_refl) as [Hr2 [-> [-> Hp2]]].
  destruct (direct_query_connects_before_fetching pool_three_records
              select_with_limit [] false [])
    as [c3 [u3 [_ [_ [_ [_ [_ [_ [Hrows _]]]]]]]]].
  destruct (Hrows (map VDict three_records) ["data_id"%string] 3 None eq_refl)
    as [Hp3 _].
  split; [|split; [|exact Hp3]].
  - destruct (PostgresPool.query pool_unreachable select_with_limit [] false [])
      as [[r p] l']. cbn [fst snd] in *. subst. reflexivity.
  - destruct (PostgresPool.query pool_without_asyncpg select_with_limit []
                false []) as [[r p] l']. cbn [fst snd] in *. subst.
    reflexivity.
Defined.

(** X11.  Whatever the operation, [execute_postgres_direct_tool] turns
    to the database with at most one statement, and that statement is either the fixed
    zebra-crossings statement (for [zebra_crossings], whatever
    [custom_sql] holds) or the caller's [custom_sql], which then mentions
    [limit]: a caller statement without [limit] is never fetched.  An
    unknown operation fetches nothing. *)
Theorem direct_tool_fetches
        database (operation : string) (custom_sql : option string)
        (limit : Z) (l : log) :
  let r := PostgresDirectTool.execute_postgres_direct_tool database operation
             custom_sql limit l in
  (snd r = l
   \/ (operation = "zebra_crossings"%string
       /\ snd r = l ++ [EPgFetch PostgresDirectTool.zebra_crossings_sql])
   \/ (exists sql,
         operation = "custom_query"%string
         /\ custom_sql = Some sql
         /\ mentions_limit sql = true
         /\ snd r = l ++ [EPgFetch sql]))
  /\ (operation = "zebra_crossings"%string ->
      r = PostgresDirectTool.query database
            PostgresDirectTool.zebra_crossings_sql [VInt limit] l)
  /\ (operation <> "zebra_crossings"%string ->
      operation <> "custom_query"%string ->
      r = (Failure ("Unknown operation: " ++ operation)%string, l)).
Proof.
  cbv zeta. unfold PostgresDirectTool.execute_postgres_direct_tool.
  destruct (String.eqb_spec operation "zebra_crossings") as [->|Hz].
  - split; [right; left; split; reflexivity|].
    split; [reflexivity | congruence].
  - destruct (String.eqb_spec operation "custom_query") as [->|Hc].
    + split; [|split; [congruence | congruence]].
      destruct custom_sql as [[|c t]|]; try (left; reflexivity).
      destruct (Py.contains "limit" (Py.lower (String c t))) eqn:Hl; cbn [negb].
      * right. right. exists (String c t). repeat split. exact Hl.
      * left. reflexivity.
    + split; [left; reflexivity|]. split; [congruence | reflexivity].
Qed.

Lemma direct_tool_fetches_witness :
  PostgresDirectTool.execute_postgres_direct_tool database_empty "sample"
    (Some select_with_limit) 5 []
  = (Failure "Unknown operation: sample", []).
Proof.
  apply (proj2 (proj2 (direct_tool_fetches database_empty "sample"
                         (Some select_with_limit) 5 [])));
    intro H; discriminate H.
Defined.

(* ------------------------------------------------------------------ *)
(** ** The analyzer's tool                                             *)
(* ------------------------------------------------------------------ *)

(** X12.  Edge cases of [_execute_tool].  A tool name other than
    [query_database] is answered with the unknown-tool failure and the
    executor is not called.  For a statement that mentions [limit], a
    failure of the executor is handed back as it is, and an answer
    without rows is handed back as it is, without a note. *)
Theorem analyzer_tool_edges
        database str (tool_name : string) (sql : string) (l : log) :
  (tool_name <> "query_database"%string ->
   forall input,
     CityInsightsAnalyzer._execute_tool database str tool_name input l
     = (Failure ("Unknown tool: " ++ tool_name)%string, l))
  /\ (mentions_limit sql = true ->
      (forall e, fst (PostgresDirectTool.query database sql [] l) = Failure e ->
                 fst (CityInsightsAnalyzer._execute_tool database str
                        "query_database" (Some sql) l) = Failure e)
      /\ (database l sql [] = PostgresDirectTool.PgRecords [] ->
          fst (CityInsightsAnalyzer._execute_tool database str
                 "query_database" (Some sql) l) = Rows [] [] 0 None)).
Proof.
  split.
  - intros Hname input. unfold CityInsightsAnalyzer._execute_tool.
    rewrite (eqb_other tool_name "query_database" Hname). reflexivity.
  - intro Hl. rewrite (analyzer_tool_executes database str sql l Hl). cbn [fst].
    split.
    + intros e ->. reflexivity.
    + intro Hd. unfold PostgresDirectTool.query. rewrite Hd. reflexivity.
Qed.

Lemma analyzer_tool_edges_witness :
  CityInsightsAnalyzer._execute_tool database_empty str_short "export"
    (Some select_with_limit) []
  = (Failure "Unknown tool: export", [])
  /\ fst (CityInsightsAnalyzer._execute_tool database_empty str_short
            "query_database" (Some select_with_limit) [])
     = Rows [] [] 0 None.
Proof.
  split.
  - apply (proj1 (analyzer_tool_edges database_empty str_short "export"
                    select_with_limit [])).
    intro H. discriminate H.
  - exact (proj2 (proj2 (analyzer_tool_edges database_empty str_short
                           "query_database" select_with_limit [])
                        eq_refl)
                 eq_refl).
Defined.

(** X13.  A successful answer of one to five rows whose 5-row dictionary
    has a [str] of at most 3000 characters is handed back with all its
    rows, and still carries the note that says it was truncated to its
    first 5 rows. *)
Theorem small_result_complete_but_noted
        database str (sql : string) (records : list (list (string * value)))
        (l : log) :
  mentions_limit sql = true ->
  database l sql [] = PostgresDirectTool.PgRecords records ->
  1 <= length records <= 5 ->
  let data := map VDict records in
  let columns := match records with first :: _ => map fst first | [] => [] end in
  let note := CityInsightsAnalyzer.note_first_5 (length records) in
  (Py.len (str (Rows data columns (length records) (Some note))) <= 3000)%N ->
  fst (CityInsightsAnalyzer._execute_tool database str "query_database"
         (Some sql) l)
  = Rows data columns (length records) (Some note).
Proof.
  intros Hl Hd Hlen data columns note Hstr.
  rewrite (analyzer_tool_executes database str sql l Hl).
  unfold PostgresDirectTool.query. rewrite Hd. cbn [fst].
  rewrite length_map, shape_rows by lia. cbv zeta.
  assert (Hall : firstn 5 (map VDict records) = map VDict records).
  { apply firstn_all2. rewrite length_map. lia. }
  rewrite Hall. fold data. fold columns. fold note.
  destruct (N.ltb_spec 3000 (Py.len (str (Rows data columns (length records)
                                            (Some note))))) as [Hgt|_];
    [lia | reflexivity].
Qed.

Lemma small_result_witness :
  mentions_limit select_with_limit = true
  /\ fst (CityInsightsAnalyzer._execute_tool database_three_records str_short
            "query_database" (Some select_with_limit) [])
     = Rows (map VDict three_records) ["data_id"%string] 3
            (Some (CityInsightsAnalyzer.note_first_5 3)).
Proof.
  split; [reflexivity|].
  assert (Hlen : 1 <= length three_records <= 5) by (simpl; lia).
  assert (Hstr : (Py.len (str_short
                    (Rows (map VDict three_records) ["data_id"%string]
                       (length three_records)
                       (Some (CityInsightsAnalyzer.note_first_5
                                (length three_records))))) <= 3000)%N)
    by (vm_compute; discriminate).
  exact (small_result_complete_but_noted database_three_records str_short
           select_with_limit three_records [] eq_refl eq_refl Hlen Hstr).
Defined.

Lemma execute_tools_cons database str (tu : CityInsightsAnalyzer.tool_use)
      (rest : list CityInsightsAnalyzer.tool_use) (l : log) :
  let first := CityInsightsAnalyzer._execute_tool database str
                 (CityInsightsAnalyzer.name tu)
                 (CityInsightsAnalyzer.input_sql tu) l in
  let others := CityInsightsAnalyzer.execute_tools database str rest (snd first) in
  CityInsightsAnalyzer.execute_tools database str (tu :: rest) l
  = (CityInsightsAnalyzer.ToolResult (CityInsightsAnalyzer.id tu) (str (fst first))
       :: fst others, snd others).
Proof.
  cbv zeta. cbn [CityInsightsAnalyzer.execute_tools]. unfold bind, ret.
  destruct (CityInsightsAnalyzer._execute_tool database str
              (CityInsightsAnalyzer.name tu)
              (CityInsightsAnalyzer.input_sql tu) l) as [r1 l1].
  cbn [fst snd].
  destruct (CityInsightsAnalyzer.execute_tools database str rest l1) as [rs l2].
  reflexivity.
Qed.

(** X14.  The tool uses of one turn are executed one after another, in
    the order of the response, and each one is answered: the results
    carry the ids of the tool uses, in order, and the executor is called
    for exactly the [query_database] uses whose statement mentions
    [limit], in order, whatever the outcome of the others. *)
Theorem execute_tools_answers_each
        database str (tool_uses : list CityInsightsAnalyzer.tool_use) (l : log) :
  let r := CityInsightsAnalyzer.execute_tools database str tool_uses l in
  map CityInsightsAnalyzer.tool_use_id (fst r)
  = map CityInsightsAnalyzer.id tool_uses
  /\ snd r = l ++ map EPgFetch (dispatched tool_uses).
Proof.
  cbv zeta. revert l. induction tool_uses as [|tu rest IH]; intro l.
  - simpl. rewrite app_nil_r. split; reflexivity.
  - rewrite execute_tools_cons. cbv zeta. cbn [fst snd].
    assert (Hone : snd (CityInsightsAnalyzer._execute_tool database str
                          (CityInsightsAnalyzer.name tu)
                          (CityInsightsAnalyzer.input_sql tu) l)
                   = l ++ map EPgFetch (dispatched [tu])).
    { unfold dispatched, CityInsightsAnalyzer._execute_tool. simpl flat_map.
      destruct (String.eqb (CityInsightsAnalyzer.name tu) "query_database");
        cbn [andb]; [|rewrite app_nil_r; reflexivity].
      destruct (Py.contains "limit" _); cbn [negb];
        [reflexivity | rewrite app_nil_r; reflexivity]. }
    rewrite Hone.
    destruct (IH (l ++ map EPgFetch (dispatched [tu]))) as [IHids IHlog].
    split.
    + simpl. f_equal. exact IHids.
    + rewrite IHlog, <- app_assoc, <- map_app. f_equal. f_equal.
      unfold dispatched. simpl flat_map. rewrite app_nil_r. reflexivity.
Qed.

(* ------------------------------------------------------------------ *)
(** ** The transcripts of [analyze_city]                               *)
(* ------------------------------------------------------------------ *)

Lemma exchanges_even (messages : list CityInsightsAnalyzer.message) :
  exchanges messages = true -> Nat.even (length messages) = true.
Proof.
  revert messages.
  fix IH 1. intros [|m [|m' rest]] H.
  - reflexivity.
  - destruct m; discriminate H.
  - destruct m as [t|blocks|rs]; try discriminate H.
    destruct m' as [t|blocks'|rs]; try discriminate H.
    simpl in H. apply andb_true_iff in H. destruct H as [_ H].
    simpl. exact (IH rest H).
Qed.

Lemma exchanges_skip2 (k : nat) :
  forall messages : list CityInsightsAnalyzer.message,
    exchanges messages = true -> exchanges (skipn (2 * k) messages) = true.
Proof.
  induction k as [|k IH]; intros messages H; [exact H|].
  replace (2 * S k) with (S (S (2 * k))) by lia.
  destruct messages as [|m [|m' rest]].
  - reflexivity.
  - destruct m; discriminate H.
  - destruct m as [t|blocks|rs]; try discriminate H.
    destruct m' as [t|blocks'|rs]; try discriminate H.
    simpl in H. apply andb_true_iff in H. destruct H as [_ H].
    simpl skipn. apply IH, H.
Qed.

Lemma exchanges_skip_even (n : nat) (messages : list CityInsightsAnalyzer.message) :
  Nat.even n = true ->
  exchanges messages = true -> exchanges (skipn n messages) = true.
Proof.
  intros Hn H. apply Nat.even_spec in Hn. destruct Hn as [k ->].
  apply exchanges_skip2, H.
Qed.

Lemma exchanges_in_good_order (messages : list CityInsightsAnalyzer.message) :
  exchanges messages = true -> in_good_order messages = true.
Proof.
  destruct messages as [|[t|blocks|rs] rest]; intro H;
    first [exact H | discriminate H].
Qed.

Lemma exchanges_app (a b : list CityInsightsAnalyzer.message) :
  exchanges a = true -> exchanges b = true -> exchanges (a ++ b) = true.
Proof.
  revert a. fix IH 1. intros [|m [|m' rest]] Ha Hb.
  - exact Hb.
  - destruct m; discriminate Ha.
  - destruct m as [t|blocks|rs]; try discriminate Ha.
    destruct m' as [t|blocks'|rs]; try discriminate Ha.
    simpl in Ha. apply andb_true_iff in Ha. destruct Ha as [Hids Ha].
    simpl. rewrite Hids. exact (IH rest Ha Hb).
Qed.

Lemma good_order_tail (k : nat) (messages : list CityInsightsAnalyzer.message) :
  Nat.even k = true ->
  in_good_order messages = true ->
  in_good_order (last_items k messages) = true.
Proof.
  intros Hk H. unfold last_items.
  destruct messages as [|m rest]; [exact H|].
  destruct m as [t|blocks|rs].
  - (* the initial user message and complete exchanges *)
    simpl in H. pose proof (exchanges_even rest H) as Heven.
    simpl length.
    destruct (Nat.le_gt_cases (S (length rest)) k) as [Hle|Hgt].
    + replace (S (length rest) - k) with 0 by lia. exact H.
    + replace (S (length rest) - k) with (S (length rest - k)) by lia.
      simpl skipn. apply exchanges_in_good_order, exchanges_skip_even; [|exact H].
      destruct (Nat.le_gt_cases k (length rest)) as [Hle|Hlt]; [|lia].
      rewrite Nat.even_sub by exact Hle. rewrite Heven, Hk. reflexivity.
  - change (in_good_order (CityInsightsAnalyzer.AssistantContent blocks :: rest))
      with (exchanges (CityInsightsAnalyzer.AssistantContent blocks :: rest)) in H.
    pose proof (exchanges_even _ H) as Heven.
    apply exchanges_in_good_order, exchanges_skip_even; [|exact H].
    destruct (Nat.le_gt_cases k (length (CityInsightsAnalyzer.AssistantContent blocks :: rest)))
      as [Hle|Hlt].
    + rewrite Nat.even_sub by exact Hle. rewrite Heven, Hk. reflexivity.
    + replace (length (CityInsightsAnalyzer.AssistantContent blocks :: rest) - k)
        with 0 by lia. reflexivity.
  - discriminate H.
Qed.

Lemma good_order_prune (messages : list CityInsightsAnalyzer.message) :
  in_good_order messages = true ->
  in_good_order (CityInsightsAnalyzer.prune messages) = true
  /\ length (CityInsightsAnalyzer.prune messages) <= 6.
Proof.
  intro H. unfold CityInsightsAnalyzer.prune.
  destruct (Nat.ltb_spec 6 (length messages)) as [Hlong|Hshort].
  - split; [apply good_order_tail; [reflexivity | exact H]|].
    unfold last_items. rewrite length_skipn. lia.
  - split; assumption.
Qed.

Lemma good_order_extend (messages : list CityInsightsAnalyzer.message)
      (blocks : list CityInsightsAnalyzer.block)
      (results : list CityInsightsAnalyzer.tool_result) :
  in_good_order messages = true ->
  map CityInsightsAnalyzer.tool_use_id results
  = map CityInsightsAnalyzer.id (CityInsightsAnalyzer.tool_uses_of blocks) ->
  in_good_order (messages ++ [CityInsightsAnalyzer.AssistantContent blocks;
                              CityInsightsAnalyzer.UserToolResults results])
  = true.
Proof.
  intros H Hids.
  assert (Hpair : exchanges [CityInsightsAnalyzer.AssistantContent blocks;
                             CityInsightsAnalyzer.UserToolResults results] = true).
  { simpl. rewrite Hids.
    destruct (list_eq_dec string_dec _ _); [reflexivity | congruence]. }
  destruct messages as [|[t|b|rs] rest].
  - exact Hpair.
  - simpl in H |- *. apply exchanges_app; assumption.
  - change (in_good_order (CityInsightsAnalyzer.AssistantContent b :: rest))
      with (exchanges (CityInsightsAnalyzer.AssistantContent b :: rest)) in H.
    apply exchanges_in_good_order. apply exchanges_app; assumption.
  - discriminate H.
Qed.

Lemma execute_tools_ids database str
      (tool_uses : list CityInsightsAnalyzer.tool_use) (l : log) :
  map CityInsightsAnalyzer.tool_use_id
    (fst (CityInsightsAnalyzer.execute_tools database str tool_uses l))
  = map CityInsightsAnalyzer.id tool_uses.
Proof.
  revert l. induction tool_uses as [|tu rest IH]; intro l; [reflexivity|].
  rewrite execute_tools_cons. cbv zeta. cbn [fst map]. f_equal. apply IH.
Qed.

Lemma loop_depends_on_good_transcripts
      provider provider' database str json_loads (n : nat) :
  (forall l messages,
     in_good_order messages = true -> length messages <= 6 ->
     provider l messages = provider' l messages) ->
  forall (messages : list CityInsightsAnalyzer.message) (l : log),
    in_good_order messages = true ->
    CityInsightsAnalyzer.loop provider database str json_loads n messages l
    = CityInsightsAnalyzer.loop provider' database str json_loads n messages l.
Proof.
  intro Hagree. induction n as [|n IH]; intros messages l Hgood; [reflexivity|].
  rewrite !loop_step. cbv zeta.
  destruct (good_order_prune messages Hgood) as [Hp Hlen].
  rewrite (Hagree l _ Hp Hlen).
  destruct (provider' l (CityInsightsAnalyzer.prune messages))
    as [m | e | stop_reason blocks].
  - apply IH, Hp.
  - destruct (CityInsightsAnalyzer.is_context_overflow e); [|reflexivity].
    apply IH. apply good_order_tail; [reflexivity | exact Hp].
  - destruct (String.eqb stop_reason "tool_use"); [|reflexivity].
    pose proof (execute_tools_ids database str
                  (CityInsightsAnalyzer.tool_uses_of blocks)
                  (l ++ [ECompletion])) as Hids.
    destruct (CityInsightsAnalyzer.execute_tools database str
                (CityInsightsAnalyzer.tool_uses_of blocks) (l ++ [ECompletion]))
      as [tool_results l2].
    cbn [fst] in Hids. apply IH. apply good_order_extend; assumption.
Qed.

(** X15.  [analyze_city] consults the completion provider only on
    transcripts of at most 6 messages that are in good order: complete
    exchanges (an assistant message followed by the results of its tool
    uses, id by id), possibly after the initial user message.  Two
    providers that agree on all such transcripts give the same run, so
    the plain tail slices of 6 and of 2 messages never hand the provider
    a transcript that opens with orphaned tool results. *)
Theorem provider_sees_good_transcripts
        provider provider' database str json_loads (user_message : string) :
  (forall l messages,
     in_good_order messages = true -> length messages <= 6 ->
     provider l messages = provider' l messages) ->
  CityInsightsAnalyzer.analyze_city provider database str json_loads
    user_message []
  = CityInsightsAnalyzer.analyze_city provider' database str json_loads
      user_message [].
Proof.
  intro Hagree. unfold CityInsightsAnalyzer.analyze_city,
                  CityInsightsAnalyzer.analyze_city_with.
  apply loop_depends_on_good_transcripts; [exact Hagree | reflexivity].
Qed.

Lemma provider_sees_good_transcripts_witness :
  CityInsightsAnalyzer.analyze_city provider_nine_queries database_empty
    str_short decoder_braces_only "Analyze Bristol, GB" []
  = CityInsightsAnalyzer.analyze_city provider_short_only database_empty
      str_short decoder_braces_only "Analyze Bristol, GB" [].
Proof.
  apply provider_sees_good_transcripts.
  intros l messages _ Hlen. unfold provider_short_only.
  destruct (Nat.leb_spec (length messages) 6); [reflexivity | lia].
Defined.

(* ------------------------------------------------------------------ *)
(** ** Provider errors in [analyze_city]                               *)
(* ------------------------------------------------------------------ *)

Lemma prune_short (messages : list CityInsightsAnalyzer.message) :
  length messages <= 6 -> CityInsightsAnalyzer.prune messages = messages.
Proof.
  intro H. unfold CityInsightsAnalyzer.prune.
  destruct (Nat.ltb_spec 6 (length messages)); [lia | reflexivity].
Qed.

Lemma rate_limited_iterations_snoc (k : nat) :
  rate_limited_iterations (S k)
  = rate_limited_iterations k ++ [ECompletion; ESleep 5].
Proof.
  induction k as [|k IH]; [reflexivity|].
  transitivity (ECompletion :: ESleep 5
                :: (rate_limited_iterations k ++ [ECompletion; ESleep 5]));
    [|reflexivity].
  change (rate_limited_iterations (S (S k)))
    with (ECompletion :: ESleep 5 :: rate_limited_iterations (S k)).
  f_equal. f_equal. exact IH.
Qed.

Lemma rate_limited_iterations_calls (k : nat) :
  completion_calls (rate_limited_iterations k) = k
  /\ sleeps (rate_limited_iterations k) = repeat 5 k
  /\ executor_calls (rate_limited_iterations k) = [].
Proof.
  induction k as [|k [IH1 [IH2 IH3]]]; [repeat split|].
  unfold completion_calls in *. simpl. rewrite IH1, IH2.
  repeat split. exact IH3.
Qed.

Lemma rate_limited_steps provider database str json_loads (j : nat) :
  forall (n : nat) (messages : list CityInsightsAnalyzer.message),
    length messages <= 6 ->
    (forall l' ms, completion_calls l' < j ->
                   exists m, provider l' ms = CityInsightsAnalyzer.RateLimitError m) ->
    forall i, i <= j -> i <= n ->
    CityInsightsAnalyzer.loop provider database str json_loads n messages []
    = CityInsightsAnalyzer.loop provider database str json_loads (n - i) messages
        (rate_limited_iterations i).
Proof.
  intros n messages Hlen Hlimited. induction i as [|i IH]; intros Hij Hin.
  - rewrite Nat.sub_0_r. reflexivity.
  - rewrite IH by lia.
    replace (n - i) with (S (n - S i)) by lia.
    rewrite loop_step. cbv zeta. rewrite (prune_short messages Hlen).
    destruct (Hlimited (rate_limited_iterations i) messages) as [m ->].
    { rewrite (proj1 (rate_limited_iterations_calls i)). lia. }
    rewrite rate_limited_iterations_snoc, <- app_assoc. reflexivity.
Qed.

(** X16.  A rate-limit error in [analyze_city] costs one iteration and a
    sleep of 5 seconds.  With a provider that is rate limited on its
    first [k] calls and then answers with a text: when [k] is below
    [max_iterations] the run completes with the parsed text after [k + 1]
    completion calls and [k] sleeps of 5 seconds; otherwise it ends with
    the max-iterations failure after [max_iterations] calls and as many
    sleeps.  No query is executed. *)
Theorem rate_limits_cost_iterations
        provider database str json_loads (user_message text : string) (k : nat) :
  (forall l ms, completion_calls l < k ->
                exists m, provider l ms = CityInsightsAnalyzer.RateLimitError m) ->
  (forall l ms, completion_calls l = k ->
                provider l ms = CityInsightsAnalyzer.Response "end_turn"
                                  [CityInsightsAnalyzer.TextBlock text]) ->
  let r := CityInsightsAnalyzer.analyze_city provider database str json_loads
             user_message [] in
  (k < CityInsightsAnalyzer.max_iterations ->
   r = (CityInsightsAnalyzer.Completed (CityInsightsAnalyzer.parse json_loads text),
        rate_limited_iterations k ++ [ECompletion])
   /\ sleeps (snd r) = repeat 5 k)
  /\ (CityInsightsAnalyzer.max_iterations <= k ->
      r = (CityInsightsAnalyzer.MaxIterationsReached,
           rate_limited_iterations CityInsightsAnalyzer.max_iterations)
      /\ sleeps (snd r) = repeat 5 CityInsightsAnalyzer.max_iterations)
  /\ executor_calls (snd r) = [].
Proof.
  intros Hlimited Hanswer. cbv zeta.
  unfold CityInsightsAnalyzer.analyze_city, CityInsightsAnalyzer.analyze_city_with.
  assert (Hlen : length [CityInsightsAnalyzer.UserText user_message] <= 6)
    by (simpl; lia).
  assert (Hdone : k < CityInsightsAnalyzer.max_iterations ->
            CityInsightsAnalyzer.loop provider database str json_loads
              CityInsightsAnalyzer.max_iterations
              [CityInsightsAnalyzer.UserText user_message] []
            = (CityInsightsAnalyzer.Completed
                 (CityInsightsAnalyzer.parse json_loads text),
               rate_limited_iterations k ++ [ECompletion])).
  { intro Hk.
    rewrite (rate_limited_steps provider database str json_loads k
               CityInsightsAnalyzer.max_iterations _ Hlen Hlimited k) by lia.
    replace (CityInsightsAnalyzer.max_iterations - k)
      with (S (CityInsightsAnalyzer.max_iterations - S k)) by lia.
    rewrite loop_step. cbv zeta. rewrite (prune_short _ Hlen).
    rewrite (Hanswer (rate_limited_iterations k) _
               (proj1 (rate_limited_iterations_calls k))).
    change (String.eqb "end_turn" "tool_use") with false. cbv iota.
    reflexivity. }
  assert (Hout : CityInsightsAnalyzer.max_iterations <= k ->
            CityInsightsAnalyzer.loop provider database str json_loads
              CityInsightsAnalyzer.max_iterations
              [CityInsightsAnalyzer.UserText user_message] []
            = (CityInsightsAnalyzer.MaxIterationsReached,
               rate_limited_iterations CityInsightsAnalyzer.max_iterations)).
  { intro Hk.
    rewrite (rate_limited_steps provider database str json_loads k
               CityInsightsAnalyzer.max_iterations _ Hlen Hlimited
               CityInsightsAnalyzer.max_iterations) by lia.
    rewrite Nat.sub_diag. reflexivity. }
  split; [|split].
  - intro Hk. rewrite (Hdone Hk). split; [reflexivity|]. cbn [snd].
    clear. induction k as [|k IH]; [reflexivity|]. simpl. f_equal. exact IH.
  - intro Hk. rewrite (Hout Hk). split; [reflexivity|]. cbn [snd].
    apply rate_limited_iterations_calls.
  - destruct (Nat.lt_ge_cases k CityInsightsAnalyzer.max_iterations) as [Hk|Hk].
    + rewrite (Hdone Hk). cbn [snd]. rewrite executor_calls_app.
      rewrite (proj2 (proj2 (rate_limited_iterations_calls k))). reflexivity.
    + rewrite (Hout Hk). cbn [snd]. apply rate_limited_iterations_calls.
Qed.

Lemma rate_limits_cost_iterations_witness :
  sleeps (snd (CityInsightsAnalyzer.analyze_city provider_limited_twice
                 database_empty str_short decoder_braces_only
                 "Analyze Bristol, GB" []))
  = [5; 5].
Proof.
  assert (H1 : forall l (ms : list CityInsightsAnalyzer.message),
             completion_calls l < 2 ->
             exists m, provider_limited_twice l ms
                       = CityInsightsAnalyzer.RateLimitError m).
  { intros l ms Hl. exists rate_limit_message. unfold provider_limited_twice.
    destruct (Nat.ltb_spec (completion_calls l) 2); [reflexivity | lia]. }
  assert (H2 : forall l (ms : list CityInsightsAnalyzer.message),
             completion_calls l = 2 ->
             provider_limited_twice l ms
             = CityInsightsAnalyzer.Response "end_turn"
                 [CityInsightsAnalyzer.TextBlock plain_answer]).
  { intros l ms Hl. unfold provider_limited_twice. rewrite Hl. reflexivity. }
  assert (Hk : 2 < CityInsightsAnalyzer.max_iterations)
    by (unfold CityInsightsAnalyzer.max_iterations; lia).
  exact (proj2 (proj1 (rate_limits_cost_iterations provider_limited_twice
                         database_empty str_short decoder_braces_only
                         "Analyze Bristol, GB" plain_answer 2 H1 H2) Hk)).
Defined.

(** X17.  Other provider errors in [analyze_city].  An error whose text
    holds [too long] (in any case) or [204675] costs one iteration,
    without a sleep, and the transcript is cut to its last two messages:
    with a provider that always fails so, the run ends with the
    max-iterations failure after [max_iterations] completion calls and
    nothing else.  Any other error leaves [analyze_city] at once, after
    the one completion call. *)
Theorem other_errors
        provider database str json_loads (user_message e : string) :
  (forall l ms, provider l ms = CityInsightsAnalyzer.OtherError e) ->
  let r := CityInsightsAnalyzer.analyze_city provider database str json_loads
             user_message [] in
  (CityInsightsAnalyzer.is_context_overflow e = true ->
   r = (CityInsightsAnalyzer.MaxIterationsReached,
        repeat ECompletion CityInsightsAnalyzer.max_iterations))
  /\ (CityInsightsAnalyzer.is_context_overflow e = false ->
      r = (CityInsightsAnalyzer.Raised e, [ECompletion])).
Proof.
  intros Hfail. cbv zeta.
  unfold CityInsightsAnalyzer.analyze_city, CityInsightsAnalyzer.analyze_city_with.
  split.
  - intro Hover.
    assert (Hloop : forall n messages l,
              CityInsightsAnalyzer.loop provider database str json_loads n
                messages l
              = (CityInsightsAnalyzer.MaxIterationsReached,
                 l ++ repeat ECompletion n)).
    { induction n as [|n IH]; intros messages l.
      - simpl. rewrite app_nil_r. reflexivity.
      - rewrite loop_step. cbv zeta. rewrite Hfail, Hover, IH.
        rewrite <- app_assoc. reflexivity. }
    rewrite Hloop. reflexivity.
  - intro Hother. unfold CityInsightsAnalyzer.max_iterations.
    rewrite loop_step. cbv zeta. rewrite Hfail, Hother. reflexivity.
Qed.

Lemma other_errors_witness :
  CityInsightsAnalyzer.analyze_city provider_too_long database_empty str_short
    decoder_braces_only "Analyze Bristol, GB" []
  = (CityInsightsAnalyzer.MaxIterationsReached, repeat ECompletion 12).
Proof.
  exact (proj1 (other_errors provider_too_long database_empty str_short
                  decoder_braces_only "Analyze Bristol, GB"
                  "prompt is too long: 204675 tokens" (fun _ _ => eq_refl))
               eq_refl).
Defined.

(* ------------------------------------------------------------------ *)
(** ** The extraction of the JSON text                                 *)
(* ------------------------------------------------------------------ *)

Lemma prefix_self_app (a b : string) : String.prefix a (a ++ b) = true.
Proof.
  induction a as [|c t IH]; [apply prefix_empty|].
  simpl. destruct (ascii_dec c c); [exact IH | congruence].
Qed.

Lemma length_append (a b : string) :
  String.length (a ++ b) = String.length a + String.length b.
Proof. induction a as [|c t IH]; [reflexivity|]. simpl. rewrite IH. reflexivity. Qed.

Lemma string_app_assoc (a b c : string) :
  (a ++ b ++ c)%string = ((a ++ b) ++ c)%string.
Proof. induction a as [|x a' IH]; [reflexivity|]. simpl. rewrite IH. reflexivity. Qed.

Lemma drop_app (a t : string) : Py.drop (String.length a) (a ++ t) = t.
Proof. induction a as [|c a' IH]; [destruct t; reflexivity | exact IH]. Qed.

Lemma take_app (a t : string) : Py.take (String.length a) (a ++ t) = a.
Proof.
  induction a as [|c a' IH]; [destruct t; reflexivity|].
  simpl. rewrite IH. reflexivity.
Qed.

Lemma take_app_short (n : nat) (a t : string) :
  n <= String.length a -> Py.take n (a ++ t) = Py.take n a.
Proof.
  revert a. induction n as [|n IH]; intros a H; [destruct a, t; reflexivity|].
  destruct a as [|c a']; [simpl in H; lia|].
  simpl. rewrite IH by (simpl in H; lia). reflexivity.
Qed.

Lemma free_of_head (c x : ascii) (s : string) :
  free_of c (String x s) = true -> x <> c /\ free_of c s = true.
Proof.
  unfold free_of. simpl. intro H. apply andb_true_iff in H.
  destruct H as [Hx Hs]. split; [|exact Hs].
  intros ->. rewrite Ascii.eqb_refl in Hx. discriminate Hx.
Qed.

Lemma prefix_other_head (c x : ascii) (n s : string) :
  x <> c -> String.prefix (String c n) (String x s) = false.
Proof. intro H. simpl. destruct (ascii_dec c x); [congruence | reflexivity]. Qed.

(** The first occurrence of a text that opens with [c], after a stretch
    free of [c]. *)
Lemma index_found (c : ascii) (n p rest : string) :
  free_of c p = true ->
  String.index 0 (String c n) (p ++ String c n ++ rest) = Some (String.length p).
Proof.
  intro Hp. induction p as [|x p' IH].
  - change (EmptyString ++ String c n ++ rest)%string
      with (String c (n ++ rest)).
    cbn [String.index].
    change (String c (n ++ rest)) with (String c n ++ rest)%string.
    rewrite prefix_self_app. reflexivity.
  - destruct (free_of_head c x p' Hp) as [Hx Hp'].
    change (String x p' ++ String c n ++ rest)%string
      with (String x (p' ++ String c n ++ rest)).
    cbn [String.index]. rewrite (prefix_other_head c x n _ Hx).
    rewrite (IH Hp'). reflexivity.
Qed.

Lemma index_absent (c : ascii) (n s : string) :
  free_of c s = true -> String.index 0 (String c n) s = None.
Proof.
  induction s as [|x s' IH]; intro H; [reflexivity|].
  destruct (free_of_head c x s' H) as [Hx Hs'].
  cbn [String.index]. rewrite (prefix_other_head c x n s' Hx), (IH Hs').
  reflexivity.
Qed.

Lemma index_skip (a sub t : string) :
  String.index (String.length a) sub (a ++ t)
  = match String.index 0 sub t with
    | Some i => Some (String.length a + i)
    | None => None
    end.
Proof.
  induction a as [|y a' IH].
  - simpl. destruct (String.index 0 sub t); reflexivity.
  - change (String y a' ++ t)%string with (String y (a' ++ t)).
    cbn [String.length String.index]. rewrite IH.
    destruct (String.index 0 sub t); reflexivity.
Qed.

Lemma contains_free (c : ascii) (n s : string) :
  free_of c s = true -> Py.contains (String c n) s = false.
Proof.
  induction s as [|x s' IH]; intro H; [reflexivity|].
  destruct (free_of_head c x s' H) as [Hx Hs'].
  rewrite contains_unfold, (prefix_other_head c x n s' Hx), (IH Hs').
  reflexivity.
Qed.

Lemma slice_between (a body rest : string) :
  Py.slice (a ++ body ++ rest) (Z.of_nat (String.length a))
    (Z.of_nat (String.length a + String.length body))
  = body.
Proof.
  unfold Py.slice, Py.bound. rewrite !length_append.
  replace (Z.of_nat (String.length a) <? 0)%Z with false
    by (symmetry; apply Z.ltb_ge; lia).
  replace (Z.of_nat (String.length a + String.length body) <? 0)%Z with false
    by (symmetry; apply Z.ltb_ge; lia).
  rewrite !Nat2Z.id.
  rewrite Nat.min_r by lia. rewrite Nat.min_r by lia.
  replace (String.length a + String.length body - String.length a)
    with (String.length body) by lia.
  rewrite drop_app, take_app. reflexivity.
Qed.

Lemma slice_to_last (a body : string) :
  Py.slice (a ++ body) (Z.of_nat (String.length a)) (-1)
  = Py.take (String.length body - 1) body.
Proof.
  unfold Py.slice, Py.bound. rewrite !length_append.
  replace (Z.of_nat (String.length a) <? 0)%Z with false
    by (symmetry; apply Z.ltb_ge; lia).
  change (-1 <? 0)%Z with true. cbv iota.
  rewrite Nat2Z.id. rewrite Nat.min_r by lia. rewrite Nat.min_r by lia.
  rewrite drop_app. f_equal. lia.
Qed.

Lemma fence_found (p tail : string) :
  free_of "`" p = true ->
  Py.contains "```json" (p ++ "```json" ++ tail) = true
  /\ Py.find (p ++ "```json" ++ tail) "```json" 0 = Z.of_nat (String.length p).
Proof.
  intro Hp. split.
  - apply contains_app_r, contains_app_l. reflexivity.
  - unfold Py.find. rewrite (index_found "`" "``json" p tail Hp). reflexivity.
Qed.

(** X18.  A fenced block is recovered.  For a text [before ++ "```json"
    ++ body ++ "```" ++ after] in which [before] and [body] hold no
    backtick, the text handed to [json.loads] is [body] stripped of its
    surrounding white space, and when it decodes, the decoded value is the
    parsed insight. *)
Theorem fenced_json_is_extracted
        (json_loads : string -> option value) (before body after : string) :
  free_of "`" before = true ->
  free_of "`" body = true ->
  let text := (before ++ "```json" ++ body ++ "```" ++ after)%string in
  CityInsightsAnalyzer.extract_json text = Py.strip body
  /\ (forall v, json_loads (Py.strip body) = Some v ->
                CityInsightsAnalyzer.parse json_loads text = v).
Proof.
  intros Hb Hbody text.
  assert (Hex : CityInsightsAnalyzer.extract_json text = Py.strip body).
  { unfold CityInsightsAnalyzer.extract_json, text.
    destruct (fence_found before (body ++ "```" ++ after) Hb) as [-> ->].
    replace (Z.to_nat (Z.of_nat (String.length before) + 7))
      with (String.length (before ++ "```json")) by (rewrite length_append; simpl; lia).
    unfold Py.find.
    rewrite (string_app_assoc before "```json" (body ++ "```" ++ after)).
    rewrite index_skip, (index_found "`" "``" body after Hbody).
    replace (Z.of_nat (String.length before) + 7)%Z
      with (Z.of_nat (String.length (before ++ "```json")))
      by (rewrite length_append; simpl; lia).
    rewrite slice_between. reflexivity. }
  split; [exact Hex|].
  intros v Hv. unfold CityInsightsAnalyzer.parse. rewrite Hex, Hv. reflexivity.
Qed.

Lemma fenced_json_witness :
  free_of "`" "Here is the analysis:" = true
  /\ CityInsightsAnalyzer.extract_json
       ("Here is the analysis:" ++ "```json" ++ fenced_body ++ "```" ++ " Done.")
     = Py.strip fenced_body.
Proof.
  split; [reflexivity|].
  exact (proj1 (fenced_json_is_extracted decoder_braces_only
                  "Here is the analysis:" fenced_body " Done."
                  eq_refl eq_refl)).
Defined.

(** X19.  An unclosed fence loses the last character.  For a text
    [before ++ "```json" ++ body] that holds no other backtick, the
    closing fence is not found, the slice runs to index -1, and the text
    handed to [json.loads] is [body] without its last character,
    stripped. *)
Theorem unclosed_fence_drops_last_character (before body : string) :
  free_of "`" before = true ->
  free_of "`" body = true ->
  CityInsightsAnalyzer.extract_json (before ++ "```json" ++ body)
  = Py.strip (Py.take (String.length body - 1) body).
Proof.
  intros Hb Hbody. unfold CityInsightsAnalyzer.extract_json.
  destruct (fence_found before body Hb) as [-> ->].
  replace (Z.to_nat (Z.of_nat (String.length before) + 7))
    with (String.length (before ++ "```json")) by (rewrite length_append; simpl; lia).
  unfold Py.find.
  rewrite (string_app_assoc before "```json" body).
  rewrite index_skip, (index_absent "`" "``" body Hbody).
  replace (Z.of_nat (String.length before) + 7)%Z
    with (Z.of_nat (String.length (before ++ "```json")))
    by (rewrite length_append; simpl; lia).
  rewrite slice_to_last. reflexivity.
Qed.

Lemma unclosed_fence_witness :
  free_of "`" "Result: " = true
  /\ CityInsightsAnalyzer.extract_json ("Result: " ++ "```json" ++ "{}")
     = "{"%string.
Proof.
  split; [reflexivity|].
  exact (unclosed_fence_drops_last_character "Result: " "{}" eq_refl eq_refl).
Defined.

Lemma rfind_absent (c : ascii) (s : string) :
  free_of c s = true -> Py.rfind_char s c = (-1)%Z.
Proof.
  induction s as [|x s' IH]; intro H; [reflexivity|].
  destruct (free_of_head c x s' H) as [Hx Hs'].
  simpl. rewrite (IH Hs'). simpl.
  destruct (Ascii.eqb_spec x c); [congruence | reflexivity].
Qed.

Lemma rfind_last (c : ascii) (a q : string) :
  free_of c q = true ->
  Py.rfind_char (a ++ String c q) c = Z.of_nat (String.length a).
Proof.
  intro Hq. induction a as [|y a' IH].
  - simpl. rewrite (rfind_absent c q Hq). simpl. rewrite Ascii.eqb_refl.
    reflexivity.
  - change (String y a' ++ String c q)%string with (String y (a' ++ String c q)).
    cbn [Py.rfind_char]. rewrite IH.
    replace (0 <=? Z.of_nat (String.length a'))%Z with true
      by (symmetry; apply Z.leb_le; lia).
    cbn [String.length]. lia.
Qed.

(** X20.  Without a fence, the text from the first opening brace to the
    last closing brace is recovered: for a text [before ++ "{" ++ middle
    ++ "}" ++ after] that does not contain the fence marker, with no
    opening brace in [before] and no closing brace in [after], the text
    handed to [json.loads] is ["{" ++ middle ++ "}"].  A text with no
    fence marker and no opening brace is handed over whole. *)
Theorem braces_are_extracted (before middle after : string) :
  free_of "{" before = true ->
  free_of "}" after = true ->
  Py.contains "```json" (before ++ "{" ++ middle ++ "}" ++ after) = false ->
  CityInsightsAnalyzer.extract_json (before ++ "{" ++ middle ++ "}" ++ after)
  = ("{" ++ middle ++ "}")%string
  /\ (forall text, Py.contains "```json" text = false ->
                   free_of "{" text = true ->
                   CityInsightsAnalyzer.extract_json text = text).
Proof.
  intros Hb Ha Hfence. split.
  - unfold CityInsightsAnalyzer.extract_json. rewrite Hfence.
    replace (Py.contains "{" (before ++ "{" ++ middle ++ "}" ++ after)) with true
      by (symmetry; apply contains_app_r, contains_app_l; reflexivity).
    replace (Py.contains "}" (before ++ "{" ++ middle ++ "}" ++ after)) with true
      by (symmetry; apply contains_app_r, contains_app_r, contains_app_r,
            contains_app_l; reflexivity).
    cbn [andb]. unfold Py.find.
    rewrite (index_found "{" "" before (middle ++ "}" ++ after) Hb).
    assert (Hlast : (before ++ "{" ++ middle ++ "}" ++ after)%string
                    = ((before ++ "{" ++ middle) ++ String "}" after)%string).
    { rewrite <- (string_app_assoc before), <- (string_app_assoc "{" middle).
      reflexivity. }
    replace (Py.rfind_char (before ++ "{" ++ middle ++ "}" ++ after) "}")
      with (Z.of_nat (String.length (before ++ "{" ++ middle)))
      by (rewrite Hlast; symmetry; apply rfind_last, Ha).
    replace (Z.of_nat (String.length (before ++ "{" ++ middle)) + 1)%Z
      with (Z.of_nat (String.length before + String.length ("{" ++ middle ++ "}")))
      by (repeat rewrite length_append; cbn [String.append String.length];
          repeat rewrite length_append; cbn [String.length]; lia).
    assert (Hmid : (before ++ "{" ++ middle ++ "}" ++ after)%string
                   = (before ++ ("{" ++ middle ++ "}") ++ after)%string).
    { f_equal. rewrite <- (string_app_assoc "{" (middle ++ "}")),
        <- (string_app_assoc middle). reflexivity. }
    rewrite Hmid. apply slice_between.
  - intros text Hf Hopen. unfold CityInsightsAnalyzer.extract_json.
    rewrite Hf, (contains_free "{" "" text Hopen). reflexivity.
Qed.

Lemma braces_are_extracted_witness :
  free_of "{" "The answer is " = true
  /\ CityInsightsAnalyzer.extract_json
       ("The answer is " ++ "{" ++ "{}, 1" ++ "}" ++ " as requested.")
     = "{{}, 1}"%string.
Proof.
  split; [reflexivity|].
  exact (proj1 (braces_are_extracted "The answer is " "{}, 1" " as requested."
                  eq_refl eq_refl eq_refl)).
Defined.

(* ------------------------------------------------------------------ *)
(** ** More on the retry loop of [run]                                 *)
(* ------------------------------------------------------------------ *)

Lemma retry_loop_spec provider (messages : list MindsDBAgent.message)
      (remaining : nat) :
  forall (retry : nat) (l : log),
    retry + remaining = MindsDBAgent.max_retries ->
    1 <= remaining ->
    let r := MindsDBAgent.call_with_retry provider remaining retry messages l in
    exists k,
      k < remaining
      /\ snd r = l ++ failed_attempts_from retry k ++ [ECompletion]
      /\ (forall j, j < k ->
            exists e, provider (l ++ failed_attempts_from retry j) messages
                      = MindsDBAgent.Error e
                      /\ MindsDBAgent.is_rate_limit e = true)
      /\ match fst r with
         | inl response =>
             provider (l ++ failed_attempts_from retry k) messages
             = MindsDBAgent.Success response
         | inr e =>
             provider (l ++ failed_attempts_from retry k) messages
             = MindsDBAgent.Error e
             /\ (MindsDBAgent.is_rate_limit e = false \/ S k = remaining)
         end.
Proof.
  induction remaining as [|remaining IH]; intros retry l Hsum Hpos; [lia|].
  cbv zeta.
  destruct (provider l messages) as [e|response] eqn:Hp.
  - destruct (MindsDBAgent.is_rate_limit e) eqn:Hrate.
    + destruct (Nat.lt_ge_cases retry (MindsDBAgent.max_retries - 1)) as [Hlt|Hge].
      * rewrite (retry_sleeps provider remaining retry messages l e Hp Hrate Hlt).
        assert (Hrem : 1 <= remaining)
          by (unfold MindsDBAgent.max_retries in *; lia).
        destruct (IH (S retry)
                     ((l ++ [ECompletion]) ++ [ESleep (MindsDBAgent.wait_time retry)])
                     ltac:(lia) Hrem) as [k [Hk [Hlog [Hprev Hres]]]].
        assert (Hshift : forall j,
                  ((l ++ [ECompletion]) ++ [ESleep (MindsDBAgent.wait_time retry)])
                    ++ failed_attempts_from (S retry) j
                  = l ++ failed_attempts_from retry (S j)).
        { intro j. rewrite <- !app_assoc. reflexivity. }
        exists (S k). split; [lia|]. split.
        { rewrite Hlog, app_assoc, Hshift, <- app_assoc. reflexivity. }
        split.
        { intros [|j] Hj.
          - exists e. simpl. rewrite app_nil_r. split; assumption.
          - rewrite <- Hshift. apply Hprev. lia. }
        rewrite <- Hshift.
        destruct (fst (MindsDBAgent.call_with_retry provider remaining (S retry)
                         messages _)).
        -- exact Hres.
        -- destruct Hres as [He Hwhy]. split; [exact He|].
           destruct Hwhy as [Hw|Hw]; [left; exact Hw | right; lia].
      * rewrite (retry_gives_up provider remaining retry messages l e Hp Hrate Hge).
        exists 0. split; [lia|]. split; [reflexivity|]. split; [intros j Hj; lia|].
        simpl. rewrite app_nil_r. split; [exact Hp|]. right.
        unfold MindsDBAgent.max_retries in *. lia.
    + rewrite (retry_other_error provider remaining retry messages l e Hp Hrate).
      exists 0. split; [lia|]. split; [reflexivity|]. split; [intros j Hj; lia|].
      simpl. rewrite app_nil_r. split; [exact Hp | left; exact Hrate].
  - rewrite (retry_success provider remaining retry messages l response Hp).
    exists 0. split; [lia|]. split; [reflexivity|]. split; [intros j Hj; lia|].
    simpl. rewrite app_nil_r. exact Hp.
Qed.

Lemma failed_attempts_measure (k : nat) :
  k <= 4 ->
  sleeps (failed_attempts k ++ [ECompletion]) = firstn k [3; 6; 12; 24]
  /\ completion_calls (failed_attempts k ++ [ECompletion]) = S k
  /\ total (firstn k [3; 6; 12; 24]) <= 45.
Proof.
  intro Hk.
  destruct k as [|[|[|[|[|k]]]]]; try lia; repeat split; simpl; lia.
Qed.

(** X21.  Bounds of the retry loop.  For every provider, one pass of the
    retry loop of [run] makes at most 5 completion calls; between them it
    sleeps the first delays of 3, 6, 12, 24 seconds, one per failed
    attempt, 45 seconds at most in all; and it ends with the answer of
    the last call: that response, or that error, raised because it is not
    a rate-limit error or because it was the fifth attempt. *)
Theorem retry_loop_bounds
        provider (messages : list MindsDBAgent.message) (l : log) :
  let r := MindsDBAgent.call_with_retry provider MindsDBAgent.max_retries 0
             messages l in
  exists k,
    k <= 4
    /\ snd r = l ++ failed_attempts k ++ [ECompletion]
    /\ completion_calls (failed_attempts k ++ [ECompletion]) = S k
    /\ sleeps (failed_attempts k ++ [ECompletion]) = firstn k [3; 6; 12; 24]
    /\ total (firstn k [3; 6; 12; 24]) <= 45
    /\ match fst r with
       | inl response =>
           provider (l ++ failed_attempts k) messages
           = MindsDBAgent.Success response
       | inr e =>
           provider (l ++ failed_attempts k) messages = MindsDBAgent.Error e
           /\ (MindsDBAgent.is_rate_limit e = false \/ k = 4)
       end.
Proof.
  cbv zeta.
  destruct (retry_loop_spec provider messages MindsDBAgent.max_retries 0 l
              eq_refl ltac:(unfold MindsDBAgent.max_retries; lia))
    as [k [Hk [Hlog [_ Hres]]]].
  unfold MindsDBAgent.max_retries in Hk.
  assert (Hk4 : k <= 4) by lia.
  destruct (failed_attempts_measure k Hk4) as [Hs [Hc Ht]].
  exists k. split; [exact Hk4|]. split; [exact Hlog|].
  split; [exact Hc|]. split; [exact Hs|]. split; [exact Ht|].
  fold (failed_attempts k) in Hres.
  destruct (fst (MindsDBAgent.call_with_retry provider MindsDBAgent.max_retries
                   0 messages l)).
  - exact Hres.
  - destruct Hres as [He Hwhy]. split; [exact He|].
    destruct Hwhy as [Hw|Hw]; [left; exact Hw|].
    right. unfold MindsDBAgent.max_retries in Hw. lia.
Qed.

(** X22.  Recovery from rate limits.  When the provider fails with a
    rate-limit error on its first [k] calls, [k] at most 4, and answers
    the next call, the retry loop returns that answer after [k + 1]
    completion calls, having slept the first [k] of the delays 3, 6, 12,
    24 seconds. *)
Theorem retry_recovers
        provider (messages : list MindsDBAgent.message) (k : nat) (e : string)
        (response : MindsDBAgent.response) :
  k <= 4 ->
  MindsDBAgent.is_rate_limit e = true ->
  (forall l ms, completion_calls l < k -> provider l ms = MindsDBAgent.Error e) ->
  (forall l ms, completion_calls l = k ->
                provider l ms = MindsDBAgent.Success response) ->
  MindsDBAgent.call_with_retry provider MindsDBAgent.max_retries 0 messages []
  = (inl response, failed_attempts k ++ [ECompletion])
  /\ sleeps (failed_attempts k ++ [ECompletion]) = firstn k [3; 6; 12; 24].
Proof.
  intros Hk Hrate Hfail Hok.
  split; [|apply failed_attempts_measure, Hk].
  destruct (retry_loop_spec provider messages MindsDBAgent.max_retries 0 []
              eq_refl ltac:(unfold MindsDBAgent.max_retries; lia))
    as [k' [Hk' [Hlog [Hprev Hres]]]].
  cbv zeta in Hlog, Hres. cbn [app] in Hlog, Hres, Hprev.
  fold (failed_attempts k') in Hlog, Hres.
  assert (Hcalls : forall j, j <= 4 -> completion_calls (failed_attempts j) = j).
  { intros j Hj. destruct j as [|[|[|[|[|j]]]]]; try lia; reflexivity. }
  unfold MindsDBAgent.max_retries in Hk'.
  assert (Hsame : k' = k).
  { destruct (Nat.lt_trichotomy k' k) as [Hlt|[Heq|Hgt]]; [|exact Heq|].
    - exfalso.
      pose proof (Hfail (failed_attempts k') messages) as Hf.
      rewrite Hcalls in Hf by lia. specialize (Hf Hlt).
      destruct (fst (MindsDBAgent.call_with_retry provider
                       MindsDBAgent.max_retries 0 messages [])).
      + rewrite Hf in Hres. discriminate Hres.
      + destruct Hres as [He [Hw|Hw]].
        * rewrite Hf in He. injection He as <-. rewrite Hrate in Hw.
          discriminate Hw.
        * unfold MindsDBAgent.max_retries in Hw. lia.
    - exfalso. destruct (Hprev k Hgt) as [e' [He' _]].
      fold (failed_attempts k) in He'.
      rewrite (Hok (failed_attempts k) messages (Hcalls k Hk)) in He'.
      discriminate He'. }
  subst k'.
  destruct (MindsDBAgent.call_with_retry provider MindsDBAgent.max_retries 0
              messages []) as [[resp|e'] l'] eqn:Hrun.
  - cbn [fst snd] in *. subst l'.
    rewrite (Hok (failed_attempts k) messages (Hcalls k Hk)) in Hres.
    injection Hres as ->. reflexivity.
  - cbn [fst snd] in *. destruct Hres as [He _].
    rewrite (Hok (failed_attempts k) messages (Hcalls k Hk)) in He.
    discriminate He.
Qed.

Lemma retry_recovers_witness :
  MindsDBAgent.is_rate_limit rate_limit_message = true
  /\ sleeps (snd (MindsDBAgent.call_with_retry provider_recovers
                    MindsDBAgent.max_retries 0 [MindsDBAgent.UserMessage "q"] []))
     = [3; 6].
Proof.
  split; [reflexivity|].
  assert (H1 : forall l (ms : list MindsDBAgent.message),
             completion_calls l < 2 ->
             provider_recovers l ms = MindsDBAgent.Error rate_limit_message).
  { intros l ms Hl. unfold provider_recovers.
    destruct (Nat.ltb_spec (completion_calls l) 2); [reflexivity | lia]. }
  assert (H2 : forall l (ms : list MindsDBAgent.message),
             completion_calls l = 2 ->
             provider_recovers l ms = MindsDBAgent.Success final_response).
  { intros l ms Hl. unfold provider_recovers. rewrite Hl. reflexivity. }
  rewrite (proj1 (retry_recovers provider_recovers [MindsDBAgent.UserMessage "q"]
                    2 rate_limit_message final_response
                    ltac:(lia) eq_refl H1 H2)).
  reflexivity.
Defined.

(* ------------------------------------------------------------------ *)
(** ** The tool calls of [run]                                         *)
(* ------------------------------------------------------------------ *)

Section AgentCalls.

Variable gateway : log -> string -> MindsDBTool.http_outcome.
Variable database : log -> string -> list value -> PostgresDirectTool.pg_outcome.
Variable exporter : log -> MindsDBAgent.arguments -> string.
Variable str : result -> string.
Variable str_summary : MindsDBAgent.result_summary -> string.

Local Notation "'run_call'" :=
  (MindsDBAgent.execute_tool_call gateway database exporter str str_summary)
  (only parsing).
Local Notation "'run_calls'" :=
  (MindsDBAgent.execute_tool_calls gateway database exporter str str_summary)
  (only parsing).


Lemma agent_tool_calls_cons tc (rest : list MindsDBAgent.tool_call) (l : log) :
  run_calls (tc :: rest) l
  = let (r, l1) := run_call tc l in
    match r with
    | inr e => (inr e, l1)
    | inl result_str =>
        let (rs, l2) := run_calls rest l1 in
        (match rs with
         | inr e => inr e
         | inl tool_results =>
             inl (MindsDBAgent.ToolMessage (MindsDBAgent.id tc)
                    (MindsDBAgent.name tc) result_str :: tool_results)
         end, l2)
    end.
Proof.
  cbn [MindsDBAgent.execute_tool_calls]. unfold bind.
  destruct (MindsDBAgent.execute_tool_call gateway database exporter str
              str_summary tc l) as [[result_str|e] l1]; [|reflexivity].
  destruct (MindsDBAgent.execute_tool_calls gateway database exporter str
              str_summary rest l1) as [rs l2].
  reflexivity.
Qed.

Lemma agent_tool_calls_app (before after : list MindsDBAgent.tool_call) :
  forall (l : log) done,
    fst (run_calls before l) = inl done ->
    run_calls (before ++ after) l
    = let (rs, l2) := run_calls after (snd (run_calls before l)) in
      (match rs with
       | inr e => inr e
       | inl tool_results => inl (done ++ tool_results)
       end, l2).
Proof.
  induction before as [|tc before IH]; intros l done Hdone.
  - simpl in Hdone. injection Hdone as <-. simpl.
    destruct (run_calls after l) as [[trs|e] l2]; reflexivity.
  - change ((tc :: before) ++ after) with (tc :: (before ++ after)).
    rewrite agent_tool_calls_cons in Hdone |- *.
    rewrite (agent_tool_calls_cons tc before l).
    destruct (run_call tc l) as [[result_str|e] l1];
      [|discriminate Hdone].
    destruct (run_calls before l1) as [[trs|e] l2] eqn:Hbefore;
      [|discriminate Hdone].
    cbn [fst snd] in Hdone |- *. injection Hdone as <-.
    rewrite (IH l1 trs) by (rewrite Hbefore; reflexivity).
    rewrite Hbefore. cbn [snd].
    destruct (run_calls after l2) as [[trs'|e] l3]; reflexivity.
Qed.

Lemma bad_arguments_raise tc (m : string) (l : log) :
  MindsDBAgent.args tc = MindsDBAgent.BadArguments m ->
  run_call tc l = (inr m, l).
Proof.
  intro H. unfold MindsDBAgent.execute_tool_call.
  rewrite H. reflexivity.
Qed.

Lemma agent_tool_calls_spec (calls : list MindsDBAgent.tool_call) :
  forall l : log,
    match fst (run_calls calls l) with
    | inl tool_results => map answer_of tool_results = map call_of calls
    | inr e =>
        exists before tc after done,
          calls = before ++ tc :: after
          /\ fst (run_calls before l) = inl done
          /\ run_call tc (snd (run_calls before l))
             = (inr e, snd (run_calls calls l))
    end.
Proof.
  induction calls as [|tc rest IH]; intro l; [reflexivity|].
  rewrite agent_tool_calls_cons.
  destruct (run_call tc l) as [[result_str|e] l1] eqn:Hone.
  - specialize (IH l1).
    destruct (run_calls rest l1) as [[trs|e] l2] eqn:Hrest;
      cbn [fst snd] in IH |- *.
    + simpl. rewrite IH. reflexivity.
    + destruct IH as [before [tc' [after [done [Hcalls [Hdone Hraise]]]]]].
      exists (tc :: before), tc', after,
        (MindsDBAgent.ToolMessage (MindsDBAgent.id tc) (MindsDBAgent.name tc)
           result_str :: done).
      split; [rewrite Hcalls; reflexivity|].
      rewrite agent_tool_calls_cons, Hone.
      destruct (run_calls before l1) as [[trs|e'] l3];
        cbn [fst snd] in Hdone, Hraise |- *; [|discriminate Hdone].
      injection Hdone as <-. split; [reflexivity | exact Hraise].
  - cbn [fst snd]. exists [], tc, rest, [].
    split; [reflexivity|]. split; [reflexivity | exact Hone].
Qed.

End AgentCalls.

(** X23.  [run] answers the tool calls of a response in order, or not at
    all.  When the loop over the calls completes, it has built one tool
    message per call, with the id and the name of that call, in the order
    of the calls.  Otherwise it stopped at the first call that raised:
    the calls before it were executed, the calls after it were not, and
    the tool messages built so far are lost with the exception. *)
Theorem tool_calls_answered_in_order
        gateway database exporter str str_summary
        (calls : list MindsDBAgent.tool_call) (l : log) :
  let r := MindsDBAgent.execute_tool_calls gateway database exporter str
             str_summary calls l in
  match fst r with
  | inl tool_results =>
      map answer_of tool_results = map call_of calls
      /\ length tool_results = length calls
  | inr e =>
      exists before tc after done,
        calls = before ++ tc :: after
        /\ fst (MindsDBAgent.execute_tool_calls gateway database exporter str
                  str_summary before l) = inl done
        /\ MindsDBAgent.execute_tool_call gateway database exporter str
             str_summary tc
             (snd (MindsDBAgent.execute_tool_calls gateway database exporter
                     str str_summary before l))
           = (inr e, snd r)
  end.
Proof.
  cbv zeta.
  pose proof (agent_tool_calls_spec gateway database exporter str str_summary
                calls l) as H.
  destruct (fst (MindsDBAgent.execute_tool_calls gateway database exporter str
                   str_summary calls l)) as [trs|e].
  - split; [exact H|].
    rewrite <- (length_map answer_of), H, length_map. reflexivity.
  - exact H.
Qed.

Lemma repr_char_plain (c : ascii) :
  plain_char c = true -> Py.repr_char Py.single_quote c = String c EmptyString.
Proof.
  destruct c as [[] [] [] [] [] [] [] []]; intro H;
    first [discriminate H | reflexivity].
Qed.

Lemma plain_not_quote (s : string) :
  all_chars plain_char s = true -> Py.has_char Py.single_quote s = false.
Proof.
  induction s as [|c t IH]; intro H; [reflexivity|].
  cbn [all_chars] in H. apply andb_true_iff in H. destruct H as [Hc Ht].
  cbn [Py.has_char]. rewrite (IH Ht), orb_false_r.
  destruct c as [[] [] [] [] [] [] [] []];
    first [discriminate Hc | reflexivity].
Qed.

Lemma repr_chars_plain (s : string) :
  all_chars plain_char s = true -> Py.repr_chars Py.single_quote s = s.
Proof.
  induction s as [|c t IH]; intro H; [reflexivity|].
  cbn [all_chars] in H. apply andb_true_iff in H. destruct H as [Hc Ht].
  cbn [Py.repr_chars]. rewrite (repr_char_plain c Hc), (IH Ht). reflexivity.
Qed.

Lemma repr_plain (s : string) :
  all_chars plain_char s = true ->
  Py.repr s = String Py.single_quote (s ++ "'").
Proof.
  intro H. unfold Py.repr. rewrite (plain_not_quote s H). cbn [andb].
  rewrite (repr_chars_plain s H). reflexivity.
Qed.

Lemma all_chars_app (p : ascii -> bool) (a b : string) :
  all_chars p (a ++ b) = all_chars p a && all_chars p b.
Proof.
  induction a as [|c t IH]; [reflexivity|].
  cbn [String.append all_chars]. rewrite IH. apply andb_assoc.
Qed.

(** X24.  A tool call that names none of the three tools is answered
    without any external call, by the text of an error dictionary that
    repeats the name as [str] prints it; the model is told, and the run
    goes on.  This holds whatever the arguments are, as long as they
    decode.  For a name of printable characters other than the single
    quote and the backslash, the text is [{'error': 'Unknown tool: ]
    followed by the name and ['}]. *)
Theorem unknown_tool_is_answered
        gateway database exporter str str_summary
        (tc : MindsDBAgent.tool_call) (l : log) :
  is_known_tool (MindsDBAgent.name tc) = false ->
  (forall m, MindsDBAgent.args tc <> MindsDBAgent.BadArguments m) ->
  let content :=
    ("{'error': " ++ Py.repr ("Unknown tool: " ++ MindsDBAgent.name tc) ++ "}")%string in
  MindsDBAgent.execute_tool_call gateway database exporter str str_summary tc l
  = (inl content, l)
  /\ (all_chars plain_char (MindsDBAgent.name tc) = true ->
      content
      = ("{'error': 'Unknown tool: " ++ MindsDBAgent.name tc ++ "'}")%string)
  /\ forall rest,
       MindsDBAgent.execute_tool_calls gateway database exporter str
         str_summary (tc :: rest) l
       = let (rs, l2) :=
           MindsDBAgent.execute_tool_calls gateway database exporter str
             str_summary rest l in
         (match rs with
          | inr e => inr e
          | inl tool_results =>
              inl (MindsDBAgent.ToolMessage (MindsDBAgent.id tc)
                     (MindsDBAgent.name tc) content
                   :: tool_results)
          end, l2).
Proof.
  intros Hname Hargs content.
  assert (Hone : MindsDBAgent.execute_tool_call gateway database exporter str
                   str_summary tc l
                 = (inl content, l)).
  { unfold MindsDBAgent.execute_tool_call.
    unfold is_known_tool, known_tools in Hname. cbn [existsb] in Hname.
    apply orb_false_iff in Hname. destruct Hname as [H1 Hname].
    apply orb_false_iff in Hname. destruct Hname as [H2 Hname].
    apply orb_false_iff in Hname. destruct Hname as [H3 _].
    rewrite H1, H2, H3.
    destruct (MindsDBAgent.args tc) as [m| | ] eqn:Ha; try reflexivity.
    exfalso. exact (Hargs m eq_refl). }
  split; [exact Hone|]. split.
  - intro Hplain. unfold content.
    rewrite repr_plain by (rewrite all_chars_app, Hplain; reflexivity).
    cbn [String.append]. rewrite <- string_app_assoc. reflexivity.
  - intro rest.
    pose proof (agent_tool_calls_cons gateway database exporter str str_summary
                  tc rest l) as Hcons.
    rewrite Hone in Hcons. exact Hcons.
Qed.

Lemma unknown_tool_witness :
  fst (MindsDBAgent.execute_tool_call gateway_one_row database_empty
         exporter_none str_short str_summary_short lookup_call [])
  = inl "{'error': 'Unknown tool: lookup'}"%string
  /\ fst (MindsDBAgent.execute_tool_call gateway_one_row database_empty
            exporter_none str_short str_summary_short quoted_name_call [])
     = inl ("{'error': "
            ++ String Py.double_quote
                 ("Unknown tool: it's" ++ String Py.double_quote "}"))%string.
Proof.
  split.
  - rewrite (proj1 (unknown_tool_is_answered gateway_one_row database_empty
                      exporter_none str_short str_summary_short lookup_call
                      [] eq_refl ltac:(intros m H; discriminate H))).
    exact (f_equal inl
             (proj1 (proj2 (unknown_tool_is_answered gateway_one_row
                              database_empty exporter_none str_short
                              str_summary_short lookup_call
                              [] eq_refl ltac:(intros m H; discriminate H)))
                    eq_refl)).
  - rewrite (proj1 (unknown_tool_is_answered gateway_one_row database_empty
                      exporter_none str_short str_summary_short
                      quoted_name_call
                      [] eq_refl ltac:(intros m H; discriminate H))).
    reflexivity.
Defined.

(* ------------------------------------------------------------------ *)
(** ** The iterations of [run]                                         *)
(* ------------------------------------------------------------------ *)

Lemma agent_loop_step provider gateway database exporter str str_summary
      (fuel : nat) (messages : list MindsDBAgent.message) (l : log) :
  MindsDBAgent.loop provider gateway database exporter str str_summary
    (S fuel) messages l
  = let (r, l1) :=
      MindsDBAgent.call_with_retry provider MindsDBAgent.max_retries 0
        messages l in
    match r with
    | inr e => (Some (MindsDBAgent.Raised e), l1)
    | inl response =>
        match String.eqb (MindsDBAgent.finish_reason response) "tool_calls",
              MindsDBAgent.tool_calls response with
        | true, _ :: _ =>
            let (rs, l2) :=
              MindsDBAgent.execute_tool_calls gateway database exporter str
                str_summary (MindsDBAgent.tool_calls response) l1 in
            match rs with
            | inr e => (Some (MindsDBAgent.Raised e), l2)
            | inl tool_results =>
                MindsDBAgent.loop provider gateway database exporter str
                  str_summary fuel
                  (MindsDBAgent.prune
                     ((messages
                         ++ [MindsDBAgent.AssistantMessage
                               (MindsDBAgent.or_default EmptyString
                                  (MindsDBAgent.content response))
                               (MindsDBAgent.tool_calls response)])
                        ++ tool_results)) l2
            end
        | _, _ =>
            (Some (MindsDBAgent.Final
                     (MindsDBAgent.or_default EmptyString
                        (MindsDBAgent.content response))), l1)
        end
    end.
Proof.
  cbn [MindsDBAgent.loop]. unfold bind.
  destruct (MindsDBAgent.call_with_retry provider MindsDBAgent.max_retries 0
              messages l) as [[response|e] l1]; [|reflexivity].
  destruct (String.eqb (MindsDBAgent.finish_reason response) "tool_calls");
    [|reflexivity].
  destruct (MindsDBAgent.tool_calls response) as [|tc rest]; [reflexivity|].
  destruct (MindsDBAgent.execute_tool_calls gateway database exporter str
              str_summary (tc :: rest) l1) as [[trs|e] l2]; reflexivity.
Qed.

Lemma retry_ext provider provider' (messages : list MindsDBAgent.message) :
  (forall l, provider l messages = provider' l messages) ->
  forall (remaining retry : nat) (l : log),
    MindsDBAgent.call_with_retry provider remaining retry messages l
    = MindsDBAgent.call_with_retry provider' remaining retry messages l.
Proof.
  intro H. induction remaining as [|remaining IH]; intros retry l; [reflexivity|].
  pose proof (H l) as Hl.
  destruct (provider' l messages) as [e|response] eqn:Hp'.
  - destruct (MindsDBAgent.is_rate_limit e) eqn:Hrate.
    + destruct (Nat.lt_ge_cases retry (MindsDBAgent.max_retries - 1)) as [Hlt|Hge].
      * rewrite (retry_sleeps provider remaining retry messages l e Hl Hrate Hlt),
          (retry_sleeps provider' remaining retry messages l e Hp' Hrate Hlt).
        apply IH.
      * rewrite (retry_gives_up provider remaining retry messages l e Hl Hrate Hge),
          (retry_gives_up provider' remaining retry messages l e Hp' Hrate Hge).
        reflexivity.
    + rewrite (retry_other_error provider remaining retry messages l e Hl Hrate),
        (retry_other_error provider' remaining retry messages l e Hp' Hrate).
      reflexivity.
  - rewrite (retry_success provider remaining retry messages l response Hl),
      (retry_success provider' remaining retry messages l response Hp').
    reflexivity.
Qed.

Lemma answered_app (calls : list MindsDBAgent.tool_call) :
  forall rest more : list MindsDBAgent.message,
    answered calls rest = true -> answered calls (rest ++ more) = true.
Proof.
  induction calls as [|c calls IH]; intros rest more H; [reflexivity|].
  destruct rest as [|[t|t cs|i n c'] rest]; try discriminate H.
  simpl in H |- *. apply andb_true_iff in H. destruct H as [Hid H].
  rewrite Hid. apply IH, H.
Qed.

Lemma agent_paired_app (a b : list MindsDBAgent.message) :
  agent_paired a = true -> agent_paired b = true ->
  agent_paired (a ++ b) = true.
Proof.
  induction a as [|m a IH]; intros Ha Hb; [exact Hb|].
  simpl in Ha |- *. apply andb_true_iff in Ha. destruct Ha as [Hm Ha].
  rewrite (answered_app _ _ b Hm), (IH Ha Hb). reflexivity.
Qed.

Lemma answers_answered (calls : list MindsDBAgent.tool_call) :
  forall tool_results : list MindsDBAgent.message,
    map answer_of tool_results = map call_of calls ->
    answered calls tool_results = true /\ agent_paired tool_results = true.
Proof.
  induction calls as [|c calls IH]; intros [|t trs] H; try discriminate H.
  - split; reflexivity.
  - simpl in H. injection H as Ht Hrest.
    destruct t as [u|u cs|i n content]; try discriminate Ht.
    unfold call_of in Ht. simpl in Ht. injection Ht as -> ->.
    destruct (IH trs Hrest) as [Ha Hp].
    split; simpl.
    + rewrite String.eqb_refl, Ha. reflexivity.
    + exact Hp.
Qed.

Lemma opens_app (a b : list MindsDBAgent.message) :
  a <> [] -> opens_without_requests (a ++ b) = opens_without_requests a.
Proof. destruct a; [congruence | reflexivity]. Qed.

Lemma hd_error_app (a b : list MindsDBAgent.message) :
  a <> [] -> hd_error (a ++ b) = hd_error a.
Proof. destruct a; [congruence | reflexivity]. Qed.

Lemma agent_prune_keeps_head (messages : list MindsDBAgent.message) :
  hd_error (MindsDBAgent.prune messages) = hd_error messages
  /\ length (MindsDBAgent.prune messages) <= 12.
Proof.
  destruct (agent_prune_shape messages)
    as [[Hlen ->] | [_ [first [Hfirst [[-> _] | [-> _]]]]]].
  - split; [reflexivity | exact Hlen].
  - split; [symmetry; exact Hfirst|]. simpl. unfold last_items.
    rewrite length_skipn. lia.
  - split; [symmetry; exact Hfirst|]. simpl. unfold last_items.
    rewrite length_skipn. lia.
Qed.

Lemma agent_loop_ext provider provider' gateway database exporter str
      str_summary (initial : list MindsDBAgent.message) :
  (forall l messages,
     agent_paired messages = true ->
     hd_error messages = hd_error initial ->
     length messages <= 12 \/ messages = initial ->
     provider l messages = provider' l messages) ->
  forall (fuel : nat) (messages : list MindsDBAgent.message) (l : log),
    messages <> [] ->
    agent_paired messages = true ->
    opens_without_requests messages = true ->
    hd_error messages = hd_error initial ->
    length messages <= 12 \/ messages = initial ->
    MindsDBAgent.loop provider gateway database exporter str str_summary
      fuel messages l
    = MindsDBAgent.loop provider' gateway database exporter str str_summary
        fuel messages l.
Proof.
  intro Hagree.
  induction fuel as [|fuel IH]; intros messages l Hne Hpaired Hopen Hhd Hlen;
    [reflexivity|].
  rewrite !agent_loop_step.
  rewrite (retry_ext provider provider' messages
             (fun l0 => Hagree l0 messages Hpaired Hhd Hlen)).
  destruct (MindsDBAgent.call_with_retry provider' MindsDBAgent.max_retries 0
              messages l) as [[response|e] l1]; [|reflexivity].
  destruct (String.eqb (MindsDBAgent.finish_reason response) "tool_calls");
    [|reflexivity].
  destruct (MindsDBAgent.tool_calls response) as [|tc rest] eqn:Hcalls;
    [reflexivity|].
  pose proof (agent_tool_calls_spec gateway database exporter str str_summary
                (tc :: rest) l1) as Hspec.
  destruct (MindsDBAgent.execute_tool_calls gateway database exporter str
              str_summary (tc :: rest) l1) as [[trs|e] l2]; [|reflexivity].
  cbn [fst] in Hspec. destruct (answers_answered _ _ Hspec) as [Hans Htrs].
  set (grown := (messages
                   ++ [MindsDBAgent.AssistantMessage
                         (MindsDBAgent.or_default EmptyString
                            (MindsDBAgent.content response)) (tc :: rest)])
                  ++ trs).
  assert (Hgrown : grown
                   = messages
                       ++ MindsDBAgent.AssistantMessage
                            (MindsDBAgent.or_default EmptyString
                               (MindsDBAgent.content response)) (tc :: rest)
                          :: trs).
  { unfold grown. rewrite <- app_assoc. reflexivity. }
  assert (Hgp : agent_paired grown = true).
  { rewrite Hgrown. apply agent_paired_app; [exact Hpaired|].
    cbn [agent_paired requests]. rewrite Hans, Htrs. reflexivity. }
  assert (Hgo : opens_without_requests grown = true).
  { rewrite Hgrown, opens_app by exact Hne. exact Hopen. }
  assert (Hgh : hd_error grown = hd_error initial).
  { rewrite Hgrown, hd_error_app by exact Hne. exact Hhd. }
  destruct (agent_prune_keeps_head grown) as [Hph Hpl].
  apply IH.
  - intro Hnil. rewrite Hnil in Hph. rewrite Hgh, <- Hhd in Hph.
    destruct messages; [congruence | discriminate Hph].
  - apply agent_prune_paired; assumption.
  - destruct (agent_prune_shape grown)
      as [[_ ->] | [_ [first [Hfirst [[-> _] | [-> _]]]]]]; [exact Hgo | |];
      (destruct grown as [|g grown']; [discriminate Hfirst|];
       injection Hfirst as ->; exact Hgo).
  - rewrite Hph. exact Hgh.
  - left. exact Hpl.
Qed.

(** X25.  What the provider is shown by [run].  From a conversation
    history in which every tool request is answered, [run] consults the
    provider on the initial transcript and, after that, only on
    transcripts of at most 12 messages that open with the first message
    of the initial one and in which every assistant message with tool
    calls is immediately followed by the answers to those calls, id by
    id: two providers that agree on all such transcripts give the same
    run. *)
Theorem agent_provider_sees_paired_transcripts
        provider provider' gateway database exporter str str_summary
        (fuel : nat) (user_message : string)
        (conversation_history : list MindsDBAgent.message) :
  agent_paired conversation_history = true ->
  opens_without_requests conversation_history = true ->
  (forall l messages,
     agent_paired messages = true ->
     hd_error messages
     = hd_error (conversation_history
                   ++ [MindsDBAgent.UserMessage user_message]) ->
     length messages <= 12
     \/ messages = conversation_history
                     ++ [MindsDBAgent.UserMessage user_message] ->
     provider l messages = provider' l messages) ->
  MindsDBAgent.run provider gateway database exporter str str_summary
    fuel user_message conversation_history []
  = MindsDBAgent.run provider' gateway database exporter str str_summary
      fuel user_message conversation_history [].
Proof.
  intros Hpaired Hopen Hagree. unfold MindsDBAgent.run.
  apply (agent_loop_ext provider provider' gateway database exporter str
           str_summary
           (conversation_history ++ [MindsDBAgent.UserMessage user_message])
           Hagree).
  - destruct conversation_history; discriminate.
  - apply agent_paired_app; [exact Hpaired | reflexivity].
  - destruct conversation_history as [|m rest]; [reflexivity | exact Hopen].
  - reflexivity.
  - right. reflexivity.
Qed.

Lemma agent_provider_sees_paired_transcripts_witness :
  MindsDBAgent.run (provider_tool_turns 20) gateway_one_row database_empty
    exporter_none str_short str_summary_short 30 "question" [] []
  = MindsDBAgent.run provider_fails_on_long gateway_one_row database_empty
      exporter_none str_short str_summary_short 30 "question" [] [].
Proof.
  apply agent_provider_sees_paired_transcripts; [reflexivity | reflexivity |].
  intros l messages _ _ [Hlen | ->]; unfold provider_fails_on_long.
  - destruct (Nat.leb_spec (length messages) 12); [reflexivity | lia].
  - reflexivity.
Defined.


(** X27.  How [run] ends without tools.  A response that does not finish
    with [tool_calls], or that finishes with it but names no call, ends
    the run with its content (the empty text when there is none): tool
    calls named by a response with another finish reason are not
    executed.  An error of the provider that mentions neither [rate] nor
    [limit] leaves [run] after that one completion call, without a
    sleep.  (The agent is taken with [create_alerts] off, its default:
    no alert is posted after the final response.) *)
Theorem run_ends_without_tools
        provider gateway database exporter str str_summary
        (fuel : nat) (user_message : string)
        (conversation_history : list MindsDBAgent.message) (l : log) :
  let initial := conversation_history
                   ++ [MindsDBAgent.UserMessage user_message] in
  (forall response,
     provider l initial = MindsDBAgent.Success response ->
     MindsDBAgent.finish_reason response <> "tool_calls"%string
     \/ MindsDBAgent.tool_calls response = [] ->
     MindsDBAgent.run provider gateway database exporter str str_summary
       (S fuel) user_message conversation_history l
     = (Some (MindsDBAgent.Final
                (match MindsDBAgent.content response with
                 | Some text => text
                 | None => EmptyString
                 end)),
        l ++ [ECompletion]))
  /\ (forall e,
        provider l initial = MindsDBAgent.Error e ->
        MindsDBAgent.is_rate_limit e = false ->
        MindsDBAgent.run provider gateway database exporter str str_summary
          (S fuel) user_message conversation_history l
        = (Some (MindsDBAgent.Raised e), l ++ [ECompletion])).
Proof.
  cbv zeta. split.
  - intros response Hp Hwhy. unfold MindsDBAgent.run.
    rewrite agent_loop_step. unfold MindsDBAgent.max_retries.
    rewrite (retry_success provider 4 0 _ l response Hp).
    destruct Hwhy as [Hreason | Hnone].
    + apply String.eqb_neq in Hreason. rewrite Hreason. reflexivity.
    + rewrite Hnone.
      destruct (String.eqb (MindsDBAgent.finish_reason response) "tool_calls");
        reflexivity.
  - intros e Hp Hrate. unfold MindsDBAgent.run.
    rewrite agent_loop_step. unfold MindsDBAgent.max_retries.
    rewrite (retry_other_error provider 4 0 _ l e Hp Hrate). reflexivity.
Qed.

Lemma run_ends_without_tools_witness :
  MindsDBAgent.run provider_stop_with_calls gateway_one_row database_empty
    exporter_none str_short str_summary_short 3 "question" [] []
  = (Some (MindsDBAgent.Final EmptyString), [ECompletion])
  /\ MindsDBAgent.run provider_unauthorized gateway_one_row database_empty
       exporter_none str_short str_summary_short 3 "question" [] []
     = (Some (MindsDBAgent.Raised "AuthenticationError: 401"), [ECompletion]).
Proof.
  split.
  - apply (proj1 (run_ends_without_tools provider_stop_with_calls
                    gateway_one_row database_empty exporter_none str_short
                    str_summary_short 2 "question" [] [])
                 stop_with_calls); [reflexivity|].
    left. intro H. vm_compute in H. discriminate H.
  - exact (proj2 (run_ends_without_tools provider_unauthorized
                    gateway_one_row database_empty exporter_none str_short
                    str_summary_short 2 "question" [] [])
                 "AuthenticationError: 401"%string eq_refl eq_refl).
Defined.

(* ------------------------------------------------------------------ *)
(** ** The conversation history of [interactive_mode]                  *)
(* ------------------------------------------------------------------ *)

Section Session.

Variable provider
  : log -> list MindsDBAgent.message -> MindsDBAgent.completion_outcome.
Variable gateway : log -> string -> MindsDBTool.http_outcome.
Variable database : log -> string -> list value -> PostgresDirectTool.pg_outcome.
Variable exporter : log -> MindsDBAgent.arguments -> string.
Variable str : result -> string.
Variable str_summary : MindsDBAgent.result_summary -> string.

Lemma loop_shared_step (fuel : nat) (messages : list MindsDBAgent.message)
      (shared : bool) (history : list MindsDBAgent.message) (l : log) :
  InteractiveMode.loop_shared provider gateway database exporter str
    str_summary (S fuel) messages shared history l
  = let (r, l1) :=
      MindsDBAgent.call_with_retry provider MindsDBAgent.max_retries 0
        messages l in
    match r with
    | inr e => ((Some (MindsDBAgent.Raised e), history), l1)
    | inl response =>
        match String.eqb (MindsDBAgent.finish_reason response) "tool_calls",
              MindsDBAgent.tool_calls response with
        | true, _ :: _ =>
            let (rs, l2) :=
              MindsDBAgent.execute_tool_calls gateway database exporter str
                str_summary (MindsDBAgent.tool_calls response) l1 in
            match rs with
            | inr e => ((Some (MindsDBAgent.Raised e), history), l2)
            | inl tool_results =>
                let grown :=
                  (messages
                     ++ [MindsDBAgent.AssistantMessage
                           (MindsDBAgent.or_default EmptyString
                              (MindsDBAgent.content response))
                           (MindsDBAgent.tool_calls response)])
                    ++ tool_results in
                InteractiveMode.loop_shared provider gateway database exporter
                  str str_summary fuel (MindsDBAgent.prune grown)
                  (shared && negb (12 <? length grown))
                  (if shared then grown else history) l2
            end
        | _, _ =>
            ((Some (MindsDBAgent.Final
                      (MindsDBAgent.or_default EmptyString
                         (MindsDBAgent.content response))), history), l1)
        end
    end.
Proof.
  cbn [InteractiveMode.loop_shared]. unfold bind.
  destruct (MindsDBAgent.call_with_retry provider MindsDBAgent.max_retries 0
              messages l) as [[response|e] l1]; [|reflexivity].
  destruct (String.eqb (MindsDBAgent.finish_reason response) "tool_calls");
    [|reflexivity].
  destruct (MindsDBAgent.tool_calls response) as [|tc rest]; [reflexivity|].
  destruct (MindsDBAgent.execute_tool_calls gateway database exporter str
              str_summary (tc :: rest) l1) as [[trs|e] l2]; reflexivity.
Qed.

(** The caller's list plays no part in what [run] returns and does. *)
Lemma loop_shared_refines (fuel : nat) :
  forall (messages : list MindsDBAgent.message) (shared : bool)
         (history : list MindsDBAgent.message) (l : log),
    let r := InteractiveMode.loop_shared provider gateway database exporter
               str str_summary fuel messages shared history l in
    (fst (fst r), snd r)
    = MindsDBAgent.loop provider gateway database exporter str str_summary
        fuel messages l.
Proof.
  induction fuel as [|fuel IH]; intros messages shared history l; cbv zeta;
    [reflexivity|].
  rewrite loop_shared_step, agent_loop_step.
  destruct (MindsDBAgent.call_with_retry provider MindsDBAgent.max_retries 0
              messages l) as [[response|e] l1]; [|reflexivity].
  destruct (String.eqb (MindsDBAgent.finish_reason response) "tool_calls");
    [|reflexivity].
  destruct (MindsDBAgent.tool_calls response) as [|tc rest]; [reflexivity|].
  destruct (MindsDBAgent.execute_tool_calls gateway database exporter str
              str_summary (tc :: rest) l1) as [[trs|e] l2]; [|reflexivity].
  cbv zeta. apply IH.
Qed.

Lemma loop_unshared_history (fuel : nat) :
  forall (messages history : list MindsDBAgent.message) (l : log),
    snd (fst (InteractiveMode.loop_shared provider gateway database exporter
                str str_summary fuel messages false history l))
    = history.
Proof.
  induction fuel as [|fuel IH]; intros messages history l; [reflexivity|].
  rewrite loop_shared_step.
  destruct (MindsDBAgent.call_with_retry provider MindsDBAgent.max_retries 0
              messages l) as [[response|e] l1]; [|reflexivity].
  destruct (String.eqb (MindsDBAgent.finish_reason response) "tool_calls");
    [|reflexivity].
  destruct (MindsDBAgent.tool_calls response) as [|tc rest]; [reflexivity|].
  destruct (MindsDBAgent.execute_tool_calls gateway database exporter str
              str_summary (tc :: rest) l1) as [[trs|e] l2]; [|reflexivity].
  cbv zeta. cbn [andb]. apply IH.
Qed.

Lemma answers_not_user (calls : list MindsDBAgent.tool_call) :
  forall tool_results : list MindsDBAgent.message,
    map answer_of tool_results = map call_of calls ->
    Forall (fun m => MindsDBAgent.role m <> "user"%string) tool_results.
Proof.
  induction calls as [|c calls IH]; intros [|t trs] H; try discriminate H.
  - constructor.
  - simpl in H. injection H as Ht Hrest.
    destruct t as [u|u cs|i n content]; try discriminate Ht.
    constructor; [intro Hrole; discriminate Hrole | apply IH, Hrest].
Qed.

Lemma appended_step (fuel : nat) (messages : list MindsDBAgent.message)
      (l : log) :
  appended_in_place provider gateway database exporter str str_summary
    (S fuel) messages l
  = let (r, l1) :=
      MindsDBAgent.call_with_retry provider MindsDBAgent.max_retries 0
        messages l in
    match r with
    | inr _ => []
    | inl response =>
        match String.eqb (MindsDBAgent.finish_reason response) "tool_calls",
              MindsDBAgent.tool_calls response with
        | true, _ :: _ =>
            let (rs, l2) :=
              MindsDBAgent.execute_tool_calls gateway database exporter str
                str_summary (MindsDBAgent.tool_calls response) l1 in
            match rs with
            | inr _ => []
            | inl tool_results =>
                let exchange :=
                  MindsDBAgent.AssistantMessage
                    (MindsDBAgent.or_default EmptyString
                       (MindsDBAgent.content response))
                    (MindsDBAgent.tool_calls response)
                  :: tool_results in
                exchange
                  ++ (if 12 <? length (messages ++ exchange) then []
                      else appended_in_place provider gateway database exporter
                             str str_summary fuel (messages ++ exchange) l2)
            end
        | _, _ => []
        end
    end.
Proof.
  cbn [appended_in_place].
  destruct (MindsDBAgent.call_with_retry provider MindsDBAgent.max_retries 0
              messages l) as [[response|e] l1]; [|reflexivity].
  destruct (String.eqb (MindsDBAgent.finish_reason response) "tool_calls");
    [|reflexivity].
  destruct (MindsDBAgent.tool_calls response) as [|tc rest]; [reflexivity|].
  destruct (MindsDBAgent.execute_tool_calls gateway database exporter str
              str_summary (tc :: rest) l1) as [[trs|e] l2]; reflexivity.
Qed.

(** While [messages] is the caller's list, the caller's list ends as the
    transcript followed by what the iterations add before the first
    pruning. *)
Lemma loop_shared_history (fuel : nat) :
  forall (messages : list MindsDBAgent.message) (l : log),
    snd (fst (InteractiveMode.loop_shared provider gateway database exporter
                str str_summary fuel messages true messages l))
    = messages
        ++ appended_in_place provider gateway database exporter str
             str_summary fuel messages l.
Proof.
  induction fuel as [|fuel IH]; intros messages l.
  - symmetry. apply app_nil_r.
  - rewrite loop_shared_step, appended_step.
    destruct (MindsDBAgent.call_with_retry provider MindsDBAgent.max_retries 0
                messages l) as [[response|e] l1];
      [|symmetry; apply app_nil_r].
    destruct (String.eqb (MindsDBAgent.finish_reason response) "tool_calls");
      [|symmetry; apply app_nil_r].
    destruct (MindsDBAgent.tool_calls response) as [|tc rest];
      [symmetry; apply app_nil_r|].
    destruct (MindsDBAgent.execute_tool_calls gateway database exporter str
                str_summary (tc :: rest) l1) as [[trs|e] l2];
      [|symmetry; apply app_nil_r].
    cbv zeta. cbn [andb].
    set (assistant := MindsDBAgent.AssistantMessage
                        (MindsDBAgent.or_default EmptyString
                           (MindsDBAgent.content response)) (tc :: rest)).
    replace ((messages ++ [assistant]) ++ trs)
      with (messages ++ assistant :: trs)
      by (rewrite <- app_assoc; reflexivity).
    set (grown := messages ++ assistant :: trs).
    destruct (Nat.ltb_spec 12 (length grown)) as [Hlong|Hshort]; cbn [negb].
    + rewrite loop_unshared_history, app_nil_r. reflexivity.
    + replace (MindsDBAgent.prune grown) with grown.
      * rewrite IH. unfold grown. rewrite <- app_assoc. reflexivity.
      * destruct (agent_prune_shape grown) as [[_ ->] | [Hlong _]];
          [reflexivity | lia].
Qed.

Lemma appended_not_user (fuel : nat) :
  forall (messages : list MindsDBAgent.message) (l : log),
    Forall (fun m => MindsDBAgent.role m <> "user"%string)
      (appended_in_place provider gateway database exporter str str_summary
         fuel messages l).
Proof.
  induction fuel as [|fuel IH]; intros messages l; [constructor|].
  rewrite appended_step.
  destruct (MindsDBAgent.call_with_retry provider MindsDBAgent.max_retries 0
              messages l) as [[response|e] l1]; [|constructor].
  destruct (String.eqb (MindsDBAgent.finish_reason response) "tool_calls");
    [|constructor].
  destruct (MindsDBAgent.tool_calls response) as [|tc rest]; [constructor|].
  pose proof (agent_tool_calls_spec gateway database exporter str str_summary
                (tc :: rest) l1) as Hspec.
  destruct (MindsDBAgent.execute_tool_calls gateway database exporter str
              str_summary (tc :: rest) l1) as [[trs|e] l2]; [|constructor].
  cbn [fst] in Hspec. pose proof (answers_not_user _ _ Hspec) as Htrs.
  cbv zeta. apply Forall_app. split.
  - constructor; [intro Hrole; discriminate Hrole | exact Htrs].
  - destruct (12 <? length _); [constructor | apply IH].
Qed.

End Session.

(** X26.  Arguments that do not decode end the run.  When the response
    asks for tool calls and the arguments of one of them are not valid
    JSON, [run] raises the decoding error: the calls before that one have
    been executed, their results are dropped, the calls after it are not
    executed, the provider is not consulted again, and no message is
    appended: the list of the caller is left as it was when the response
    came. *)
Theorem undecodable_arguments_end_run
        provider gateway database exporter str str_summary
        (fuel : nat) (messages : list MindsDBAgent.message) (l : log)
        (response : MindsDBAgent.response)
        (before after : list MindsDBAgent.tool_call) tc (m : string)
        (done : list MindsDBAgent.message) :
  provider l messages = MindsDBAgent.Success response ->
  MindsDBAgent.finish_reason response = "tool_calls"%string ->
  MindsDBAgent.tool_calls response = before ++ tc :: after ->
  MindsDBAgent.args tc = MindsDBAgent.BadArguments m ->
  fst (MindsDBAgent.execute_tool_calls gateway database exporter str
         str_summary before (l ++ [ECompletion])) = inl done ->
  MindsDBAgent.loop provider gateway database exporter str str_summary
    (S fuel) messages l
  = (Some (MindsDBAgent.Raised m),
     snd (MindsDBAgent.execute_tool_calls gateway database exporter str
            str_summary before (l ++ [ECompletion])))
  /\ forall (shared : bool) (history : list MindsDBAgent.message),
       InteractiveMode.loop_shared provider gateway database exporter str
         str_summary (S fuel) messages shared history l
       = ((Some (MindsDBAgent.Raised m), history),
          snd (MindsDBAgent.execute_tool_calls gateway database exporter str
                 str_summary before (l ++ [ECompletion]))).
Proof.
  intros Hp Hfinish Hcalls Hbad Hdone.
  assert (Hne : MindsDBAgent.tool_calls response <> [])
    by (rewrite Hcalls; destruct before; discriminate).
  assert (Hexec : MindsDBAgent.execute_tool_calls gateway database exporter
                    str str_summary (MindsDBAgent.tool_calls response)
                    (l ++ [ECompletion])
                  = (inr m,
                     snd (MindsDBAgent.execute_tool_calls gateway database
                            exporter str str_summary before
                            (l ++ [ECompletion])))).
  { rewrite Hcalls.
    rewrite (agent_tool_calls_app gateway database exporter str str_summary
               before (tc :: after) (l ++ [ECompletion]) done Hdone).
    rewrite agent_tool_calls_cons.
    rewrite (bad_arguments_raise gateway database exporter str str_summary
               tc m _ Hbad).
    reflexivity. }
  split.
  - rewrite agent_loop_step. unfold MindsDBAgent.max_retries.
    rewrite (retry_success provider 4 0 messages l response Hp).
    rewrite Hfinish. cbn [String.eqb Ascii.eqb Bool.eqb andb].
    rewrite Hexec.
    destruct (MindsDBAgent.tool_calls response) as [|c cs];
      [congruence | reflexivity].
  - intros shared history.
    rewrite (loop_shared_step provider gateway database exporter str
               str_summary).
    unfold MindsDBAgent.max_retries.
    rewrite (retry_success provider 4 0 messages l response Hp).
    rewrite Hfinish. cbn [String.eqb Ascii.eqb Bool.eqb andb].
    rewrite Hexec.
    destruct (MindsDBAgent.tool_calls response) as [|c cs];
      [congruence | reflexivity].
Qed.

Lemma undecodable_arguments_witness :
  fst (MindsDBAgent.loop provider_bad_batch gateway_one_row database_empty
         exporter_none str_short str_summary_short 5
         [MindsDBAgent.UserMessage "question"] [])
  = Some (MindsDBAgent.Raised "Expecting value: line 1 column 1 (char 0)")
  /\ fst (InteractiveMode.loop_shared provider_bad_batch gateway_one_row
            database_empty exporter_none str_short str_summary_short 5
            (history_one_turn ++ [MindsDBAgent.UserMessage "question"]) true
            (history_one_turn ++ [MindsDBAgent.UserMessage "question"]) [])
     = (Some (MindsDBAgent.Raised "Expecting value: line 1 column 1 (char 0)"),
        history_one_turn ++ [MindsDBAgent.UserMessage "question"]).
Proof.
  split.
  - rewrite (proj1 (undecodable_arguments_end_run provider_bad_batch
                      gateway_one_row database_empty exporter_none str_short
                      str_summary_short 4
                      [MindsDBAgent.UserMessage "question"] [] bad_batch
                      [call "c1"] [call "c3"] bad_call
                      "Expecting value: line 1 column 1 (char 0)"
                      [answer "c1"] eq_refl eq_refl eq_refl eq_refl eq_refl)).
    reflexivity.
  - rewrite (proj2 (undecodable_arguments_end_run provider_bad_batch
                      gateway_one_row database_empty exporter_none str_short
                      str_summary_short 4
                      (history_one_turn ++ [MindsDBAgent.UserMessage "question"])
                      [] bad_batch
                      [call "c1"] [call "c3"] bad_call
                      "Expecting value: line 1 column 1 (char 0)"
                      [answer "c1"] eq_refl eq_refl eq_refl eq_refl eq_refl)).
    reflexivity.
Defined.

(** X28.  The first turn of an interactive session.  With an empty
    conversation history, [run] works on a list of its own: when it
    returns, the history holds the question and the answer, and nothing
    of the tool traffic; when it raises, the history stays empty. *)
Theorem first_turn_history
        provider gateway database exporter str str_summary
        (fuel : nat) (line : string) (l : log) :
  InteractiveMode.is_quit (Py.strip line) = false ->
  Py.strip line <> EmptyString ->
  (forall response,
     fst (MindsDBAgent.run provider gateway database exporter str str_summary
            fuel (Py.strip line) [] l)
     = Some (MindsDBAgent.Final response) ->
     fst (InteractiveMode.interactive_turn provider gateway database exporter
            str str_summary fuel line [] l)
     = InteractiveMode.Continue
         [MindsDBAgent.UserMessage (Py.strip line);
          MindsDBAgent.AssistantMessage response []])
  /\ (forall e,
        fst (MindsDBAgent.run provider gateway database exporter str
               str_summary fuel (Py.strip line) [] l)
        = Some (MindsDBAgent.Raised e) ->
        fst (InteractiveMode.interactive_turn provider gateway database
               exporter str str_summary fuel line [] l)
        = InteractiveMode.Continue []).
Proof.
  intros Hquit Hinput.
  apply String.eqb_neq in Hinput.
  unfold InteractiveMode.interactive_turn. rewrite Hquit, Hinput.
  unfold bind, InteractiveMode.run_shared, MindsDBAgent.run.
  pose proof (loop_shared_refines provider gateway database exporter str
                str_summary fuel ([] ++ [MindsDBAgent.UserMessage (Py.strip line)])
                false [] l) as Href.
  pose proof (loop_unshared_history provider gateway database exporter str
                str_summary fuel
                ([] ++ [MindsDBAgent.UserMessage (Py.strip line)]) [] l) as Hh.
  cbv zeta in Href.
  destruct (InteractiveMode.loop_shared provider gateway database exporter str
              str_summary fuel
              ([] ++ [MindsDBAgent.UserMessage (Py.strip line)]) false [] l)
    as [[o h] l'].
  cbn [fst snd] in Href, Hh. subst h. rewrite <- Href. cbn [fst].
  split.
  - intros response ->. reflexivity.
  - intros e ->. reflexivity.
Qed.

Lemma first_turn_history_witness :
  fst (InteractiveMode.interactive_turn (provider_tool_turns 1) gateway_one_row
         database_empty exporter_none str_short str_summary_short 5
         "  How many records? " [] [])
  = InteractiveMode.Continue
      [MindsDBAgent.UserMessage "How many records?";
       MindsDBAgent.AssistantMessage "done" []].
Proof.
  exact (proj1 (first_turn_history (provider_tool_turns 1) gateway_one_row
                  database_empty exporter_none str_short str_summary_short 5
                  "  How many records? " [] eq_refl
                  ltac:(intro H; discriminate H))
               "done"%string eq_refl).
Defined.

(** X29.  The later turns of an interactive session.  With a history
    that is not empty, [run] appends to the caller's list: when it
    returns, the history holds the question twice, once appended by [run]
    and once by [interactive_mode], and between the two the assistant and
    tool messages that the iterations of [run] added before its first
    pruning; when it raises, the question and those messages stay in the
    history. *)
Theorem later_turn_history
        provider gateway database exporter str str_summary
        (fuel : nat) (line : string)
        (conversation_history : list MindsDBAgent.message) (l : log) :
  conversation_history <> [] ->
  InteractiveMode.is_quit (Py.strip line) = false ->
  Py.strip line <> EmptyString ->
  let question := MindsDBAgent.UserMessage (Py.strip line) in
  let middle :=
    appended_in_place provider gateway database exporter str str_summary
      fuel (conversation_history ++ [question]) l in
  (forall response,
     fst (MindsDBAgent.run provider gateway database exporter str str_summary
            fuel (Py.strip line) conversation_history l)
     = Some (MindsDBAgent.Final response) ->
     fst (InteractiveMode.interactive_turn provider gateway database
            exporter str str_summary fuel line conversation_history l)
     = InteractiveMode.Continue
         (conversation_history
            ++ [question] ++ middle
            ++ [question; MindsDBAgent.AssistantMessage response []]))
  /\ (forall e,
        fst (MindsDBAgent.run provider gateway database exporter str
               str_summary fuel (Py.strip line) conversation_history l)
        = Some (MindsDBAgent.Raised e) ->
        fst (InteractiveMode.interactive_turn provider gateway database
               exporter str str_summary fuel line conversation_history l)
        = InteractiveMode.Continue
            (conversation_history ++ [question] ++ middle))
  /\ Forall (fun m => MindsDBAgent.role m <> "user"%string) middle.
Proof.
  intros Hne Hquit Hinput question middle.
  split; [|split; [|apply appended_not_user]].
  all: apply String.eqb_neq in Hinput;
    unfold InteractiveMode.interactive_turn; rewrite Hquit, Hinput;
    unfold bind, InteractiveMode.run_shared, MindsDBAgent.run;
    (destruct conversation_history as [|m0 rest]; [congruence|]);
    fold question;
    pose proof (loop_shared_refines provider gateway database exporter str
                  str_summary fuel ((m0 :: rest) ++ [question]) true
                  ((m0 :: rest) ++ [question]) l) as Href;
    pose proof (loop_shared_history provider gateway database exporter str
                  str_summary fuel ((m0 :: rest) ++ [question]) l) as Hh;
    fold middle in Hh; cbv zeta in Href;
    destruct (InteractiveMode.loop_shared provider gateway database exporter
                str str_summary fuel ((m0 :: rest) ++ [question]) true
                ((m0 :: rest) ++ [question]) l) as [[o h] l'];
    cbn [fst snd] in Href, Hh; subst h; rewrite <- Href; cbn [fst].
  - intros response ->. cbn [fst]. rewrite <- !app_assoc. reflexivity.
  - intros e ->. cbn [fst]. rewrite <- !app_assoc. reflexivity.
Qed.

Lemma later_turn_history_witness :
  fst (InteractiveMode.interactive_turn (provider_tool_turns 1)
         gateway_one_row database_empty exporter_none str_short
         str_summary_short 5 "And failures?" history_one_turn [])
  = InteractiveMode.Continue
      [ MindsDBAgent.UserMessage "How many records?";
        MindsDBAgent.AssistantMessage "42 records" [];
        MindsDBAgent.UserMessage "And failures?";
        MindsDBAgent.AssistantMessage "" [lookup_call];
        MindsDBAgent.ToolMessage "call_1" "lookup"
          "{'error': 'Unknown tool: lookup'}";
        MindsDBAgent.UserMessage "And failures?";
        MindsDBAgent.AssistantMessage "done" [] ].
Proof.
  rewrite (proj1 (later_turn_history (provider_tool_turns 1) gateway_one_row
                    database_empty exporter_none str_short str_summary_short 5
                    "And failures?" history_one_turn []
                    ltac:(intro H; discriminate H) eq_refl
                    ltac:(intro H; discriminate H))
                 "done"%string eq_refl).
  reflexivity.
Defined.
